(** * PubMed MCP server: document normalisation, related-id resolution,
      query augmentation and rendering (src/server.py)

    A shallow embedding of the pure core of [PubMedMCPServer]: the
    methods [_parse_articles], [_parse_single_article], the seven
    [_extract_*] helpers, [_format_article_details], and the pure
    fragments of [_search_pubmed] (date filter) and
    [_get_similar_articles] (linked-id collection).

    The document tree handed over by [xmltodict.parse] is an untyped
    Python object; it is embedded as the inductive type [value].  Python
    exceptions are embedded as the error monad [result]; a
    [try ... except Exception] block is [try_except].

    Text is embedded as [string], holding the UTF-8 encoding of the
    [str].  The character-level builtins [len], slicing, [str.lower],
    [str.isdigit], [str.strip] and [repr] go by Unicode character, with
    the character properties of the Unicode Character Database 14.0. *)

From stdpp Require Import base option list strings gmap pretty.
From Stdlib Require Import ZArith Ascii Lia.

Set Warnings "-register-all".

(** ** Python objects *)

Module Py.

(** What [xmltodict.parse] can return: [None] (an empty element), a
    [str], a [list], or a [dict] with [str] keys (kept in insertion
    order, as [repr] shows it). *)
Inductive value : Type :=
| VNone
| VStr (s : string)
| VList (l : list value)
| VDict (d : list (string * value)).

(** The exceptions the embedded code can raise.  Every one of them is
    a subclass of [Exception]. *)
Inductive exn : Type :=
| AttributeError
| TypeError
| KeyError.

Inductive result (A : Type) : Type :=
| Ok (a : A)
| Raise (e : exn).
Arguments Ok {A} a.
Arguments Raise {A} e.

#[global] Instance result_ret : MRet result := fun _ a => Ok a.
#[global] Instance result_bind : MBind result := fun _ _ f m =>
  match m with
  | Ok a => f a
  | Raise e => Raise e
  end.
#[global] Instance result_fmap : FMap result := fun _ _ f m =>
  match m with
  | Ok a => Ok (f a)
  | Raise e => Raise e
  end.

(** [try: return body / except Exception: return dflt]. *)
Definition try_except {A} (body : result A) (dflt : A) : A :=
  match body with
  | Ok a => a
  | Raise _ => dflt
  end.

(** A [for] loop whose body may raise: the loop state is threaded
    through the iterations, the first exception aborts the loop. *)
Fixpoint for_each {S A} (body : S → A → result S) (l : list A) (s : S)
  : result S :=
  match l with
  | [] => Ok s
  | x :: l' => s' ← body s x; for_each body l' s'
  end.

(** A list comprehension [[f x for x in l]] whose element expression may
    raise. *)
Fixpoint comprehension {A B} (f : A → result B) (l : list A)
  : result (list B) :=
  match l with
  | [] => Ok []
  | x :: l' => y ← f x; ys ← comprehension f l'; Ok (y :: ys)
  end.

(** *** Truthiness and [isinstance] *)

Definition truthy (v : value) : bool :=
  match v with
  | VNone => false
  | VStr s => negb (String.eqb s "")
  | VList l => match l with [] => false | _ => true end
  | VDict d => match d with [] => false | _ => true end
  end.

Definition is_list (v : value) : bool :=
  match v with VList _ => true | _ => false end.

Definition is_dict (v : value) : bool :=
  match v with VDict _ => true | _ => false end.

(** *** Dictionaries *)

Fixpoint dict_lookup (d : list (string * value)) (k : string)
  : option value :=
  match d with
  | [] => None
  | (k', v) :: d' => if String.eqb k' k then Some v else dict_lookup d' k
  end.

(** [v.get(k, dflt)]: only a [dict] has a [get] method. *)
Definition get (v : value) (k : string) (dflt : value) : result value :=
  match v with
  | VDict d => Ok (default dflt (dict_lookup d k))
  | _ => Raise AttributeError
  end.

(** [v[k]] for a [str] key [k]. *)
Definition getitem (v : value) (k : string) : result value :=
  match v with
  | VDict d =>
      match dict_lookup d k with
      | Some x => Ok x
      | None => Raise KeyError
      end
  | _ => Raise TypeError
  end.

(** *** Strings

    A [str] is a sequence of Unicode characters.  It is held here in
    UTF-8: equality, concatenation, [in] and [replace] are those of the
    byte sequences, while [len], slicing and iteration go by character,
    and [lower], [isdigit], [strip] and [repr] read the properties of a
    character off the tables of the Unicode Character Database
    (version 14.0, the one of CPython 3.11), as the methods of [str]
    do. *)

(** A continuation byte of UTF-8, [10xxxxxx]. *)
Definition is_continuation (b : ascii) : bool :=
  let n := nat_of_ascii b in (128 <=? n)%nat && (n <? 192)%nat.

Definition starts_continued (s : string) : bool :=
  match s with
  | EmptyString => false
  | String b _ => is_continuation b
  end.

(** [list(s)], the characters of [s]: a character is a byte with the
    continuation bytes that follow it. *)
Fixpoint chars (s : string) : list string :=
  match s with
  | EmptyString => []
  | String b s' =>
      if starts_continued s' then
        match chars s' with
        | c :: cs => String b c :: cs
        | [] => [String b EmptyString]
        end
      else String b EmptyString :: chars s'
  end.

(** ["".join(cs)] *)
Definition unchars (cs : list string) : string := foldr String.append "" cs.

(** [len(s)] *)
Definition len (s : string) : nat := length (chars s).

(** [ord(c)] for a character [c]; a byte sequence that is no
    well-formed character (which no [str] holds) has none. *)
Definition code_point (c : string) : option N :=
  let trail b := (N_of_ascii b - 128)%N in
  match c with
  | String b0 EmptyString =>
      let n := N_of_ascii b0 in
      if (n <? 128)%N then Some n else None
  | String b0 (String b1 EmptyString) =>
      let n := ((N_of_ascii b0 - 192) * 64 + trail b1)%N in
      if (192 <=? N_of_ascii b0)%N && (N_of_ascii b0 <? 224)%N
         && is_continuation b1 && (128 <=? n)%N
      then Some n else None
  | String b0 (String b1 (String b2 EmptyString)) =>
      let n := (((N_of_ascii b0 - 224) * 64 + trail b1) * 64 + trail b2)%N in
      if (224 <=? N_of_ascii b0)%N && (N_of_ascii b0 <? 240)%N
         && is_continuation b1 && is_continuation b2
         && (2048 <=? n)%N && negb ((55296 <=? n)%N && (n <=? 57343)%N)
      then Some n else None
  | String b0 (String b1 (String b2 (String b3 EmptyString))) =>
      let n := ((((N_of_ascii b0 - 240) * 64 + trail b1) * 64 + trail b2) * 64
                + trail b3)%N in
      if (240 <=? N_of_ascii b0)%N && (N_of_ascii b0 <? 248)%N
         && is_continuation b1 && is_continuation b2 && is_continuation b3
         && (65536 <=? n)%N && (n <=? 1114111)%N
      then Some n else None
  | _ => None
  end.

(** [chr(n)] *)
Definition encode (n : N) : string :=
  let byte k := String (ascii_of_N k) EmptyString in
  let trail k := byte (128 + k mod 64)%N in
  if (n <? 128)%N then byte n
  else if (n <? 2048)%N then byte (192 + n / 64)%N +:+ trail n
  else if (n <? 65536)%N then
    byte (224 + n / 4096)%N +:+ trail (n / 64)%N +:+ trail n
  else
    byte (240 + n / 262144)%N +:+ trail (n / 4096)%N +:+ trail (n / 64)%N
      +:+ trail n.

Definition in_ranges (ranges : list (N * N)) (n : N) : bool :=
  existsb (λ r, (r.1 <=? n)%N && (n <=? r.2)%N) ranges.

(** A property of characters given by the ranges of its code points. *)
Definition has_property (ranges : list (N * N)) (c : string) : bool :=
  match code_point c with
  | Some n => in_ranges ranges n
  | None => false
  end.

Record run : Type :=
  Run { run_first : N; run_last : N; run_step : N; run_shift : Z }.

(** The characters [str.isdigit] accepts (Numeric_Type Digit or Decimal). *)
Definition digit_ranges : list (N * N) :=
  [(0x30, 0x39); (0xB2, 0xB3); (0xB9, 0xB9); (0x660, 0x669); (0x6F0, 0x6F9);
   (0x7C0, 0x7C9); (0x966, 0x96F); (0x9E6, 0x9EF); (0xA66, 0xA6F);
   (0xAE6, 0xAEF); (0xB66, 0xB6F); (0xBE6, 0xBEF); (0xC66, 0xC6F);
   (0xCE6, 0xCEF); (0xD66, 0xD6F); (0xDE6, 0xDEF); (0xE50, 0xE59);
   (0xED0, 0xED9); (0xF20, 0xF29); (0x1040, 0x1049); (0x1090, 0x1099);
   (0x1369, 0x1371); (0x17E0, 0x17E9); (0x1810, 0x1819); (0x1946, 0x194F);
   (0x19D0, 0x19DA); (0x1A80, 0x1A89); (0x1A90, 0x1A99); (0x1B50, 0x1B59);
   (0x1BB0, 0x1BB9); (0x1C40, 0x1C49); (0x1C50, 0x1C59); (0x2070, 0x2070);
   (0x2074, 0x2079); (0x2080, 0x2089); (0x2460, 0x2468); (0x2474, 0x247C);
   (0x2488, 0x2490); (0x24EA, 0x24EA); (0x24F5, 0x24FD); (0x24FF, 0x24FF);
   (0x2776, 0x277E); (0x2780, 0x2788); (0x278A, 0x2792); (0xA620, 0xA629);
   (0xA8D0, 0xA8D9); (0xA900, 0xA909); (0xA9D0, 0xA9D9); (0xA9F0, 0xA9F9);
   (0xAA50, 0xAA59); (0xABF0, 0xABF9); (0xFF10, 0xFF19); (0x104A0, 0x104A9);
   (0x10A40, 0x10A43); (0x10D30, 0x10D39); (0x10E60, 0x10E68);
   (0x11052, 0x1105A); (0x11066, 0x1106F); (0x110F0, 0x110F9);
   (0x11136, 0x1113F); (0x111D0, 0x111D9); (0x112F0, 0x112F9);
   (0x11450, 0x11459); (0x114D0, 0x114D9); (0x11650, 0x11659);
   (0x116C0, 0x116C9); (0x11730, 0x11739); (0x118E0, 0x118E9);
   (0x11950, 0x11959); (0x11C50, 0x11C59); (0x11D50, 0x11D59);
   (0x11DA0, 0x11DA9); (0x16A60, 0x16A69); (0x16AC0, 0x16AC9);
   (0x16B50, 0x16B59); (0x1D7CE, 0x1D7FF); (0x1E140, 0x1E149);
   (0x1E2F0, 0x1E2F9); (0x1E950, 0x1E959); (0x1F100, 0x1F10A);
   (0x1FBF0, 0x1FBF9)]%N.

(** The characters [str.strip] removes (White_Space, and the separators
    U+001C to U+001F). *)
Definition space_ranges : list (N * N) :=
  [(0x9, 0xD); (0x1C, 0x20); (0x85, 0x85); (0xA0, 0xA0); (0x1680, 0x1680);
   (0x2000, 0x200A); (0x2028, 0x2029); (0x202F, 0x202F); (0x205F, 0x205F);
   (0x3000, 0x3000)]%N.

(** The characters with the property Cased. *)
Definition cased_ranges : list (N * N) :=
  [(0x41, 0x5A); (0x61, 0x7A); (0xAA, 0xAA); (0xB5, 0xB5); (0xBA, 0xBA);
   (0xC0, 0xD6); (0xD8, 0xF6); (0xF8, 0x1BA); (0x1BC, 0x1BF); (0x1C4, 0x293);
   (0x295, 0x2B8); (0x2C0, 0x2C1); (0x2E0, 0x2E4); (0x345, 0x345);
   (0x370, 0x373); (0x376, 0x377); (0x37A, 0x37D); (0x37F, 0x37F);
   (0x386, 0x386); (0x388, 0x38A); (0x38C, 0x38C); (0x38E, 0x3A1);
   (0x3A3, 0x3F5); (0x3F7, 0x481); (0x48A, 0x52F); (0x531, 0x556);
   (0x560, 0x588); (0x10A0, 0x10C5); (0x10C7, 0x10C7); (0x10CD, 0x10CD);
   (0x10D0, 0x10FA); (0x10FD, 0x10FF); (0x13A0, 0x13F5); (0x13F8, 0x13FD);
   (0x1C80, 0x1C88); (0x1C90, 0x1CBA); (0x1CBD, 0x1CBF); (0x1D00, 0x1DBF);
   (0x1E00, 0x1F15); (0x1F18, 0x1F1D); (0x1F20, 0x1F45); (0x1F48, 0x1F4D);
   (0x1F50, 0x1F57); (0x1F59, 0x1F59); (0x1F5B, 0x1F5B); (0x1F5D, 0x1F5D);
   (0x1F5F, 0x1F7D); (0x1F80, 0x1FB4); (0x1FB6, 0x1FBC); (0x1FBE, 0x1FBE);
   (0x1FC2, 0x1FC4); (0x1FC6, 0x1FCC); (0x1FD0, 0x1FD3); (0x1FD6, 0x1FDB);
   (0x1FE0, 0x1FEC); (0x1FF2, 0x1FF4); (0x1FF6, 0x1FFC); (0x2071, 0x2071);
   (0x207F, 0x207F); (0x2090, 0x209C); (0x2102, 0x2102); (0x2107, 0x2107);
   (0x210A, 0x2113); (0x2115, 0x2115); (0x2119, 0x211D); (0x2124, 0x2124);
   (0x2126, 0x2126); (0x2128, 0x2128); (0x212A, 0x212D); (0x212F, 0x2134);
   (0x2139, 0x2139); (0x213C, 0x213F); (0x2145, 0x2149); (0x214E, 0x214E);
   (0x2160, 0x217F); (0x2183, 0x2184); (0x24B6, 0x24E9); (0x2C00, 0x2CE4);
   (0x2CEB, 0x2CEE); (0x2CF2, 0x2CF3); (0x2D00, 0x2D25); (0x2D27, 0x2D27);
   (0x2D2D, 0x2D2D); (0xA640, 0xA66D); (0xA680, 0xA69D); (0xA722, 0xA787);
   (0xA78B, 0xA78E); (0xA790, 0xA7CA); (0xA7D0, 0xA7D1); (0xA7D3, 0xA7D3);
   (0xA7D5, 0xA7D9); (0xA7F5, 0xA7F6); (0xA7F8, 0xA7FA); (0xAB30, 0xAB5A);
   (0xAB5C, 0xAB68); (0xAB70, 0xABBF); (0xFB00, 0xFB06); (0xFB13, 0xFB17);
   (0xFF21, 0xFF3A); (0xFF41, 0xFF5A); (0x10400, 0x1044F);
   (0x104B0, 0x104D3); (0x104D8, 0x104FB); (0x10570, 0x1057A);
   (0x1057C, 0x1058A); (0x1058C, 0x10592); (0x10594, 0x10595);
   (0x10597, 0x105A1); (0x105A3, 0x105B1); (0x105B3, 0x105B9);
   (0x105BB, 0x105BC); (0x10780, 0x10780); (0x10783, 0x10785);
   (0x10787, 0x107B0); (0x107B2, 0x107BA); (0x10C80, 0x10CB2);
   (0x10CC0, 0x10CF2); (0x118A0, 0x118DF); (0x16E40, 0x16E7F);
   (0x1D400, 0x1D454); (0x1D456, 0x1D49C); (0x1D49E, 0x1D49F);
   (0x1D4A2, 0x1D4A2); (0x1D4A5, 0x1D4A6); (0x1D4A9, 0x1D4AC);
   (0x1D4AE, 0x1D4B9); (0x1D4BB, 0x1D4BB); (0x1D4BD, 0x1D4C3);
   (0x1D4C5, 0x1D505); (0x1D507, 0x1D50A); (0x1D50D, 0x1D514);
   (0x1D516, 0x1D51C); (0x1D51E, 0x1D539); (0x1D53B, 0x1D53E);
   (0x1D540, 0x1D544); (0x1D546, 0x1D546); (0x1D54A, 0x1D550);
   (0x1D552, 0x1D6A5); (0x1D6A8, 0x1D6C0); (0x1D6C2, 0x1D6DA);
   (0x1D6DC, 0x1D6FA); (0x1D6FC, 0x1D714); (0x1D716, 0x1D734);
   (0x1D736, 0x1D74E); (0x1D750, 0x1D76E); (0x1D770, 0x1D788);
   (0x1D78A, 0x1D7A8); (0x1D7AA, 0x1D7C2); (0x1D7C4, 0x1D7CB);
   (0x1DF00, 0x1DF09); (0x1DF0B, 0x1DF1E); (0x1E900, 0x1E943);
   (0x1F130, 0x1F149); (0x1F150, 0x1F169); (0x1F170, 0x1F189)]%N.

(** The characters with the property Case_Ignorable. *)
Definition case_ignorable_ranges : list (N * N) :=
  [(0x27, 0x27); (0x2E, 0x2E); (0x3A, 0x3A); (0x5E, 0x5E); (0x60, 0x60);
   (0xA8, 0xA8); (0xAD, 0xAD); (0xAF, 0xAF); (0xB4, 0xB4); (0xB7, 0xB8);
   (0x2B0, 0x36F); (0x374, 0x375); (0x37A, 0x37A); (0x384, 0x385);
   (0x387, 0x387); (0x483, 0x489); (0x559, 0x559); (0x55F, 0x55F);
   (0x591, 0x5BD); (0x5BF, 0x5BF); (0x5C1, 0x5C2); (0x5C4, 0x5C5);
   (0x5C7, 0x5C7); (0x5F4, 0x5F4); (0x600, 0x605); (0x610, 0x61A);
   (0x61C, 0x61C); (0x640, 0x640); (0x64B, 0x65F); (0x670, 0x670);
   (0x6D6, 0x6DD); (0x6DF, 0x6E8); (0x6EA, 0x6ED); (0x70F, 0x70F);
   (0x711, 0x711); (0x730, 0x74A); (0x7A6, 0x7B0); (0x7EB, 0x7F5);
   (0x7FA, 0x7FA); (0x7FD, 0x7FD); (0x816, 0x82D); (0x859, 0x85B);
   (0x888, 0x888); (0x890, 0x891); (0x898, 0x89F); (0x8C9, 0x902);
   (0x93A, 0x93A); (0x93C, 0x93C); (0x941, 0x948); (0x94D, 0x94D);
   (0x951, 0x957); (0x962, 0x963); (0x971, 0x971); (0x981, 0x981);
   (0x9BC, 0x9BC); (0x9C1, 0x9C4); (0x9CD, 0x9CD); (0x9E2, 0x9E3);
   (0x9FE, 0x9FE); (0xA01, 0xA02); (0xA3C, 0xA3C); (0xA41, 0xA42);
   (0xA47, 0xA48); (0xA4B, 0xA4D); (0xA51, 0xA51); (0xA70, 0xA71);
   (0xA75, 0xA75); (0xA81, 0xA82); (0xABC, 0xABC); (0xAC1, 0xAC5);
   (0xAC7, 0xAC8); (0xACD, 0xACD); (0xAE2, 0xAE3); (0xAFA, 0xAFF);
   (0xB01, 0xB01); (0xB3C, 0xB3C); (0xB3F, 0xB3F); (0xB41, 0xB44);
   (0xB4D, 0xB4D); (0xB55, 0xB56); (0xB62, 0xB63); (0xB82, 0xB82);
   (0xBC0, 0xBC0); (0xBCD, 0xBCD); (0xC00, 0xC00); (0xC04, 0xC04);
   (0xC3C, 0xC3C); (0xC3E, 0xC40); (0xC46, 0xC48); (0xC4A, 0xC4D);
   (0xC55, 0xC56); (0xC62, 0xC63); (0xC81, 0xC81); (0xCBC, 0xCBC);
   (0xCBF, 0xCBF); (0xCC6, 0xCC6); (0xCCC, 0xCCD); (0xCE2, 0xCE3);
   (0xD00, 0xD01); (0xD3B, 0xD3C); (0xD41, 0xD44); (0xD4D, 0xD4D);
   (0xD62, 0xD63); (0xD81, 0xD81); (0xDCA, 0xDCA); (0xDD2, 0xDD4);
   (0xDD6, 0xDD6); (0xE31, 0xE31); (0xE34, 0xE3A); (0xE46, 0xE4E);
   (0xEB1, 0xEB1); (0xEB4, 0xEBC); (0xEC6, 0xEC6); (0xEC8, 0xECD);
   (0xF18, 0xF19); (0xF35, 0xF35); (0xF37, 0xF37); (0xF39, 0xF39);
   (0xF71, 0xF7E); (0xF80, 0xF84); (0xF86, 0xF87); (0xF8D, 0xF97);
   (0xF99, 0xFBC); (0xFC6, 0xFC6); (0x102D, 0x1030); (0x1032, 0x1037);
   (0x1039, 0x103A); (0x103D, 0x103E); (0x1058, 0x1059); (0x105E, 0x1060);
   (0x1071, 0x1074); (0x1082, 0x1082); (0x1085, 0x1086); (0x108D, 0x108D);
   (0x109D, 0x109D); (0x10FC, 0x10FC); (0x135D, 0x135F); (0x1712, 0x1714);
   (0x1732, 0x1733); (0x1752, 0x1753); (0x1772, 0x1773); (0x17B4, 0x17B5);
   (0x17B7, 0x17BD); (0x17C6, 0x17C6); (0x17C9, 0x17D3); (0x17D7, 0x17D7);
   (0x17DD, 0x17DD); (0x180B, 0x180F); (0x1843, 0x1843); (0x1885, 0x1886);
   (0x18A9, 0x18A9); (0x1920, 0x1922); (0x1927, 0x1928); (0x1932, 0x1932);
   (0x1939, 0x193B); (0x1A17, 0x1A18); (0x1A1B, 0x1A1B); (0x1A56, 0x1A56);
   (0x1A58, 0x1A5E); (0x1A60, 0x1A60); (0x1A62, 0x1A62); (0x1A65, 0x1A6C);
   (0x1A73, 0x1A7C); (0x1A7F, 0x1A7F); (0x1AA7, 0x1AA7); (0x1AB0, 0x1ACE);
   (0x1B00, 0x1B03); (0x1B34, 0x1B34); (0x1B36, 0x1B3A); (0x1B3C, 0x1B3C);
   (0x1B42, 0x1B42); (0x1B6B, 0x1B73); (0x1B80, 0x1B81); (0x1BA2, 0x1BA5);
   (0x1BA8, 0x1BA9); (0x1BAB, 0x1BAD); (0x1BE6, 0x1BE6); (0x1BE8, 0x1BE9);
   (0x1BED, 0x1BED); (0x1BEF, 0x1BF1); (0x1C2C, 0x1C33); (0x1C36, 0x1C37);
   (0x1C78, 0x1C7D); (0x1CD0, 0x1CD2); (0x1CD4, 0x1CE0); (0x1CE2, 0x1CE8);
   (0x1CED, 0x1CED); (0x1CF4, 0x1CF4); (0x1CF8, 0x1CF9); (0x1D2C, 0x1D6A);
   (0x1D78, 0x1D78); (0x1D9B, 0x1DFF); (0x1FBD, 0x1FBD); (0x1FBF, 0x1FC1);
   (0x1FCD, 0x1FCF); (0x1FDD, 0x1FDF); (0x1FED, 0x1FEF); (0x1FFD, 0x1FFE);
   (0x200B, 0x200F); (0x2018, 0x2019); (0x2024, 0x2024); (0x2027, 0x2027);
   (0x202A, 0x202E); (0x2060, 0x2064); (0x2066, 0x206F); (0x2071, 0x2071);
   (0x207F, 0x207F); (0x2090, 0x209C); (0x20D0, 0x20F0); (0x2C7C, 0x2C7D);
   (0x2CEF, 0x2CF1); (0x2D6F, 0x2D6F); (0x2D7F, 0x2D7F); (0x2DE0, 0x2DFF);
   (0x2E2F, 0x2E2F); (0x3005, 0x3005); (0x302A, 0x302D); (0x3031, 0x3035);
   (0x303B, 0x303B); (0x3099, 0x309E); (0x30FC, 0x30FE); (0xA015, 0xA015);
   (0xA4F8, 0xA4FD); (0xA60C, 0xA60C); (0xA66F, 0xA672); (0xA674, 0xA67D);
   (0xA67F, 0xA67F); (0xA69C, 0xA69F); (0xA6F0, 0xA6F1); (0xA700, 0xA721);
   (0xA770, 0xA770); (0xA788, 0xA78A); (0xA7F2, 0xA7F4); (0xA7F8, 0xA7F9);
   (0xA802, 0xA802); (0xA806, 0xA806); (0xA80B, 0xA80B); (0xA825, 0xA826);
   (0xA82C, 0xA82C); (0xA8C4, 0xA8C5); (0xA8E0, 0xA8F1); (0xA8FF, 0xA8FF);
   (0xA926, 0xA92D); (0xA947, 0xA951); (0xA980, 0xA982); (0xA9B3, 0xA9B3);
   (0xA9B6, 0xA9B9); (0xA9BC, 0xA9BD); (0xA9CF, 0xA9CF); (0xA9E5, 0xA9E6);
   (0xAA29, 0xAA2E); (0xAA31, 0xAA32); (0xAA35, 0xAA36); (0xAA43, 0xAA43);
   (0xAA4C, 0xAA4C); (0xAA70, 0xAA70); (0xAA7C, 0xAA7C); (0xAAB0, 0xAAB0);
   (0xAAB2, 0xAAB4); (0xAAB7, 0xAAB8); (0xAABE, 0xAABF); (0xAAC1, 0xAAC1);
   (0xAADD, 0xAADD); (0xAAEC, 0xAAED); (0xAAF3, 0xAAF4); (0xAAF6, 0xAAF6);
   (0xAB5B, 0xAB5F); (0xAB69, 0xAB6B); (0xABE5, 0xABE5); (0xABE8, 0xABE8);
   (0xABED, 0xABED); (0xFB1E, 0xFB1E); (0xFBB2, 0xFBC2); (0xFE00, 0xFE0F);
   (0xFE13, 0xFE13); (0xFE20, 0xFE2F); (0xFE52, 0xFE52); (0xFE55, 0xFE55);
   (0xFEFF, 0xFEFF); (0xFF07, 0xFF07); (0xFF0E, 0xFF0E); (0xFF1A, 0xFF1A);
   (0xFF3E, 0xFF3E); (0xFF40, 0xFF40); (0xFF70, 0xFF70); (0xFF9E, 0xFF9F);
   (0xFFE3, 0xFFE3); (0xFFF9, 0xFFFB); (0x101FD, 0x101FD);
   (0x102E0, 0x102E0); (0x10376, 0x1037A); (0x10780, 0x10785);
   (0x10787, 0x107B0); (0x107B2, 0x107BA); (0x10A01, 0x10A03);
   (0x10A05, 0x10A06); (0x10A0C, 0x10A0F); (0x10A38, 0x10A3A);
   (0x10A3F, 0x10A3F); (0x10AE5, 0x10AE6); (0x10D24, 0x10D27);
   (0x10EAB, 0x10EAC); (0x10F46, 0x10F50); (0x10F82, 0x10F85);
   (0x11001, 0x11001); (0x11038, 0x11046); (0x11070, 0x11070);
   (0x11073, 0x11074); (0x1107F, 0x11081); (0x110B3, 0x110B6);
   (0x110B9, 0x110BA); (0x110BD, 0x110BD); (0x110C2, 0x110C2);
   (0x110CD, 0x110CD); (0x11100, 0x11102); (0x11127, 0x1112B);
   (0x1112D, 0x11134); (0x11173, 0x11173); (0x11180, 0x11181);
   (0x111B6, 0x111BE); (0x111C9, 0x111CC); (0x111CF, 0x111CF);
   (0x1122F, 0x11231); (0x11234, 0x11234); (0x11236, 0x11237);
   (0x1123E, 0x1123E); (0x112DF, 0x112DF); (0x112E3, 0x112EA);
   (0x11300, 0x11301); (0x1133B, 0x1133C); (0x11340, 0x11340);
   (0x11366, 0x1136C); (0x11370, 0x11374); (0x11438, 0x1143F);
   (0x11442, 0x11444); (0x11446, 0x11446); (0x1145E, 0x1145E);
   (0x114B3, 0x114B8); (0x114BA, 0x114BA); (0x114BF, 0x114C0);
   (0x114C2, 0x114C3); (0x115B2, 0x115B5); (0x115BC, 0x115BD);
   (0x115BF, 0x115C0); (0x115DC, 0x115DD); (0x11633, 0x1163A);
   (0x1163D, 0x1163D); (0x1163F, 0x11640); (0x116AB, 0x116AB);
   (0x116AD, 0x116AD); (0x116B0, 0x116B5); (0x116B7, 0x116B7);
   (0x1171D, 0x1171F); (0x11722, 0x11725); (0x11727, 0x1172B);
   (0x1182F, 0x11837); (0x11839, 0x1183A); (0x1193B, 0x1193C);
   (0x1193E, 0x1193E); (0x11943, 0x11943); (0x119D4, 0x119D7);
   (0x119DA, 0x119DB); (0x119E0, 0x119E0); (0x11A01, 0x11A0A);
   (0x11A33, 0x11A38); (0x11A3B, 0x11A3E); (0x11A47, 0x11A47);
   (0x11A51, 0x11A56); (0x11A59, 0x11A5B); (0x11A8A, 0x11A96);
   (0x11A98, 0x11A99); (0x11C30, 0x11C36); (0x11C38, 0x11C3D);
   (0x11C3F, 0x11C3F); (0x11C92, 0x11CA7); (0x11CAA, 0x11CB0);
   (0x11CB2, 0x11CB3); (0x11CB5, 0x11CB6); (0x11D31, 0x11D36);
   (0x11D3A, 0x11D3A); (0x11D3C, 0x11D3D); (0x11D3F, 0x11D45);
   (0x11D47, 0x11D47); (0x11D90, 0x11D91); (0x11D95, 0x11D95);
   (0x11D97, 0x11D97); (0x11EF3, 0x11EF4); (0x13430, 0x13438);
   (0x16AF0, 0x16AF4); (0x16B30, 0x16B36); (0x16B40, 0x16B43);
   (0x16F4F, 0x16F4F); (0x16F8F, 0x16F9F); (0x16FE0, 0x16FE1);
   (0x16FE3, 0x16FE4); (0x1AFF0, 0x1AFF3); (0x1AFF5, 0x1AFFB);
   (0x1AFFD, 0x1AFFE); (0x1BC9D, 0x1BC9E); (0x1BCA0, 0x1BCA3);
   (0x1CF00, 0x1CF2D); (0x1CF30, 0x1CF46); (0x1D167, 0x1D169);
   (0x1D173, 0x1D182); (0x1D185, 0x1D18B); (0x1D1AA, 0x1D1AD);
   (0x1D242, 0x1D244); (0x1DA00, 0x1DA36); (0x1DA3B, 0x1DA6C);
   (0x1DA75, 0x1DA75); (0x1DA84, 0x1DA84); (0x1DA9B, 0x1DA9F);
   (0x1DAA1, 0x1DAAF); (0x1E000, 0x1E006); (0x1E008, 0x1E018);
   (0x1E01B, 0x1E021); (0x1E023, 0x1E024); (0x1E026, 0x1E02A);
   (0x1E130, 0x1E13D); (0x1E2AE, 0x1E2AE); (0x1E2EC, 0x1E2EF);
   (0x1E8D0, 0x1E8D6); (0x1E944, 0x1E94B); (0x1F3FB, 0x1F3FF);
   (0xE0001, 0xE0001); (0xE0020, 0xE007F); (0xE0100, 0xE01EF)]%N.

(** The characters [repr] prints as they are ([str.isprintable]). *)
Definition printable_ranges : list (N * N) :=
  [(0x20, 0x7E); (0xA1, 0xAC); (0xAE, 0x377); (0x37A, 0x37F); (0x384, 0x38A);
   (0x38C, 0x38C); (0x38E, 0x3A1); (0x3A3, 0x52F); (0x531, 0x556);
   (0x559, 0x58A); (0x58D, 0x58F); (0x591, 0x5C7); (0x5D0, 0x5EA);
   (0x5EF, 0x5F4); (0x606, 0x61B); (0x61D, 0x6DC); (0x6DE, 0x70D);
   (0x710, 0x74A); (0x74D, 0x7B1); (0x7C0, 0x7FA); (0x7FD, 0x82D);
   (0x830, 0x83E); (0x840, 0x85B); (0x85E, 0x85E); (0x860, 0x86A);
   (0x870, 0x88E); (0x898, 0x8E1); (0x8E3, 0x983); (0x985, 0x98C);
   (0x98F, 0x990); (0x993, 0x9A8); (0x9AA, 0x9B0); (0x9B2, 0x9B2);
   (0x9B6, 0x9B9); (0x9BC, 0x9C4); (0x9C7, 0x9C8); (0x9CB, 0x9CE);
   (0x9D7, 0x9D7); (0x9DC, 0x9DD); (0x9DF, 0x9E3); (0x9E6, 0x9FE);
   (0xA01, 0xA03); (0xA05, 0xA0A); (0xA0F, 0xA10); (0xA13, 0xA28);
   (0xA2A, 0xA30); (0xA32, 0xA33); (0xA35, 0xA36); (0xA38, 0xA39);
   (0xA3C, 0xA3C); (0xA3E, 0xA42); (0xA47, 0xA48); (0xA4B, 0xA4D);
   (0xA51, 0xA51); (0xA59, 0xA5C); (0xA5E, 0xA5E); (0xA66, 0xA76);
   (0xA81, 0xA83); (0xA85, 0xA8D); (0xA8F, 0xA91); (0xA93, 0xAA8);
   (0xAAA, 0xAB0); (0xAB2, 0xAB3); (0xAB5, 0xAB9); (0xABC, 0xAC5);
   (0xAC7, 0xAC9); (0xACB, 0xACD); (0xAD0, 0xAD0); (0xAE0, 0xAE3);
   (0xAE6, 0xAF1); (0xAF9, 0xAFF); (0xB01, 0xB03); (0xB05, 0xB0C);
   (0xB0F, 0xB10); (0xB13, 0xB28); (0xB2A, 0xB30); (0xB32, 0xB33);
   (0xB35, 0xB39); (0xB3C, 0xB44); (0xB47, 0xB48); (0xB4B, 0xB4D);
   (0xB55, 0xB57); (0xB5C, 0xB5D); (0xB5F, 0xB63); (0xB66, 0xB77);
   (0xB82, 0xB83); (0xB85, 0xB8A); (0xB8E, 0xB90); (0xB92, 0xB95);
   (0xB99, 0xB9A); (0xB9C, 0xB9C); (0xB9E, 0xB9F); (0xBA3, 0xBA4);
   (0xBA8, 0xBAA); (0xBAE, 0xBB9); (0xBBE, 0xBC2); (0xBC6, 0xBC8);
   (0xBCA, 0xBCD); (0xBD0, 0xBD0); (0xBD7, 0xBD7); (0xBE6, 0xBFA);
   (0xC00, 0xC0C); (0xC0E, 0xC10); (0xC12, 0xC28); (0xC2A, 0xC39);
   (0xC3C, 0xC44); (0xC46, 0xC48); (0xC4A, 0xC4D); (0xC55, 0xC56);
   (0xC58, 0xC5A); (0xC5D, 0xC5D); (0xC60, 0xC63); (0xC66, 0xC6F);
   (0xC77, 0xC8C); (0xC8E, 0xC90); (0xC92, 0xCA8); (0xCAA, 0xCB3);
   (0xCB5, 0xCB9); (0xCBC, 0xCC4); (0xCC6, 0xCC8); (0xCCA, 0xCCD);
   (0xCD5, 0xCD6); (0xCDD, 0xCDE); (0xCE0, 0xCE3); (0xCE6, 0xCEF);
   (0xCF1, 0xCF2); (0xD00, 0xD0C); (0xD0E, 0xD10); (0xD12, 0xD44);
   (0xD46, 0xD48); (0xD4A, 0xD4F); (0xD54, 0xD63); (0xD66, 0xD7F);
   (0xD81, 0xD83); (0xD85, 0xD96); (0xD9A, 0xDB1); (0xDB3, 0xDBB);
   (0xDBD, 0xDBD); (0xDC0, 0xDC6); (0xDCA, 0xDCA); (0xDCF, 0xDD4);
   (0xDD6, 0xDD6); (0xDD8, 0xDDF); (0xDE6, 0xDEF); (0xDF2, 0xDF4);
   (0xE01, 0xE3A); (0xE3F, 0xE5B); (0xE81, 0xE82); (0xE84, 0xE84);
   (0xE86, 0xE8A); (0xE8C, 0xEA3); (0xEA5, 0xEA5); (0xEA7, 0xEBD);
   (0xEC0, 0xEC4); (0xEC6, 0xEC6); (0xEC8, 0xECD); (0xED0, 0xED9);
   (0xEDC, 0xEDF); (0xF00, 0xF47); (0xF49, 0xF6C); (0xF71, 0xF97);
   (0xF99, 0xFBC); (0xFBE, 0xFCC); (0xFCE, 0xFDA); (0x1000, 0x10C5);
   (0x10C7, 0x10C7); (0x10CD, 0x10CD); (0x10D0, 0x1248); (0x124A, 0x124D);
   (0x1250, 0x1256); (0x1258, 0x1258); (0x125A, 0x125D); (0x1260, 0x1288);
   (0x128A, 0x128D); (0x1290, 0x12B0); (0x12B2, 0x12B5); (0x12B8, 0x12BE);
   (0x12C0, 0x12C0); (0x12C2, 0x12C5); (0x12C8, 0x12D6); (0x12D8, 0x1310);
   (0x1312, 0x1315); (0x1318, 0x135A); (0x135D, 0x137C); (0x1380, 0x1399);
   (0x13A0, 0x13F5); (0x13F8, 0x13FD); (0x1400, 0x167F); (0x1681, 0x169C);
   (0x16A0, 0x16F8); (0x1700, 0x1715); (0x171F, 0x1736); (0x1740, 0x1753);
   (0x1760, 0x176C); (0x176E, 0x1770); (0x1772, 0x1773); (0x1780, 0x17DD);
   (0x17E0, 0x17E9); (0x17F0, 0x17F9); (0x1800, 0x180D); (0x180F, 0x1819);
   (0x1820, 0x1878); (0x1880, 0x18AA); (0x18B0, 0x18F5); (0x1900, 0x191E);
   (0x1920, 0x192B); (0x1930, 0x193B); (0x1940, 0x1940); (0x1944, 0x196D);
   (0x1970, 0x1974); (0x1980, 0x19AB); (0x19B0, 0x19C9); (0x19D0, 0x19DA);
   (0x19DE, 0x1A1B); (0x1A1E, 0x1A5E); (0x1A60, 0x1A7C); (0x1A7F, 0x1A89);
   (0x1A90, 0x1A99); (0x1AA0, 0x1AAD); (0x1AB0, 0x1ACE); (0x1B00, 0x1B4C);
   (0x1B50, 0x1B7E); (0x1B80, 0x1BF3); (0x1BFC, 0x1C37); (0x1C3B, 0x1C49);
   (0x1C4D, 0x1C88); (0x1C90, 0x1CBA); (0x1CBD, 0x1CC7); (0x1CD0, 0x1CFA);
   (0x1D00, 0x1F15); (0x1F18, 0x1F1D); (0x1F20, 0x1F45); (0x1F48, 0x1F4D);
   (0x1F50, 0x1F57); (0x1F59, 0x1F59); (0x1F5B, 0x1F5B); (0x1F5D, 0x1F5D);
   (0x1F5F, 0x1F7D); (0x1F80, 0x1FB4); (0x1FB6, 0x1FC4); (0x1FC6, 0x1FD3);
   (0x1FD6, 0x1FDB); (0x1FDD, 0x1FEF); (0x1FF2, 0x1FF4); (0x1FF6, 0x1FFE);
   (0x2010, 0x2027); (0x2030, 0x205E); (0x2070, 0x2071); (0x2074, 0x208E);
   (0x2090, 0x209C); (0x20A0, 0x20C0); (0x20D0, 0x20F0); (0x2100, 0x218B);
   (0x2190, 0x2426); (0x2440, 0x244A); (0x2460, 0x2B73); (0x2B76, 0x2B95);
   (0x2B97, 0x2CF3); (0x2CF9, 0x2D25); (0x2D27, 0x2D27); (0x2D2D, 0x2D2D);
   (0x2D30, 0x2D67); (0x2D6F, 0x2D70); (0x2D7F, 0x2D96); (0x2DA0, 0x2DA6);
   (0x2DA8, 0x2DAE); (0x2DB0, 0x2DB6); (0x2DB8, 0x2DBE); (0x2DC0, 0x2DC6);
   (0x2DC8, 0x2DCE); (0x2DD0, 0x2DD6); (0x2DD8, 0x2DDE); (0x2DE0, 0x2E5D);
   (0x2E80, 0x2E99); (0x2E9B, 0x2EF3); (0x2F00, 0x2FD5); (0x2FF0, 0x2FFB);
   (0x3001, 0x303F); (0x3041, 0x3096); (0x3099, 0x30FF); (0x3105, 0x312F);
   (0x3131, 0x318E); (0x3190, 0x31E3); (0x31F0, 0x321E); (0x3220, 0xA48C);
   (0xA490, 0xA4C6); (0xA4D0, 0xA62B); (0xA640, 0xA6F7); (0xA700, 0xA7CA);
   (0xA7D0, 0xA7D1); (0xA7D3, 0xA7D3); (0xA7D5, 0xA7D9); (0xA7F2, 0xA82C);
   (0xA830, 0xA839); (0xA840, 0xA877); (0xA880, 0xA8C5); (0xA8CE, 0xA8D9);
   (0xA8E0, 0xA953); (0xA95F, 0xA97C); (0xA980, 0xA9CD); (0xA9CF, 0xA9D9);
   (0xA9DE, 0xA9FE); (0xAA00, 0xAA36); (0xAA40, 0xAA4D); (0xAA50, 0xAA59);
   (0xAA5C, 0xAAC2); (0xAADB, 0xAAF6); (0xAB01, 0xAB06); (0xAB09, 0xAB0E);
   (0xAB11, 0xAB16); (0xAB20, 0xAB26); (0xAB28, 0xAB2E); (0xAB30, 0xAB6B);
   (0xAB70, 0xABED); (0xABF0, 0xABF9); (0xAC00, 0xD7A3); (0xD7B0, 0xD7C6);
   (0xD7CB, 0xD7FB); (0xF900, 0xFA6D); (0xFA70, 0xFAD9); (0xFB00, 0xFB06);
   (0xFB13, 0xFB17); (0xFB1D, 0xFB36); (0xFB38, 0xFB3C); (0xFB3E, 0xFB3E);
   (0xFB40, 0xFB41); (0xFB43, 0xFB44); (0xFB46, 0xFBC2); (0xFBD3, 0xFD8F);
   (0xFD92, 0xFDC7); (0xFDCF, 0xFDCF); (0xFDF0, 0xFE19); (0xFE20, 0xFE52);
   (0xFE54, 0xFE66); (0xFE68, 0xFE6B); (0xFE70, 0xFE74); (0xFE76, 0xFEFC);
   (0xFF01, 0xFFBE); (0xFFC2, 0xFFC7); (0xFFCA, 0xFFCF); (0xFFD2, 0xFFD7);
   (0xFFDA, 0xFFDC); (0xFFE0, 0xFFE6); (0xFFE8, 0xFFEE); (0xFFFC, 0xFFFD);
   (0x10000, 0x1000B); (0x1000D, 0x10026); (0x10028, 0x1003A);
   (0x1003C, 0x1003D); (0x1003F, 0x1004D); (0x10050, 0x1005D);
   (0x10080, 0x100FA); (0x10100, 0x10102); (0x10107, 0x10133);
   (0x10137, 0x1018E); (0x10190, 0x1019C); (0x101A0, 0x101A0);
   (0x101D0, 0x101FD); (0x10280, 0x1029C); (0x102A0, 0x102D0);
   (0x102E0, 0x102FB); (0x10300, 0x10323); (0x1032D, 0x1034A);
   (0x10350, 0x1037A); (0x10380, 0x1039D); (0x1039F, 0x103C3);
   (0x103C8, 0x103D5); (0x10400, 0x1049D); (0x104A0, 0x104A9);
   (0x104B0, 0x104D3); (0x104D8, 0x104FB); (0x10500, 0x10527);
   (0x10530, 0x10563); (0x1056F, 0x1057A); (0x1057C, 0x1058A);
   (0x1058C, 0x10592); (0x10594, 0x10595); (0x10597, 0x105A1);
   (0x105A3, 0x105B1); (0x105B3, 0x105B9); (0x105BB, 0x105BC);
   (0x10600, 0x10736); (0x10740, 0x10755); (0x10760, 0x10767);
   (0x10780, 0x10785); (0x10787, 0x107B0); (0x107B2, 0x107BA);
   (0x10800, 0x10805); (0x10808, 0x10808); (0x1080A, 0x10835);
   (0x10837, 0x10838); (0x1083C, 0x1083C); (0x1083F, 0x10855);
   (0x10857, 0x1089E); (0x108A7, 0x108AF); (0x108E0, 0x108F2);
   (0x108F4, 0x108F5); (0x108FB, 0x1091B); (0x1091F, 0x10939);
   (0x1093F, 0x1093F); (0x10980, 0x109B7); (0x109BC, 0x109CF);
   (0x109D2, 0x10A03); (0x10A05, 0x10A06); (0x10A0C, 0x10A13);
   (0x10A15, 0x10A17); (0x10A19, 0x10A35); (0x10A38, 0x10A3A);
   (0x10A3F, 0x10A48); (0x10A50, 0x10A58); (0x10A60, 0x10A9F);
   (0x10AC0, 0x10AE6); (0x10AEB, 0x10AF6); (0x10B00, 0x10B35);
   (0x10B39, 0x10B55); (0x10B58, 0x10B72); (0x10B78, 0x10B91);
   (0x10B99, 0x10B9C); (0x10BA9, 0x10BAF); (0x10C00, 0x10C48);
   (0x10C80, 0x10CB2); (0x10CC0, 0x10CF2); (0x10CFA, 0x10D27);
   (0x10D30, 0x10D39); (0x10E60, 0x10E7E); (0x10E80, 0x10EA9);
   (0x10EAB, 0x10EAD); (0x10EB0, 0x10EB1); (0x10F00, 0x10F27);
   (0x10F30, 0x10F59); (0x10F70, 0x10F89); (0x10FB0, 0x10FCB);
   (0x10FE0, 0x10FF6); (0x11000, 0x1104D); (0x11052, 0x11075);
   (0x1107F, 0x110BC); (0x110BE, 0x110C2); (0x110D0, 0x110E8);
   (0x110F0, 0x110F9); (0x11100, 0x11134); (0x11136, 0x11147);
   (0x11150, 0x11176); (0x11180, 0x111DF); (0x111E1, 0x111F4);
   (0x11200, 0x11211); (0x11213, 0x1123E); (0x11280, 0x11286);
   (0x11288, 0x11288); (0x1128A, 0x1128D); (0x1128F, 0x1129D);
   (0x1129F, 0x112A9); (0x112B0, 0x112EA); (0x112F0, 0x112F9);
   (0x11300, 0x11303); (0x11305, 0x1130C); (0x1130F, 0x11310);
   (0x11313, 0x11328); (0x1132A, 0x11330); (0x11332, 0x11333);
   (0x11335, 0x11339); (0x1133B, 0x11344); (0x11347, 0x11348);
   (0x1134B, 0x1134D); (0x11350, 0x11350); (0x11357, 0x11357);
   (0x1135D, 0x11363); (0x11366, 0x1136C); (0x11370, 0x11374);
   (0x11400, 0x1145B); (0x1145D, 0x11461); (0x11480, 0x114C7);
   (0x114D0, 0x114D9); (0x11580, 0x115B5); (0x115B8, 0x115DD);
   (0x11600, 0x11644); (0x11650, 0x11659); (0x11660, 0x1166C);
   (0x11680, 0x116B9); (0x116C0, 0x116C9); (0x11700, 0x1171A);
   (0x1171D, 0x1172B); (0x11730, 0x11746); (0x11800, 0x1183B);
   (0x118A0, 0x118F2); (0x118FF, 0x11906); (0x11909, 0x11909);
   (0x1190C, 0x11913); (0x11915, 0x11916); (0x11918, 0x11935);
   (0x11937, 0x11938); (0x1193B, 0x11946); (0x11950, 0x11959);
   (0x119A0, 0x119A7); (0x119AA, 0x119D7); (0x119DA, 0x119E4);
   (0x11A00, 0x11A47); (0x11A50, 0x11AA2); (0x11AB0, 0x11AF8);
   (0x11C00, 0x11C08); (0x11C0A, 0x11C36); (0x11C38, 0x11C45);
   (0x11C50, 0x11C6C); (0x11C70, 0x11C8F); (0x11C92, 0x11CA7);
   (0x11CA9, 0x11CB6); (0x11D00, 0x11D06); (0x11D08, 0x11D09);
   (0x11D0B, 0x11D36); (0x11D3A, 0x11D3A); (0x11D3C, 0x11D3D);
   (0x11D3F, 0x11D47); (0x11D50, 0x11D59); (0x11D60, 0x11D65);
   (0x11D67, 0x11D68); (0x11D6A, 0x11D8E); (0x11D90, 0x11D91);
   (0x11D93, 0x11D98); (0x11DA0, 0x11DA9); (0x11EE0, 0x11EF8);
   (0x11FB0, 0x11FB0); (0x11FC0, 0x11FF1); (0x11FFF, 0x12399);
   (0x12400, 0x1246E); (0x12470, 0x12474); (0x12480, 0x12543);
   (0x12F90, 0x12FF2); (0x13000, 0x1342E); (0x14400, 0x14646);
   (0x16800, 0x16A38); (0x16A40, 0x16A5E); (0x16A60, 0x16A69);
   (0x16A6E, 0x16ABE); (0x16AC0, 0x16AC9); (0x16AD0, 0x16AED);
   (0x16AF0, 0x16AF5); (0x16B00, 0x16B45); (0x16B50, 0x16B59);
   (0x16B5B, 0x16B61); (0x16B63, 0x16B77); (0x16B7D, 0x16B8F);
   (0x16E40, 0x16E9A); (0x16F00, 0x16F4A); (0x16F4F, 0x16F87);
   (0x16F8F, 0x16F9F); (0x16FE0, 0x16FE4); (0x16FF0, 0x16FF1);
   (0x17000, 0x187F7); (0x18800, 0x18CD5); (0x18D00, 0x18D08);
   (0x1AFF0, 0x1AFF3); (0x1AFF5, 0x1AFFB); (0x1AFFD, 0x1AFFE);
   (0x1B000, 0x1B122); (0x1B150, 0x1B152); (0x1B164, 0x1B167);
   (0x1B170, 0x1B2FB); (0x1BC00, 0x1BC6A); (0x1BC70, 0x1BC7C);
   (0x1BC80, 0x1BC88); (0x1BC90, 0x1BC99); (0x1BC9C, 0x1BC9F);
   (0x1CF00, 0x1CF2D); (0x1CF30, 0x1CF46); (0x1CF50, 0x1CFC3);
   (0x1D000, 0x1D0F5); (0x1D100, 0x1D126); (0x1D129, 0x1D172);
   (0x1D17B, 0x1D1EA); (0x1D200, 0x1D245); (0x1D2E0, 0x1D2F3);
   (0x1D300, 0x1D356); (0x1D360, 0x1D378); (0x1D400, 0x1D454);
   (0x1D456, 0x1D49C); (0x1D49E, 0x1D49F); (0x1D4A2, 0x1D4A2);
   (0x1D4A5, 0x1D4A6); (0x1D4A9, 0x1D4AC); (0x1D4AE, 0x1D4B9);
   (0x1D4BB, 0x1D4BB); (0x1D4BD, 0x1D4C3); (0x1D4C5, 0x1D505);
   (0x1D507, 0x1D50A); (0x1D50D, 0x1D514); (0x1D516, 0x1D51C);
   (0x1D51E, 0x1D539); (0x1D53B, 0x1D53E); (0x1D540, 0x1D544);
   (0x1D546, 0x1D546); (0x1D54A, 0x1D550); (0x1D552, 0x1D6A5);
   (0x1D6A8, 0x1D7CB); (0x1D7CE, 0x1DA8B); (0x1DA9B, 0x1DA9F);
   (0x1DAA1, 0x1DAAF); (0x1DF00, 0x1DF1E); (0x1E000, 0x1E006);
   (0x1E008, 0x1E018); (0x1E01B, 0x1E021); (0x1E023, 0x1E024);
   (0x1E026, 0x1E02A); (0x1E100, 0x1E12C); (0x1E130, 0x1E13D);
   (0x1E140, 0x1E149); (0x1E14E, 0x1E14F); (0x1E290, 0x1E2AE);
   (0x1E2C0, 0x1E2F9); (0x1E2FF, 0x1E2FF); (0x1E7E0, 0x1E7E6);
   (0x1E7E8, 0x1E7EB); (0x1E7ED, 0x1E7EE); (0x1E7F0, 0x1E7FE);
   (0x1E800, 0x1E8C4); (0x1E8C7, 0x1E8D6); (0x1E900, 0x1E94B);
   (0x1E950, 0x1E959); (0x1E95E, 0x1E95F); (0x1EC71, 0x1ECB4);
   (0x1ED01, 0x1ED3D); (0x1EE00, 0x1EE03); (0x1EE05, 0x1EE1F);
   (0x1EE21, 0x1EE22); (0x1EE24, 0x1EE24); (0x1EE27, 0x1EE27);
   (0x1EE29, 0x1EE32); (0x1EE34, 0x1EE37); (0x1EE39, 0x1EE39);
   (0x1EE3B, 0x1EE3B); (0x1EE42, 0x1EE42); (0x1EE47, 0x1EE47);
   (0x1EE49, 0x1EE49); (0x1EE4B, 0x1EE4B); (0x1EE4D, 0x1EE4F);
   (0x1EE51, 0x1EE52); (0x1EE54, 0x1EE54); (0x1EE57, 0x1EE57);
   (0x1EE59, 0x1EE59); (0x1EE5B, 0x1EE5B); (0x1EE5D, 0x1EE5D);
   (0x1EE5F, 0x1EE5F); (0x1EE61, 0x1EE62); (0x1EE64, 0x1EE64);
   (0x1EE67, 0x1EE6A); (0x1EE6C, 0x1EE72); (0x1EE74, 0x1EE77);
   (0x1EE79, 0x1EE7C); (0x1EE7E, 0x1EE7E); (0x1EE80, 0x1EE89);
   (0x1EE8B, 0x1EE9B); (0x1EEA1, 0x1EEA3); (0x1EEA5, 0x1EEA9);
   (0x1EEAB, 0x1EEBB); (0x1EEF0, 0x1EEF1); (0x1F000, 0x1F02B);
   (0x1F030, 0x1F093); (0x1F0A0, 0x1F0AE); (0x1F0B1, 0x1F0BF);
   (0x1F0C1, 0x1F0CF); (0x1F0D1, 0x1F0F5); (0x1F100, 0x1F1AD);
   (0x1F1E6, 0x1F202); (0x1F210, 0x1F23B); (0x1F240, 0x1F248);
   (0x1F250, 0x1F251); (0x1F260, 0x1F265); (0x1F300, 0x1F6D7);
   (0x1F6DD, 0x1F6EC); (0x1F6F0, 0x1F6FC); (0x1F700, 0x1F773);
   (0x1F780, 0x1F7D8); (0x1F7E0, 0x1F7EB); (0x1F7F0, 0x1F7F0);
   (0x1F800, 0x1F80B); (0x1F810, 0x1F847); (0x1F850, 0x1F859);
   (0x1F860, 0x1F887); (0x1F890, 0x1F8AD); (0x1F8B0, 0x1F8B1);
   (0x1F900, 0x1FA53); (0x1FA60, 0x1FA6D); (0x1FA70, 0x1FA74);
   (0x1FA78, 0x1FA7C); (0x1FA80, 0x1FA86); (0x1FA90, 0x1FAAC);
   (0x1FAB0, 0x1FABA); (0x1FAC0, 0x1FAC5); (0x1FAD0, 0x1FAD9);
   (0x1FAE0, 0x1FAE7); (0x1FAF0, 0x1FAF6); (0x1FB00, 0x1FB92);
   (0x1FB94, 0x1FBCA); (0x1FBF0, 0x1FBF9); (0x20000, 0x2A6DF);
   (0x2A700, 0x2B738); (0x2B740, 0x2B81D); (0x2B820, 0x2CEA1);
   (0x2CEB0, 0x2EBE0); (0x2F800, 0x2FA1D); (0x30000, 0x3134A);
   (0xE0100, 0xE01EF)]%N.

(** The simple lowercase mappings: every [run_step]-th character from
    [run_first] to [run_last] is mapped to the character [run_shift]
    further. *)
Definition lower_runs : list run :=
  [Run 0x41 0x5A 1 (32); Run 0xC0 0xD6 1 (32); Run 0xD8 0xDE 1 (32);
   Run 0x100 0x12E 2 (1); Run 0x132 0x136 2 (1); Run 0x139 0x147 2 (1);
   Run 0x14A 0x176 2 (1); Run 0x178 0x178 1 (-121); Run 0x179 0x17D 2 (1);
   Run 0x181 0x181 1 (210); Run 0x182 0x184 2 (1); Run 0x186 0x186 1 (206);
   Run 0x187 0x187 1 (1); Run 0x189 0x18A 1 (205); Run 0x18B 0x18B 1 (1);
   Run 0x18E 0x18E 1 (79); Run 0x18F 0x18F 1 (202); Run 0x190 0x190 1 (203);
   Run 0x191 0x191 1 (1); Run 0x193 0x193 1 (205); Run 0x194 0x194 1 (207);
   Run 0x196 0x196 1 (211); Run 0x197 0x197 1 (209); Run 0x198 0x198 1 (1);
   Run 0x19C 0x19C 1 (211); Run 0x19D 0x19D 1 (213); Run 0x19F 0x19F 1 (214);
   Run 0x1A0 0x1A4 2 (1); Run 0x1A6 0x1A6 1 (218); Run 0x1A7 0x1A7 1 (1);
   Run 0x1A9 0x1A9 1 (218); Run 0x1AC 0x1AC 1 (1); Run 0x1AE 0x1AE 1 (218);
   Run 0x1AF 0x1AF 1 (1); Run 0x1B1 0x1B2 1 (217); Run 0x1B3 0x1B5 2 (1);
   Run 0x1B7 0x1B7 1 (219); Run 0x1B8 0x1B8 1 (1); Run 0x1BC 0x1BC 1 (1);
   Run 0x1C4 0x1C4 1 (2); Run 0x1C5 0x1C5 1 (1); Run 0x1C7 0x1C7 1 (2);
   Run 0x1C8 0x1C8 1 (1); Run 0x1CA 0x1CA 1 (2); Run 0x1CB 0x1DB 2 (1);
   Run 0x1DE 0x1EE 2 (1); Run 0x1F1 0x1F1 1 (2); Run 0x1F2 0x1F4 2 (1);
   Run 0x1F6 0x1F6 1 (-97); Run 0x1F7 0x1F7 1 (-56); Run 0x1F8 0x21E 2 (1);
   Run 0x220 0x220 1 (-130); Run 0x222 0x232 2 (1);
   Run 0x23A 0x23A 1 (10795); Run 0x23B 0x23B 1 (1);
   Run 0x23D 0x23D 1 (-163); Run 0x23E 0x23E 1 (10792);
   Run 0x241 0x241 1 (1); Run 0x243 0x243 1 (-195); Run 0x244 0x244 1 (69);
   Run 0x245 0x245 1 (71); Run 0x246 0x24E 2 (1); Run 0x370 0x372 2 (1);
   Run 0x376 0x376 1 (1); Run 0x37F 0x37F 1 (116); Run 0x386 0x386 1 (38);
   Run 0x388 0x38A 1 (37); Run 0x38C 0x38C 1 (64); Run 0x38E 0x38F 1 (63);
   Run 0x391 0x3A1 1 (32); Run 0x3A4 0x3AB 1 (32); Run 0x3CF 0x3CF 1 (8);
   Run 0x3D8 0x3EE 2 (1); Run 0x3F4 0x3F4 1 (-60); Run 0x3F7 0x3F7 1 (1);
   Run 0x3F9 0x3F9 1 (-7); Run 0x3FA 0x3FA 1 (1); Run 0x3FD 0x3FF 1 (-130);
   Run 0x400 0x40F 1 (80); Run 0x410 0x42F 1 (32); Run 0x460 0x480 2 (1);
   Run 0x48A 0x4BE 2 (1); Run 0x4C0 0x4C0 1 (15); Run 0x4C1 0x4CD 2 (1);
   Run 0x4D0 0x52E 2 (1); Run 0x531 0x556 1 (48); Run 0x10A0 0x10C5 1 (7264);
   Run 0x10C7 0x10C7 1 (7264); Run 0x10CD 0x10CD 1 (7264);
   Run 0x13A0 0x13EF 1 (38864); Run 0x13F0 0x13F5 1 (8);
   Run 0x1C90 0x1CBA 1 (-3008); Run 0x1CBD 0x1CBF 1 (-3008);
   Run 0x1E00 0x1E94 2 (1); Run 0x1E9E 0x1E9E 1 (-7615);
   Run 0x1EA0 0x1EFE 2 (1); Run 0x1F08 0x1F0F 1 (-8);
   Run 0x1F18 0x1F1D 1 (-8); Run 0x1F28 0x1F2F 1 (-8);
   Run 0x1F38 0x1F3F 1 (-8); Run 0x1F48 0x1F4D 1 (-8);
   Run 0x1F59 0x1F5F 2 (-8); Run 0x1F68 0x1F6F 1 (-8);
   Run 0x1F88 0x1F8F 1 (-8); Run 0x1F98 0x1F9F 1 (-8);
   Run 0x1FA8 0x1FAF 1 (-8); Run 0x1FB8 0x1FB9 1 (-8);
   Run 0x1FBA 0x1FBB 1 (-74); Run 0x1FBC 0x1FBC 1 (-9);
   Run 0x1FC8 0x1FCB 1 (-86); Run 0x1FCC 0x1FCC 1 (-9);
   Run 0x1FD8 0x1FD9 1 (-8); Run 0x1FDA 0x1FDB 1 (-100);
   Run 0x1FE8 0x1FE9 1 (-8); Run 0x1FEA 0x1FEB 1 (-112);
   Run 0x1FEC 0x1FEC 1 (-7); Run 0x1FF8 0x1FF9 1 (-128);
   Run 0x1FFA 0x1FFB 1 (-126); Run 0x1FFC 0x1FFC 1 (-9);
   Run 0x2126 0x2126 1 (-7517); Run 0x212A 0x212A 1 (-8383);
   Run 0x212B 0x212B 1 (-8262); Run 0x2132 0x2132 1 (28);
   Run 0x2160 0x216F 1 (16); Run 0x2183 0x2183 1 (1);
   Run 0x24B6 0x24CF 1 (26); Run 0x2C00 0x2C2F 1 (48);
   Run 0x2C60 0x2C60 1 (1); Run 0x2C62 0x2C62 1 (-10743);
   Run 0x2C63 0x2C63 1 (-3814); Run 0x2C64 0x2C64 1 (-10727);
   Run 0x2C67 0x2C6B 2 (1); Run 0x2C6D 0x2C6D 1 (-10780);
   Run 0x2C6E 0x2C6E 1 (-10749); Run 0x2C6F 0x2C6F 1 (-10783);
   Run 0x2C70 0x2C70 1 (-10782); Run 0x2C72 0x2C72 1 (1);
   Run 0x2C75 0x2C75 1 (1); Run 0x2C7E 0x2C7F 1 (-10815);
   Run 0x2C80 0x2CE2 2 (1); Run 0x2CEB 0x2CED 2 (1); Run 0x2CF2 0x2CF2 1 (1);
   Run 0xA640 0xA66C 2 (1); Run 0xA680 0xA69A 2 (1); Run 0xA722 0xA72E 2 (1);
   Run 0xA732 0xA76E 2 (1); Run 0xA779 0xA77B 2 (1);
   Run 0xA77D 0xA77D 1 (-35332); Run 0xA77E 0xA786 2 (1);
   Run 0xA78B 0xA78B 1 (1); Run 0xA78D 0xA78D 1 (-42280);
   Run 0xA790 0xA792 2 (1); Run 0xA796 0xA7A8 2 (1);
   Run 0xA7AA 0xA7AA 1 (-42308); Run 0xA7AB 0xA7AB 1 (-42319);
   Run 0xA7AC 0xA7AC 1 (-42315); Run 0xA7AD 0xA7AD 1 (-42305);
   Run 0xA7AE 0xA7AE 1 (-42308); Run 0xA7B0 0xA7B0 1 (-42258);
   Run 0xA7B1 0xA7B1 1 (-42282); Run 0xA7B2 0xA7B2 1 (-42261);
   Run 0xA7B3 0xA7B3 1 (928); Run 0xA7B4 0xA7C2 2 (1);
   Run 0xA7C4 0xA7C4 1 (-48); Run 0xA7C5 0xA7C5 1 (-42307);
   Run 0xA7C6 0xA7C6 1 (-35384); Run 0xA7C7 0xA7C9 2 (1);
   Run 0xA7D0 0xA7D0 1 (1); Run 0xA7D6 0xA7D8 2 (1); Run 0xA7F5 0xA7F5 1 (1);
   Run 0xFF21 0xFF3A 1 (32); Run 0x10400 0x10427 1 (40);
   Run 0x104B0 0x104D3 1 (40); Run 0x10570 0x1057A 1 (39);
   Run 0x1057C 0x1058A 1 (39); Run 0x1058C 0x10592 1 (39);
   Run 0x10594 0x10595 1 (39); Run 0x10C80 0x10CB2 1 (64);
   Run 0x118A0 0x118BF 1 (32); Run 0x16E40 0x16E5F 1 (32);
   Run 0x1E900 0x1E921 1 (34)].

Definition is_digit_char : string → bool := has_property digit_ranges.
Definition is_space : string → bool := has_property space_ranges.
Definition is_cased : string → bool := has_property cased_ranges.
Definition is_case_ignorable : string → bool :=
  has_property case_ignorable_ranges.

(** The lowercase mapping of a character; U+0130 is the one character
    whose lowercase has two characters. *)
Definition in_run (n : N) (r : run) : bool :=
  (run_first r <=? n)%N && (n <=? run_last r)%N
  && ((n - run_first r) mod run_step r =? 0)%N.

Definition lower_code_point (n : N) : list N :=
  if (n =? 0x130)%N then [0x69; 0x307]%N
  else match find (in_run n) lower_runs with
       | Some r => [Z.to_N (Z.of_N n + run_shift r)]
       | None => [n]
       end.

Definition lower_char (c : string) : string :=
  match code_point c with
  | Some n => unchars (encode <$> lower_code_point n)
  | None => c
  end.

Fixpoint skip_ignorable (cs : list string) : list string :=
  match cs with
  | [] => []
  | c :: cs' => if is_case_ignorable c then skip_ignorable cs' else cs
  end.

(** A capital sigma is final when a cased character comes before it
    and none comes after it, case-ignorable characters apart;
    [before] holds the characters before it, the nearest first. *)
Definition final_sigma (before after : list string) : bool :=
  match skip_ignorable before with
  | [] => false
  | c :: _ =>
      is_cased c
      && match skip_ignorable after with
         | [] => true
         | c' :: _ => negb (is_cased c')
         end
  end.

Fixpoint lower_chars (before cs : list string) : string :=
  match cs with
  | [] => EmptyString
  | c :: after =>
      (if String.eqb c "Σ"
       then if final_sigma before after then "ς" else "σ"
       else lower_char c)
      +:+ lower_chars (c :: before) after
  end.

(** [s.lower()] *)
Definition lower (s : string) : string := lower_chars [] (chars s).

(** [s.isdigit()]: false on the empty string. *)
Definition isdigit (s : string) : bool :=
  negb (String.eqb s "") && forallb is_digit_char (chars s).

Fixpoint lstrip_chars (cs : list string) : list string :=
  match cs with
  | [] => []
  | c :: cs' => if is_space c then lstrip_chars cs' else cs
  end.

(** [s.strip()] *)
Definition strip (s : string) : string :=
  unchars (rev (lstrip_chars (rev (lstrip_chars (chars s))))).

(** [sub in s] for two strings. *)
Fixpoint substring_in (sub s : string) : bool :=
  String.prefix sub s ||
  match s with
  | EmptyString => false
  | String _ s' => substring_in sub s'
  end.

(** *** [repr] and [str] *)

Definition hex_digit (n : N) : ascii :=
  ascii_of_N (if (n <? 10)%N then 48 + n else 87 + n).

(** The last [width] hexadecimal digits of [n]. *)
Fixpoint hex (width : nat) (n : N) : string :=
  match width with
  | O => EmptyString
  | S w => hex w (n / 16)%N +:+ String (hex_digit (n mod 16)%N) EmptyString
  end.

Definition apostrophe : ascii := "'"%char.
Definition double_quote : ascii := ascii_of_nat 34.
Definition backslash : string := String (ascii_of_nat 92) EmptyString.

Definition repr_char (quote : ascii) (c : string) : string :=
  match code_point c with
  | None => c
  | Some n =>
      if (n =? N_of_ascii quote)%N || (n =? 92)%N then backslash +:+ c
      else if (n =? 9)%N then backslash +:+ "t"
      else if (n =? 10)%N then backslash +:+ "n"
      else if (n =? 13)%N then backslash +:+ "r"
      else if (n <? 32)%N || (n =? 127)%N then backslash +:+ "x" +:+ hex 2 n
      else if (n <? 127)%N || in_ranges printable_ranges n then c
      else if (n <? 256)%N then backslash +:+ "x" +:+ hex 2 n
      else if (n <? 65536)%N then backslash +:+ "u" +:+ hex 4 n
      else backslash +:+ "U" +:+ hex 8 n
  end.

Fixpoint all_chars (p : ascii → bool) (s : string) : bool :=
  match s with
  | EmptyString => true
  | String c s' => p c && all_chars p s'
  end.

Definition has_char (c : ascii) (s : string) : bool :=
  negb (all_chars (λ c', negb (Ascii.eqb c' c)) s).

(** [repr(s)] for a [str]: single quotes, unless the text has a single
    quote and no double quote. *)
Definition repr_str (s : string) : string :=
  let quote :=
    if has_char apostrophe s && negb (has_char double_quote s)
    then double_quote else apostrophe in
  String quote (unchars (repr_char quote <$> chars s)
                +:+ String quote EmptyString).

Fixpoint repr (v : value) : string :=
  match v with
  | VNone => "None"
  | VStr s => repr_str s
  | VList l => "[" +:+ String.concat ", " (map repr l) +:+ "]"
  | VDict d =>
      "{" +:+ String.concat ", "
                (map (λ kv, repr_str kv.1 +:+ ": " +:+ repr kv.2) d) +:+ "}"
  end.

(** [str(v)], which is also what an f-string field [{v}] renders. *)
Definition str (v : value) : string :=
  match v with
  | VStr s => s
  | _ => repr v
  end.

(** [sep.join(v)]: [v] is iterated (a [dict] yields its keys, a [str]
    its characters) and every item must be a [str]. *)
Fixpoint as_strs (l : list value) : result (list string) :=
  match l with
  | [] => Ok []
  | VStr s :: l' => ss ← as_strs l'; Ok (s :: ss)
  | _ :: _ => Raise TypeError
  end.

Definition join (sep : string) (v : value) : result string :=
  match v with
  | VNone => Raise TypeError
  | VStr s => Ok (String.concat sep (chars s))
  | VList l => String.concat sep <$> as_strs l
  | VDict d => Ok (String.concat sep (d.*1))
  end.

(** [v.lower()]: only a [str] has it. *)
Definition lower_of (v : value) : result string :=
  match v with
  | VStr s => Ok (lower s)
  | _ => Raise AttributeError
  end.

(** [k in v] for a [str] [k]. *)
Definition contains (k : string) (v : value) : result bool :=
  match v with
  | VNone => Raise TypeError
  | VStr s => Ok (substring_in k s)
  | VList l =>
      Ok (existsb (λ x, match x with VStr s => String.eqb s k | _ => false end) l)
  | VDict d => Ok (bool_decide (is_Some (dict_lookup d k)))
  end.

(** [v != s] for a [str] [s]: objects of other types never equal it. *)
Definition ne_str (v : value) (s : string) : bool :=
  match v with
  | VStr s' => negb (String.eqb s' s)
  | _ => true
  end.

End Py.
Import Py.

(** The line feed of the Python literal ["\n"]. *)
Definition nl : string := String (ascii_of_nat 10) EmptyString.

(** ** Field extractors (server.py, lines 518-687)

    Every extractor is a [try] block around a body that may raise; the
    body is embedded as [_extract_*_body], the method as its
    [try_except] with the default of the [except] clause. *)

(** [items v]: the loop sequence after
    [if not isinstance(v, list): v = [v]]. *)
Definition listify (v : value) : list value :=
  match v with
  | VList l => l
  | _ => [v]
  end.

(** [if not isinstance(v, list): v = [v] if v else []]. *)
Definition listify_truthy (v : value) : list value :=
  match v with
  | VList l => l
  | _ => if truthy v then [v] else []
  end.

(** The body of the loop of [_extract_authors]; the state is
    [author_names]. *)
Definition author_step (author_names : list value) (author : value)
  : result (list value) :=
  if is_dict author then
    last_name ← get author "LastName" (VStr "");
    fore_name ← get author "ForeName" (VStr "");
    initials ← get author "Initials" (VStr "");
    if truthy last_name then
      if truthy fore_name then
        Ok (author_names ++ [VStr (str last_name +:+ " " +:+ str fore_name)])
      else if truthy initials then
        Ok (author_names ++ [VStr (str last_name +:+ " " +:+ str initials)])
      else Ok (author_names ++ [last_name])
    else Ok author_names
  else Ok author_names.

Definition _extract_authors_body (author_list : value) : result value :=
  authors ← get author_list "Author" (VList []);
  let authors := listify authors in
  author_names ← for_each author_step (take 15 authors) [];
  if (15 <? length authors)%nat then
    joined ← join ", " (VList author_names);
    Ok (VStr (joined +:+ ", et al."))
  else
    if truthy (VList author_names) then VStr <$> join ", " (VList author_names)
    else Ok (VStr "Authors not available").

Definition _extract_authors (author_list : value) : value :=
  try_except (_extract_authors_body author_list) (VStr "Authors not available").

Definition _extract_pub_date_body (journal_issue : value) : result value :=
  pub_date ← get journal_issue "PubDate" (VDict []);
  if is_dict pub_date then
    year ← get pub_date "Year" (VStr "");
    month ← get pub_date "Month" (VStr "");
    day ← get pub_date "Day" (VStr "");
    date_string ← get pub_date "MedlineDate" (VStr "");
    if truthy date_string then Ok date_string
    else if truthy year then
      let date_parts :=
        [year] ++ (if truthy month
                   then [month] ++ (if truthy day then [day] else [])
                   else []) in
      VStr <$> join " " (VList date_parts)
    else Ok (VStr "Date not available")
  else Ok (VStr "Date not available").

Definition _extract_pub_date (journal_issue : value) : value :=
  try_except (_extract_pub_date_body journal_issue) (VStr "Date not available").

(** The body of the structured-abstract loop; the state is
    [text_parts]. *)
Definition abstract_step (text_parts : list value) (part : value)
  : result (list value) :=
  if is_dict part then
    label ← get part "@Label" (VStr "");
    text ← get part "#text" (VStr "");
    if truthy label && truthy text then
      Ok (text_parts ++ [VStr ("**" +:+ str label +:+ ":** " +:+ str text)])
    else if truthy text then Ok (text_parts ++ [text])
    else Ok text_parts
  else Ok (text_parts ++ [VStr (str part)]).

Definition _extract_abstract_body (abstract_data : value) : result value :=
  abstract_text ← get abstract_data "AbstractText" (VStr "");
  match abstract_text with
  | VList parts =>
      text_parts ← for_each abstract_step parts [];
      VStr <$> join (nl +:+ nl) (VList text_parts)
  | VDict _ => get abstract_text "#text" (VStr "")
  | _ => Ok (VStr (if truthy abstract_text then str abstract_text else ""))
  end.

Definition _extract_abstract (abstract_data : value) : value :=
  try_except (_extract_abstract_body abstract_data) (VStr "").

(** The [for] loop of [_extract_doi], which returns from inside the
    loop: [Some doi] is that early return, [None] falls through. *)
Fixpoint doi_scan (elocation_ids : list value) : result (option value) :=
  match elocation_ids with
  | [] => Ok None
  | elocation :: rest =>
      if is_dict elocation then
        id_type ← get elocation "@EIdType" (VStr "");
        id_lower ← lower_of id_type;
        if String.eqb id_lower "doi" then
          doi ← get elocation "#text" (VStr "");
          if truthy doi then Ok (Some doi) else doi_scan rest
        else doi_scan rest
      else doi_scan rest
  end.

Definition _extract_doi_body (elocation_ids : value) : result value :=
  found ← doi_scan (listify_truthy elocation_ids);
  Ok (default (VStr "") found).

Definition _extract_doi (elocation_ids : value) : value :=
  try_except (_extract_doi_body elocation_ids) (VStr "").

(** The body of the loop of [_extract_keywords]; the state is
    [(keyword_texts, seen_keywords)]. *)
Definition keyword_step (st : list value * gset string) (keyword : value)
  : result (list value * gset string) :=
  let '(keyword_texts, seen_keywords) := st in
  if is_dict keyword then
    text ← get keyword "#text" (VStr "");
    if truthy text then
      low ← lower_of text;
      if bool_decide (low ∉ seen_keywords) then
        Ok (keyword_texts ++ [text], seen_keywords ∪ {[low]})
      else Ok st
    else Ok st
  else if truthy keyword then
    low ← lower_of (VStr (str keyword));
    if bool_decide (low ∉ seen_keywords) then
      Ok (keyword_texts ++ [VStr (str keyword)], seen_keywords ∪ {[low]})
    else Ok st
  else Ok st.

Definition _extract_keywords_body (keyword_list : value) : result value :=
  keywords ← get keyword_list "Keyword" (VList []);
  st ← for_each keyword_step (listify_truthy keywords) ([], ∅);
  Ok (VList st.1).

Definition _extract_keywords (keyword_list : value) : value :=
  try_except (_extract_keywords_body keyword_list) (VList []).

Definition pub_type_step (type_texts : list value) (pub_type : value)
  : result (list value) :=
  if is_dict pub_type then
    text ← get pub_type "#text" (VStr "");
    if truthy text then Ok (type_texts ++ [text]) else Ok type_texts
  else Ok (type_texts ++ [VStr (str pub_type)]).

Definition _extract_publication_types_body (pub_type_list : value)
  : result value :=
  pub_types ← get pub_type_list "PublicationType" (VList []);
  type_texts ← for_each pub_type_step (listify_truthy pub_types) [];
  Ok (VList type_texts).

Definition _extract_publication_types (pub_type_list : value) : value :=
  try_except (_extract_publication_types_body pub_type_list) (VList []).

Definition mesh_step (mesh_terms : list value) (heading : value)
  : result (list value) :=
  if is_dict heading then
    descriptor ← get heading "DescriptorName" (VDict []);
    if is_dict descriptor then
      term ← get descriptor "#text" (VStr "");
      if truthy term then Ok (mesh_terms ++ [term]) else Ok mesh_terms
    else Ok mesh_terms
  else Ok mesh_terms.

Definition _extract_mesh_terms_body (mesh_list : value) : result value :=
  mesh_headings ← get mesh_list "MeshHeading" (VList []);
  mesh_terms ← for_each mesh_step (take 10 (listify_truthy mesh_headings)) [];
  Ok (VList mesh_terms).

Definition _extract_mesh_terms (mesh_list : value) : value :=
  try_except (_extract_mesh_terms_body mesh_list) (VList []).

(** ** Building publications (server.py, lines 429-516) *)

(** [x = x.get("#text", "") if isinstance(x, dict)], then
    [str(x) if x else dflt] (the PMID and the title). *)
Definition text_or (x : value) (dflt : string) : result value :=
  x ← (if is_dict x then get x "#text" (VStr "") else Ok x);
  Ok (VStr (if truthy x then str x else dflt)).

Definition _parse_single_article_body (article_data : value) : result value :=
  medline_citation ← get article_data "MedlineCitation" (VDict []);
  pubmed_data ← get article_data "PubmedData" (VDict []);
  article_info ← get medline_citation "Article" (VDict []);
  pmid ← get medline_citation "PMID" (VDict []);
  pmid ← text_or pmid "Unknown";
  title ← get article_info "ArticleTitle" (VStr "");
  title ← text_or title "No title available";
  author_list ← get article_info "AuthorList" (VDict []);
  let authors := _extract_authors author_list in
  journal_info ← get article_info "Journal" (VDict []);
  journal_title ← get journal_info "Title" (VStr "Unknown journal");
  journal_iso ← get journal_info "ISOAbbreviation" (VStr "");
  journal_issue ← get journal_info "JournalIssue" (VDict []);
  let pub_date := _extract_pub_date journal_issue in
  abstract_data ← get article_info "Abstract" (VDict []);
  let abstract := _extract_abstract abstract_data in
  elocation_ids ← get article_info "ELocationID" (VList []);
  let doi := _extract_doi elocation_ids in
  keyword_list ← get medline_citation "KeywordList" (VDict []);
  let keywords := _extract_keywords keyword_list in
  pub_type_list ← get article_info "PublicationTypeList" (VDict []);
  let pub_types := _extract_publication_types pub_type_list in
  mesh_list ← get medline_citation "MeshHeadingList" (VDict []);
  let mesh_terms := _extract_mesh_terms mesh_list in
  Ok (VDict [ ("pmid", pmid); ("title", title); ("authors", authors);
              ("journal", journal_title); ("journal_iso", journal_iso);
              ("pub_date", pub_date); ("abstract", abstract); ("doi", doi);
              ("keywords", keywords); ("publication_types", pub_types);
              ("mesh_terms", mesh_terms) ]).

(** [except Exception: ... return None] *)
Definition _parse_single_article (article_data : value) : value :=
  try_except (_parse_single_article_body article_data) VNone.

(** The loop of [_parse_articles]; the state is [articles].  Nothing in
    its body can raise: [_parse_single_article] has its own handler. *)
Definition parse_step (articles : list value) (article_data : value)
  : list value :=
  let article := _parse_single_article article_data in
  if truthy article then articles ++ [article] else articles.

(** The handler of [_parse_articles] returns the [articles] list as it
    stands; the operations that can raise come before the loop, when
    the list is still empty. *)
Definition _parse_articles_body (xml_data : value) : result (list value) :=
  pubmed_data ← get xml_data "PubmedArticleSet" (VDict []);
  if negb (truthy pubmed_data) then Ok []
  else
    pubmed_articles ← get pubmed_data "PubmedArticle" (VList []);
    Ok (foldl parse_step [] (listify pubmed_articles)).

Definition _parse_articles (xml_data : value) : list value :=
  try_except (_parse_articles_body xml_data) [].

(** ** Date filter of [_search_pubmed] (server.py, lines 200-213)

    [current_year] is [datetime.now().year], an input here. *)
Definition search_query (current_year : Z) (query date_range : string)
  : string :=
  if negb (String.eqb date_range "") then
    if String.eqb date_range "last_5_years" then
      query +:+ " AND " +:+ pretty (current_year - 5)%Z +:+ ":"
            +:+ pretty current_year +:+ "[pdat]"
    else if String.eqb date_range "last_year" then
      query +:+ " AND " +:+ pretty (current_year - 1)%Z +:+ ":"
            +:+ pretty current_year +:+ "[pdat]"
    else if substring_in ":" date_range then
      query +:+ " AND " +:+ date_range +:+ "[pdat]"
    else if isdigit date_range && (len date_range =? 4)%nat then
      query +:+ " AND " +:+ date_range +:+ "[pdat]"
    else query
  else query.

(** ** Linked identifiers of [_get_similar_articles]
       (server.py, lines 361-380)

    An exception raised here is caught by the handler of the method,
    which reports a failure text instead of a list. *)

(** [v = v[0] if v else {}], under [isinstance(v, list)]. *)
Definition first_if_list (v : value) : value :=
  match v with
  | VList [] => VDict []
  | VList (x :: _) => x
  | _ => v
  end.

(** [[link["Id"] for link in links if link["Id"] != pmid]] *)
Fixpoint link_ids (links : list value) (pmid : string)
  : result (list value) :=
  match links with
  | [] => Ok []
  | link :: rest =>
      id ← getitem link "Id";
      if ne_str id pmid then
        id2 ← getitem link "Id";
        ids ← link_ids rest pmid;
        Ok (id2 :: ids)
      else link_ids rest pmid
  end.

(** ["eLinkResult" in link_result and
     "LinkSet" in link_result["eLinkResult"]] *)
Definition has_linkset (link_result : value) : result bool :=
  has_result ← contains "eLinkResult" link_result;
  if (has_result : bool) then
    elink ← getitem link_result "eLinkResult"; contains "LinkSet" elink
  else Ok false.

Definition similar_pmids (link_result : value) (pmid : string)
  : result (list value) :=
  guard ← has_linkset link_result;
  if (guard : bool) then
    elink ← getitem link_result "eLinkResult";
    linkset ← getitem elink "LinkSet";
    let linkset := first_if_list linkset in
    has_db ← contains "LinkSetDb" linkset;
    if (has_db : bool) then
      linksetdb ← getitem linkset "LinkSetDb";
      let linksetdb := first_if_list linksetdb in
      has_link ← contains "Link" linksetdb;
      if (has_link : bool) then
        links ← getitem linksetdb "Link";
        match links with
        | VList links => link_ids links pmid
        | _ =>
            id ← getitem links "Id";
            if ne_str id pmid then (id2 ← getitem links "Id"; Ok [id2])
            else Ok []
        end
      else Ok []
    else Ok []
  else Ok [].

(** ** Detail rendering (server.py, lines 723-781) *)

Definition pubmed_url : string := "https://pubmed.ncbi.nlm.nih.gov/".
Definition doi_url : string := "https://doi.org/".

(** The first four entries of [details]. *)
Definition details_head (pmid title authors journal : value) : list string :=
  [ "# 📄 Publication Details - PMID " +:+ str pmid +:+ nl;
    "## " +:+ str title +:+ nl;
    "**Authors:** " +:+ str authors +:+ nl;
    "**Journal:** " +:+ str journal ].

(** The link lines that do not depend on the DOI. *)
Definition links_title : string := nl +:+ "## 🔗 Quick Access Links".

Definition link_pubmed (pmid : value) : string :=
  "• [📄 **View on PubMed**](" +:+ pubmed_url +:+ str pmid
    +:+ "/) - Official PubMed page".

Definition link_search_full_text (pmid : value) : string :=
  "• [🔍 **Search Full Text**](" +:+ pubmed_url +:+ str pmid
    +:+ "/) - Look for free full text".

Definition link_citations (pmid : value) : string :=
  "• [📊 **Citation Analysis**](https://scholar.google.com/scholar?q="
    +:+ str pmid +:+ ") - Google Scholar citations".

Definition link_similar (pmid : value) : string :=
  "• [🔗 **Find Similar**](" +:+ pubmed_url
    +:+ "sites/pubmed/?linkname=pubmed_pubmed&from_uid=" +:+ str pmid
    +:+ ") - Related articles".

(** [if v: details.append(f"{header}{', '.join(v)}")] *)
Definition joined_section (header : string) (v : value) (details : list string)
  : result (list string) :=
  if truthy v then
    joined ← join ", " v; Ok (details ++ [header +:+ joined])
  else Ok details.

(** The list [details] just before the final ["\n".join(details)]. *)
Definition detail_lines (article : value) : result (list string) :=
  pmid ← get article "pmid" (VStr "Unknown");
  title ← get article "title" (VStr "No title");
  authors ← get article "authors" (VStr "No authors");
  journal ← get article "journal" (VStr "Unknown journal");
  journal_iso ← get article "journal_iso" (VStr "");
  pub_date ← get article "pub_date" (VStr "Unknown date");
  doi ← get article "doi" (VStr "");
  abstract ← get article "abstract" (VStr "");
  keywords ← get article "keywords" (VList []);
  pub_types ← get article "publication_types" (VList []);
  mesh_terms ← get article "mesh_terms" (VList []);
  let details := details_head pmid title authors journal in
  let details :=
    if truthy journal_iso
    then details ++ ["**Journal (ISO):** " +:+ str journal_iso]
    else details in
  let details :=
    details ++ ["**Published:** " +:+ str pub_date; "**PMID:** " +:+ str pmid] in
  let links_section := [links_title] in
  let links_section := links_section ++ [link_pubmed pmid] in
  let '(details, links_section) :=
    if truthy doi then
      (details ++ ["**DOI:** " +:+ str doi],
       links_section
         ++ ["• [📋 **DOI Link**](" +:+ doi_url +:+ str doi
               +:+ ") - Publisher's page"]
         ++ ["• [🔍 **Full Text Access**](" +:+ doi_url +:+ str doi
               +:+ ") - Try to access full paper"])
    else (details, links_section ++ [link_search_full_text pmid]) in
  let links_section := links_section ++ [link_citations pmid] in
  let links_section := links_section ++ [link_similar pmid] in
  let details := details ++ links_section in
  details ← joined_section (nl +:+ "**Publication Types:** ") pub_types details;
  let details :=
    if truthy abstract
    then details ++ [nl +:+ "## 📋 Abstract" +:+ nl +:+ nl +:+ str abstract]
    else details in
  details ← joined_section (nl +:+ "**🏷️ Keywords:** ") keywords details;
  details ← joined_section (nl +:+ "**🔬 MeSH Terms:** ") mesh_terms details;
  Ok details.

Definition _format_article_details (article : value) : result string :=
  String.concat nl <$> detail_lines article.

(** ** Summary rendering (server.py, lines 689-721) *)

(** [s.replace(old, new)] for a non-empty [old] (the code replaces
    ["**"] and ["\n\n"]): the occurrences of [old] are replaced from
    left to right, without overlap.  [skip] counts the characters of
    an occurrence that are still to be passed over. *)
Fixpoint replace_from (old new : string) (skip : nat) (s : string) : string :=
  match s with
  | EmptyString => EmptyString
  | String c s' =>
      match skip with
      | S k => replace_from old new k s'
      | O =>
          if String.prefix old s
          then new +:+ replace_from old new (String.length old - 1) s'
          else String c (replace_from old new 0 s')
      end
  end.

Definition replace (old new s : string) : string := replace_from old new 0 s.

(** [s[:n]] for a natural number [n]: the first [n] characters. *)
Definition str_take (n : nat) (s : string) : string :=
  unchars (take n (chars s)).

(** [abstract.replace('**', '').replace('\n\n', ' ')]: only a [str]
    has a [replace] method. *)
Definition clean_abstract (abstract : value) : result string :=
  match abstract with
  | VStr s => Ok (replace (nl +:+ nl) " " (replace "**" "" s))
  | _ => Raise AttributeError
  end.

(** The [abstract_preview] of the summary. *)
Definition abstract_preview (abstract : value) : result string :=
  if truthy abstract then
    abstract_clean ← clean_abstract abstract;
    if (200 <? len abstract_clean)%nat
    then Ok (nl +:+ "**Abstract:** " +:+ str_take 200 abstract_clean +:+ "...")
    else Ok (nl +:+ "**Abstract:** " +:+ abstract_clean)
  else Ok "".

(** The [links_section] of the summary. *)
Definition summary_links (pmid doi : value) : string :=
  let links_section :=
    nl +:+ nl +:+ "🔗 **Links:**" +:+ nl +:+ "• [📄 PubMed](" +:+ pubmed_url
       +:+ str pmid +:+ "/)" in
  if truthy doi then
    (links_section +:+ nl +:+ "• [📋 DOI](" +:+ doi_url +:+ str doi +:+ ")")
      +:+ nl +:+ "• [🔍 Full Text](" +:+ doi_url +:+ str doi +:+ ")"
  else links_section.

Definition _format_article_summary (article : value) (index : Z) : result string :=
  title ← get article "title" (VStr "No title");
  authors ← get article "authors" (VStr "No authors");
  journal ← get article "journal" (VStr "Unknown journal");
  pub_date ← get article "pub_date" (VStr "Unknown date");
  pmid ← get article "pmid" (VStr "Unknown");
  abstract ← get article "abstract" (VStr "");
  doi ← get article "doi" (VStr "");
  abstract_preview ← abstract_preview abstract;
  let links_section := summary_links pmid doi in
  Ok ("## " +:+ pretty index +:+ ". " +:+ str title +:+ nl +:+ nl
      +:+ "**Authors:** " +:+ str authors +:+ nl
      +:+ "**Journal:** " +:+ str journal +:+ nl
      +:+ "**Published:** " +:+ str pub_date +:+ nl
      +:+ "**PMID:** " +:+ str pmid +:+ abstract_preview +:+ links_section
      +:+ nl).

(** ** The details tool (server.py, lines 297-335)

    The request to the remote service is an input of the model:
    [_make_api_request] either raises an [Exception] with a message
    ([inl]) or returns the translated tree ([inr]).  The text of the
    other exceptions, [str(e)], is an input as well.  The method
    answers with one text content; the model gives its text, for the
    argument [arguments["pmid"]]. *)

Section tools.
Variable _make_api_request : string → list (string * string) → string + value.
Variable exception_text : exn → string.

Definition _get_publication_details (pmid_argument : string) : string :=
  let pmid := strip pmid_argument in
  if negb (isdigit pmid) then
    "Invalid PMID format: '" +:+ pmid
      +:+ "'. PMID should be a number (e.g., '12345678')"
  else
    let fetch_params :=
      [("db", "pubmed"); ("id", pmid); ("rettype", "abstract"); ("retmode", "xml")] in
    match _make_api_request "efetch.fcgi" fetch_params with
    | inl message =>
        "Failed to retrieve details for PMID " +:+ pmid +:+ ": " +:+ message
    | inr result =>
        match _parse_articles result with
        | [] =>
            "No publication found with PMID: " +:+ pmid +:+ nl +:+ nl
              +:+ "This could mean:" +:+ nl +:+ "- The PMID doesn't exist" +:+ nl
              +:+ "- The article is not in PubMed" +:+ nl
              +:+ "- There's a temporary access issue"
        | article :: _ =>
            match _format_article_details article with
            | Ok response_text => response_text
            | Raise e =>
                "Failed to retrieve details for PMID " +:+ pmid +:+ ": "
                  +:+ exception_text e
            end
        end
    end.
End tools.

(** ** The identifiers fetched by [_get_similar_articles]
       (server.py, lines 351-394) *)

(** [l[:n]] for an [int] [n]: a negative [n] counts from the end. *)
Definition slice_to {A} (n : Z) (l : list A) : list A :=
  if (0 <=? n)%Z then take (Z.to_nat n) l
  else take (length l - Z.to_nat (- n)) l.

(** [similar_pmids[:max_results]], the identifiers whose details are
    fetched. *)
Definition fetched_pmids (link_result : value) (pmid : string) (max_results : Z)
  : result (list value) :=
  similar ← similar_pmids link_result pmid;
  Ok (slice_to max_results similar).

(** ** The REST client (app.py)

    [SimplePubMedClient] reads the same trees with code of its own. *)

Module App.

(** [for x in v]: a [dict] yields its keys, a [str] its characters,
    [None] is not iterable. *)
Definition iterate (v : value) : result (list value) :=
  match v with
  | VNone => Raise TypeError
  | VStr s => Ok (VStr <$> chars s)
  | VList l => Ok l
  | VDict d => Ok (VStr <$> d.*1)
  end.

(** Truthiness of a list of texts. *)
Definition truthy_list {A} (l : list A) : bool :=
  match l with [] => false | _ => true end.

(** [if isinstance(v, dict): v = [v]] *)
Definition wrap_dict (v : value) : value :=
  match v with
  | VDict _ => VList [v]
  | _ => v
  end.

(** Collection of the similar identifiers in [get_similar_articles]
    (app.py, lines 289-308).  An exception raised here is answered by
    the method with an HTTP error. *)

(** The body of the loop over [links]; the state is [similar_ids]. *)
Definition link_step (pmid : string) (similar_ids : list value) (link : value)
  : result (list value) :=
  similar_id ← get link "Id" VNone;
  if truthy similar_id && ne_str similar_id pmid
  then Ok (similar_ids ++ [similar_id])
  else Ok similar_ids.

(** The body of the loop over [link_set_db]. *)
Definition db_step (pmid : string) (similar_ids : list value) (db : value)
  : result (list value) :=
  db_to ← get db "DbTo" VNone;
  if negb (ne_str db_to "pubmed") then
    links ← get db "Link" (VList []);
    links ← iterate (wrap_dict links);
    for_each (link_step pmid) links similar_ids
  else Ok similar_ids.

(** The body of the loop over [link_sets]. *)
Definition link_set_step (pmid : string) (similar_ids : list value)
    (link_set : value) : result (list value) :=
  link_set_db ← get link_set "LinkSetDb" (VList []);
  link_set_db ← iterate (wrap_dict link_set_db);
  for_each (db_step pmid) link_set_db similar_ids.

Definition similar_ids (result : value) (pmid : string) : Py.result (list value) :=
  elink ← get result "eLinkResult" (VDict []);
  link_sets ← get elink "LinkSet" (VList []);
  link_sets ← iterate (wrap_dict link_sets);
  for_each (link_set_step pmid) link_sets [].

(** The list of titles in [search_by_pmids] (app.py, lines 332-353).
    An exception raised outside the per-article handler is answered by
    the method with an error text. *)

(** [v[:n]]: a [dict] cannot be sliced (it is wrapped before it gets
    here). *)
Definition slice_value (v : value) (n : Z) : result value :=
  match v with
  | VList l => Ok (VList (slice_to n l))
  | VStr s => Ok (VStr (unchars (slice_to n (chars s))))
  | VNone | VDict _ => Raise TypeError
  end.

(** The [try] block of the loop, for the article at position [i]. *)
Definition similar_line (i : nat) (article : value) : result string :=
  medline ← getitem article "MedlineCitation";
  pmid_node ← getitem medline "PMID";
  pmid ← getitem pmid_node "#text";
  article_data ← getitem medline "Article";
  title ← get article_data "ArticleTitle" (VStr "No title available");
  title ← (if is_dict title then get title "#text" (VStr "No title available")
           else Ok title);
  Ok ("**" +:+ pretty (i + 1) +:+ ". " +:+ str title +:+ "** (PMID: "
      +:+ str pmid +:+ ")").

(** [for i, article in enumerate(articles)], with [continue] in the
    handler; the state is [results]. *)
Fixpoint similar_lines (i : nat) (articles : list value) (results : list string)
  : list string :=
  match articles with
  | [] => results
  | article :: rest =>
      similar_lines (S i) rest
        (match similar_line i article with
         | Ok line => results ++ [line]
         | Raise _ => results
         end)
  end.

Definition search_by_pmids_text (result : value) (max_results : Z)
  : Py.result string :=
  article_set ← get result "PubmedArticleSet" (VDict []);
  articles ← get article_set "PubmedArticle" (VList []);
  articles ← slice_value (wrap_dict articles) max_results;
  articles ← iterate articles;
  Ok ("Similar articles:" +:+ nl
      +:+ String.concat nl (similar_lines 0 articles [])).

(** The report of [search_pubmed] (app.py, lines 137-197), from the
    fetched document set on. *)

(** [x = x.get("#text", dflt)] under [isinstance(x, dict)] *)
Definition inner_text_or (x : value) (dflt : string) : result value :=
  if is_dict x then get x "#text" (VStr dflt) else Ok x.

(** The body of the loop over the first authors; the state is
    [authors]. *)
Definition author_step (authors : list value) (author : value)
  : result (list value) :=
  if is_dict author then
    lastname ← get author "LastName" (VStr "");
    forename ← get author "ForeName" (VStr "");
    if truthy lastname
    then Ok (authors ++ [VStr (str lastname +:+ ", " +:+ str forename)])
    else Ok authors
  else Ok authors.

(** [a.get("#text", "") if isinstance(a, dict) else str(a)] *)
Definition abstract_item (a : value) : result value :=
  if is_dict a then get a "#text" (VStr "") else Ok (VStr (str a)).

(** The abstract of an article, before it is cut. *)
Definition abstract_of (article_data : value) : result value :=
  abstract_data ← get article_data "Abstract" (VDict []);
  abstract ← get abstract_data "AbstractText" (VStr "No abstract available");
  match abstract with
  | VDict _ => get abstract "#text" (VStr "No abstract available")
  | VList parts =>
      items ← comprehension abstract_item parts;
      VStr <$> join " " (VList items)
  | _ => Ok abstract
  end.

(** The [try] block of the loop, for the article at position [i]. *)
Definition article_block (i : nat) (article : value) : result string :=
  medline ← getitem article "MedlineCitation";
  pmid_node ← getitem medline "PMID";
  pmid ← getitem pmid_node "#text";
  article_data ← getitem medline "Article";
  title ← get article_data "ArticleTitle" (VStr "No title available");
  title ← inner_text_or title "No title available";
  author_container ← get article_data "AuthorList" (VDict []);
  author_list ← get author_container "Author" (VList []);
  first_authors ← slice_value (wrap_dict author_list) 3;
  first_authors ← iterate first_authors;
  authors ← for_each author_step first_authors [];
  journal_info ← get article_data "Journal" (VDict []);
  journal ← get journal_info "Title" (VStr "Unknown journal");
  journal ← inner_text_or journal "Unknown journal";
  journal_info ← get article_data "Journal" (VDict []);
  journal_issue ← get journal_info "JournalIssue" (VDict []);
  pub_date ← get journal_issue "PubDate" (VDict []);
  year ← get pub_date "Year" (VStr "Unknown year");
  year ← inner_text_or year "Unknown year";
  abstract ← abstract_of article_data;
  author_text ←
    (if truthy (VList authors) then join ", " (VList authors)
     else Ok "Not specified");
  cut ← slice_value abstract 300;
  Ok (nl +:+ "**" +:+ pretty (i + 1) +:+ ". " +:+ str title +:+ "**" +:+ nl
      +:+ "- **PMID**: " +:+ str pmid +:+ nl
      +:+ "- **Authors**: " +:+ author_text +:+ nl
      +:+ "- **Journal**: " +:+ str journal +:+ nl
      +:+ "- **Year**: " +:+ str year +:+ nl
      +:+ "- **Abstract**: " +:+ str cut
      +:+ (if (300 <? len (str abstract))%nat then "..." else "")
      +:+ nl
      +:+ "- **PubMed URL**: " +:+ pubmed_url +:+ str pmid +:+ "/" +:+ nl).

(** [for i, article in enumerate(articles)], with [continue] in the
    handler; the state is [results]. *)
Fixpoint article_blocks (i : nat) (articles : list value) (results : list string)
  : list string :=
  match articles with
  | [] => results
  | article :: rest =>
      article_blocks (S i) rest
        (match article_block i article with
         | Ok block => results ++ [block]
         | Raise _ => results
         end)
  end.

Definition search_report (summary_result : value) (max_results : Z)
  : Py.result string :=
  article_set ← get summary_result "PubmedArticleSet" (VDict []);
  articles ← get article_set "PubmedArticle" (VList []);
  articles ← slice_value (wrap_dict articles) max_results;
  articles ← iterate articles;
  let results := article_blocks 0 articles [] in
  if negb (truthy_list results) then Ok "No valid publications found."
  else Ok ("Found " +:+ pretty (length results) +:+ " publications:" +:+ nl
           +:+ String.concat nl results).

End App.

(** ** Document trees

    The trees the translator builds: in a mapping, the inner text
    (["#text"]) and the attributes (keys that start with ["@"]) are
    text; a sequence holds mappings, texts and empty elements, never a
    sequence. *)

Definition is_str (v : value) : bool :=
  match v with VStr _ => true | _ => false end.

Definition is_text_key (k : string) : bool :=
  String.eqb k "#text" || String.prefix "@" k.

Fixpoint document_tree (v : value) : bool :=
  match v with
  | VNone | VStr _ => true
  | VList l => forallb (λ x, negb (is_list x) && document_tree x) l
  | VDict d =>
      forallb (λ kv, if is_text_key kv.1 then is_str kv.2
                     else document_tree kv.2) d
  end.

(** ** Specification-side notions *)

(** An extractor is guarded: it returns what its body returns, and the
    documented default whenever the body raises. *)
Definition guarded (extract : value → value) (body : value → result value)
    (dflt : value) : Prop :=
  ∀ v, (∃ r, body v = Ok r ∧ extract v = r)
       ∨ (∃ e, body v = Raise e ∧ extract v = dflt).

(** Cardinality invariance of an extractor that reads [field] of its
    container: the single mapping [m] and the one-element sequence
    [[m]] give the same value. *)
Definition cardinality_invariant (extract : value → value) (field : string)
  : Prop :=
  ∀ (c1 c2 m : list (string * value)),
    dict_lookup c1 field = Some (VDict m) →
    dict_lookup c2 field = Some (VList [VDict m]) →
    extract (VDict c1) = extract (VDict c2).

(** The date-range tokens of the rule table. *)
Definition decimal_digits : list ascii :=
  ["0"; "1"; "2"; "3"; "4"; "5"; "6"; "7"; "8"; "9"]%char.

Definition four_decimal_digits (token : string) : Prop :=
  ∃ a b c d, token = String a (String b (String c (String d EmptyString)))
             ∧ a ∈ decimal_digits ∧ b ∈ decimal_digits
             ∧ c ∈ decimal_digits ∧ d ∈ decimal_digits.

(** A character: a byte followed by continuation bytes only. *)
Definition is_char (c : string) : Prop :=
  match c with
  | EmptyString => False
  | String _ t => all_chars is_continuation t = true
  end.

(** A token of exactly four digit characters, as [str.isdigit] reads
    them: the decimal digits of every script, and the other characters
    of numeric type Digit (superscripts, circled digits, ...). *)
Definition four_digits (token : string) : Prop :=
  ∃ a b c d, chars token = [a; b; c; d]
             ∧ is_digit_char a = true ∧ is_digit_char b = true
             ∧ is_digit_char c = true ∧ is_digit_char d = true.

Definition has_colon (token : string) : Prop :=
  ∃ before after, token = before +:+ ":" +:+ after.

(** The clause [" AND {range}[pdat]"] appended to a query. *)
Definition with_pdat (query range : string) : string :=
  query +:+ " AND " +:+ range +:+ "[pdat]".

(** A name field of an author entry that holds text: the text itself,
    or nothing (absent, or an empty element) read as the empty text. *)
Definition text_field (d : list (string * value)) (k s : string) : Prop :=
  dict_lookup d k = Some (VStr s)
  ∨ (s = "" ∧ (dict_lookup d k = None ∨ dict_lookup d k = Some VNone)).

Record author_name : Type :=
  { last_name : string; fore_name : string; initials : string }.



(** What the author loop appends for one entry, if anything. *)
Definition rendered_name (author : value) : option value :=
  match author with
  | VDict d =>
      let last := default (VStr "") (dict_lookup d "LastName") in
      let fore := default (VStr "") (dict_lookup d "ForeName") in
      let init := default (VStr "") (dict_lookup d "Initials") in
      if truthy last then
        Some (if truthy fore then VStr (str last +:+ " " +:+ str fore)
              else if truthy init then VStr (str last +:+ " " +:+ str init)
              else last)
      else None
  | _ => None
  end.

(** The last name of an entry, when it has one, is text (not a mapping
    or a sequence). *)
Definition last_name_is_text (author : value) : Prop :=
  match author with
  | VDict d =>
      match dict_lookup d "LastName" with
      | Some (VList _) | Some (VDict _) => False
      | _ => True
      end
  | _ => True
  end.

Definition lacks_last_name (author : value) : Prop :=
  match author with
  | VDict d => truthy (default (VStr "") (dict_lookup d "LastName")) = false
  | _ => True
  end.

(** The text of a keyword entry: the inner text of a mapping, or the
    entry itself read as a scalar; nothing when that is empty. *)
Definition keyword_text (keyword : value) : option string :=
  match keyword with
  | VDict d =>
      match dict_lookup d "#text" with
      | Some (VStr s) => if decide (s = "") then None else Some s
      | _ => None
      end
  | _ => if truthy keyword then Some (str keyword) else None
  end.

(** The inner text of a keyword mapping, when present, is text: the
    translator never puts a mapping or a sequence under ["#text"]. *)
Definition keyword_node (keyword : value) : Prop :=
  match keyword with
  | VDict d =>
      match dict_lookup d "#text" with
      | Some (VList (_ :: _)) | Some (VDict (_ :: _)) => False
      | _ => True
      end
  | _ => True
  end.

(** Case-insensitive deduplication as the specification words it: an
    element is kept, with its own casing, and every later element that
    equals it case-insensitively is removed. *)
Fixpoint first_occurrences (texts : list string) : list string :=
  match texts with
  | [] => []
  | t :: rest =>
      t :: filter (λ u, lower u ≠ lower t) (first_occurrences rest)
  end.

(** The same, as the loop computes it, from a set of lowercased texts
    already seen. *)
Fixpoint unseen (seen : gset string) (texts : list string) : list string :=
  match texts with
  | [] => []
  | t :: rest =>
      if decide (lower t ∈ seen) then unseen seen rest
      else t :: unseen (seen ∪ {[lower t]}) rest
  end.

(** [normalizeToList(node, key)] of the specification: the empty
    sequence when the key is absent or its value is empty, a one-element
    sequence for a single mapping or scalar, the value itself when it is
    a sequence. *)
Definition normalize_to_list (node : value) (key : string) : list value :=
  match node with
  | VDict d =>
      match dict_lookup d key with
      | Some v => listify_truthy v
      | None => []
      end
  | _ => []
  end.

Definition field (node : value) (key : string) : value :=
  match node with
  | VDict d => default VNone (dict_lookup d key)
  | _ => VNone
  end.

(** The related-id resolution as the specification words it: every
    link-set, every link-set-database whose target database is the
    origin database, every link entry, in input order, without the
    origin identifier. *)
Definition claimed_related_ids (origin_db : string) (link_result : value)
    (origin_id : string) : list value :=
  let ids :=
    link_set ← normalize_to_list (field link_result "eLinkResult") "LinkSet";
    link_set_db ← filter (λ db, ne_str (field db "DbTo") origin_db = false)
                         (normalize_to_list link_set "LinkSetDb");
    link ← normalize_to_list link_set_db "Link";
    [field link "Id"] in
  filter (λ id, ne_str id origin_id = true) ids.

(** [v] is the item [x] itself, or a sequence that starts with [x]. *)
Definition first_item (v x : value) : Prop :=
  (v = x ∧ is_list v = false) ∨ ∃ rest, v = VList (x :: rest).

(** The link entry [link] is a mapping with the identifier [id]. *)
Definition link_to (link id : value) : Prop :=
  ∃ d, link = VDict d ∧ dict_lookup d "Id" = Some id.

(** The link entries the resolver reads, in input order. *)
Definition selected_links (link_result : value) : result (list value) :=
  guard ← has_linkset link_result;
  if (guard : bool) then
    elink ← getitem link_result "eLinkResult";
    linkset ← getitem elink "LinkSet";
    has_db ← contains "LinkSetDb" (first_if_list linkset);
    if (has_db : bool) then
      linksetdb ← getitem (first_if_list linkset) "LinkSetDb";
      has_link ← contains "Link" (first_if_list linksetdb);
      if (has_link : bool) then
        links ← getitem (first_if_list linksetdb) "Link"; Ok (listify links)
      else Ok []
    else Ok []
  else Ok [].

(** Their identifiers, in input order. *)
Definition selected_ids (link_result : value) : result (list value) :=
  links ← selected_links link_result;
  comprehension (λ link, getitem link "Id") links.

(** Sample link results for the origin identifier ["9"]. *)
Definition link (id : string) : value := VDict [("Id", VStr id)].

Definition link_set_db (db_to link_name : string) (links : value) : value :=
  VDict [("DbTo", VStr db_to); ("LinkName", VStr link_name); ("Link", links)].

Definition link_set (link_set_dbs : value) : value :=
  VDict [("DbFrom", VStr "pubmed"); ("IdList", VDict [("Id", VStr "9")]);
         ("LinkSetDb", link_set_dbs)].

Definition link_result_of (link_sets : value) : value :=
  VDict [("eLinkResult", VDict [("LinkSet", link_sets)])].

(** One link-set with two link-set-databases, both into the origin
    database. *)
Definition two_databases : value :=
  link_result_of
    (link_set
       (VList [link_set_db "pubmed" "pubmed_pubmed"
                 (VList [link "9"; link "1"; link "2"]);
               link_set_db "pubmed" "pubmed_pubmed_citedin" (link "3")])).

(** Two link-sets. *)
Definition two_link_sets : value :=
  link_result_of
    (VList [link_set (link_set_db "pubmed" "pubmed_pubmed" (VList [link "1"]));
            link_set (link_set_db "pubmed" "pubmed_pubmed" (VList [link "4"]))]).

(** A single link-set-database into another database. *)
Definition foreign_database : value :=
  link_result_of
    (link_set (link_set_db "pmc" "pubmed_pmc" (VList [link "77"]))).

(** The origin identifier first and repeated among the links. *)
Definition origin_repeated : value :=
  link_result_of
    (link_set
       (link_set_db "pubmed" "pubmed_pubmed"
          (VList [link "9"; link "5"; link "9"; link "3"; link "9"]))).

(** The publication built from a document, when its build does not
    fail. *)
Definition publication (article_data : value) : option value :=
  match _parse_single_article_body article_data with
  | Ok article => Some article
  | Raise _ => None
  end.

(** Sample documents: a record with the identifier [pmid], and a
    record whose citation element is empty. *)
Definition record (pmid : string) : value :=
  VDict [("MedlineCitation",
          VDict [("PMID", VDict [("@Version", VStr "1"); ("#text", VStr pmid)]);
                 ("Article", VDict [("ArticleTitle", VStr "On trees")])])].

Definition malformed_record : value := VDict [("MedlineCitation", VNone)].

Definition article_set (articles : value) : list (string * value) :=
  [("PubmedArticleSet", VDict [("PubmedArticle", articles)])].

(** The field [k] of a publication is empty: absent, or falsy. *)
Definition empty_field (article : list (string * value)) (k : string) : Prop :=
  truthy (default VNone (dict_lookup article k)) = false.

Definition optional_fields : list string :=
  ["journal_iso"; "doi"; "publication_types"; "abstract"; "keywords";
   "mesh_terms"].

(** The detail block of a publication with no optional value: title
    header, title, authors, journal, date, PMID and the links block. *)
Definition mandatory_lines (pmid title authors journal pub_date : value)
  : list string :=
  details_head pmid title authors journal
    ++ ["**Published:** " +:+ str pub_date; "**PMID:** " +:+ str pmid]
    ++ [links_title; link_pubmed pmid; link_search_full_text pmid;
        link_citations pmid; link_similar pmid].

(** How the lines of the optional sections start. *)
Definition optional_headers : list string :=
  ["**Journal (ISO):**"; "**DOI:**"; nl +:+ "**Publication Types:**";
   nl +:+ "## 📋 Abstract"; nl +:+ "**🏷️ Keywords:**";
   nl +:+ "**🔬 MeSH Terms:**"].

(** A sequence-typed field of a publication record: a sequence of
    texts. *)
Definition text_sequence (v : value) : Prop :=
  ∃ texts : list string, v = VList (VStr <$> texts).

Definition sequence_fields : list string :=
  ["publication_types"; "keywords"; "mesh_terms"].

(** A publication with every optional field empty, as
    [_parse_single_article] builds it. *)
Definition bare_publication : list (string * value) :=
  [("pmid", VStr "123"); ("title", VStr "On trees");
   ("authors", VStr "Authors not available");
   ("journal", VStr "Unknown journal"); ("journal_iso", VStr "");
   ("pub_date", VStr "Date not available"); ("abstract", VStr "");
   ("doi", VStr ""); ("keywords", VList []);
   ("publication_types", VList []); ("mesh_terms", VList [])].

(** Sample author lists. *)
Definition author_entry (n : author_name) : value :=
  VDict [("LastName", VStr (last_name n)); ("ForeName", VStr (fore_name n));
         ("Initials", VStr (initials n))].

Definition numbered_name (i : nat) : author_name :=
  {| last_name := "Author" +:+ pretty i; fore_name := "A"; initials := "" |}.


(** Sixteen entries whose [LastName] element carries an attribute, so
    that the translator hands it over as a mapping. *)
Definition attributed_last_name : value :=
  VDict [("LastName", VDict [("@EmptyYN", VStr "N"); ("#text", VStr "Smith")])].

Definition sixteen_attributed : value :=
  VDict [("Author", VList (replicate 16 attributed_last_name))].

(** Sixteen entries of which only two have a last name. *)
Definition sixteen_sparse : list value :=
  [author_entry (numbered_name 1); VDict [("CollectiveName", VStr "Group")]]
    ++ replicate 13 (VDict [("ForeName", VStr "Anonymous")])
    ++ [author_entry (numbered_name 16)].

Definition sample_author : list (string * value) :=
  [("LastName", VStr "Curie"); ("ForeName", VStr "Marie")].

(** ** Further specification-side notions *)

(** Year, month and day as the date extractor composes them: the day
    counts only after a month, and nothing counts without a year. *)
Definition composed_date (year month day : string) : string :=
  if decide (year = "") then "Date not available"
  else if decide (month = "") then year
  else if decide (day = "") then year +:+ " " +:+ month
  else year +:+ " " +:+ month +:+ " " +:+ day.

(** One section of a structured abstract: nothing without text, the
    bare text without label, ["**Label:** text"] otherwise. *)
Definition abstract_section (part : string * string) : option string :=
  let '(label, text) := part in
  if decide (text = "") then None
  else if decide (label = "") then Some text
  else Some ("**" +:+ label +:+ ":** " +:+ text).

(** The part [p] of a structured abstract is a mapping with the label
    and the text [part]. *)
Definition section_entry (p : value) (part : string * string) : Prop :=
  ∃ d, p = VDict d ∧ text_field d "@Label" part.1 ∧ text_field d "#text" part.2.

(** An identifier entry that the DOI scan passes over: not a mapping,
    or a mapping of another type, or a DOI entry without text. *)
Definition passed_over (elocation : value) : Prop :=
  match elocation with
  | VDict d =>
      ∃ id_type, default (VStr "") (dict_lookup d "@EIdType") = VStr id_type
                 ∧ (lower id_type ≠ "doi"
                    ∨ truthy (default (VStr "") (dict_lookup d "#text")) = false)
  | _ => True
  end.

(** A publication-type entry with the text [t]: the text itself, or a
    mapping with that inner text. *)
Definition type_entry (p : value) (t : string) : Prop :=
  t ≠ "" ∧ (p = VStr t ∨ ∃ d, p = VDict d ∧ dict_lookup d "#text" = Some (VStr t)).

(** A structured abstract of three parts, the second without text. *)
Definition sample_parts : list value :=
  [VDict [("@Label", VStr "AIM"); ("#text", VStr "To see.")];
   VDict [("@Label", VStr "METHODS")];
   VDict [("#text", VStr "Seen.")]].

(** Ten headings without a descriptor, then one with a descriptor. *)
Definition eleven_headings : list value :=
  replicate 10 (VDict [("QualifierName", VStr "methods")])
    ++ [VDict [("DescriptorName", VDict [("@UI", VStr "D006801");
                                         ("#text", VStr "Humans")])]].

(** The container under [k], as the builder reads it:
    [v.get(k, {})] of a mapping, nothing of anything else. *)
Definition container (v : value) (k : string) : value :=
  match v with
  | VDict d => default (VDict []) (dict_lookup d k)
  | _ => VNone
  end.

(** The document, its citation, its article and its journal are
    mappings. *)
Definition buildable (article_data : value) : bool :=
  let medline_citation := container article_data "MedlineCitation" in
  let article_info := container medline_citation "Article" in
  let journal_info := container article_info "Journal" in
  is_dict article_data && is_dict medline_citation && is_dict article_info
    && is_dict journal_info.

(** A record whose journal is an empty element. *)
Definition record_with_empty_journal : value :=
  VDict [("MedlineCitation",
          VDict [("PMID", VDict [("@Version", VStr "1"); ("#text", VStr "7")]);
                 ("Article", VDict [("ArticleTitle", VStr "On trees");
                                    ("Journal", VNone)])])].

(** A link result without any link, and one whose second link entry
    has no identifier. *)
Definition no_links : list (string * value) :=
  [("eLinkResult",
    VDict [("LinkSet", VDict [("DbFrom", VStr "pubmed");
                              ("IdList", VDict [("Id", VStr "9")])])])].

Definition link_without_id : list (string * value) :=
  [("eLinkResult",
    VDict [("LinkSet",
            VDict [("LinkSetDb",
                    VDict [("DbTo", VStr "pubmed");
                           ("Link", VList [link "1"; VDict [("Score", VStr "5")];
                                           link "2"])])])])].

(** The lines of the detail block that depend on the DOI. *)
Definition doi_line (doi : value) : string := "**DOI:** " +:+ str doi.

Definition link_doi (doi : value) : string :=
  "• [📋 **DOI Link**](" +:+ doi_url +:+ str doi +:+ ") - Publisher's page".

Definition link_full_text (doi : value) : string :=
  "• [🔍 **Full Text Access**](" +:+ doi_url +:+ str doi
    +:+ ") - Try to access full paper".

(** A publication with a DOI and nothing else optional. *)
Definition publication_with_doi : list (string * value) :=
  [("pmid", VStr "123"); ("title", VStr "On trees"); ("doi", VStr "10.1000/a")].

(** The text [s] starts with the character [c]; it has no two [c] in
    a row. *)
Definition starts_with (c : ascii) (s : string) : bool :=
  match s with
  | String a _ => Ascii.eqb a c
  | EmptyString => false
  end.

Fixpoint double_free (c : ascii) (s : string) : bool :=
  match s with
  | EmptyString => true
  | String a s' => negb (Ascii.eqb a c && starts_with c s') && double_free c s'
  end.

Definition doubled (c : ascii) : string := String c (String c EmptyString).

Definition star : ascii := "*"%char.
Definition line_feed : ascii := ascii_of_nat 10.


(** An abstract of 201 characters, each of two bytes. *)
Definition accented_abstract : string := unchars (replicate 201 "é").

(** A publication whose abstract has emphasis marks and blank lines. *)
Definition marked_abstract : string :=
  "**AIM:** a ***b***" +:+ nl +:+ nl +:+ nl +:+ "**END**".

(** Link results whose containers are mappings or sequences of
    mappings, down to the link entries. *)
Definition mapping_or_mappings (v : value) : bool :=
  match v with
  | VDict _ => true
  | VList l => forallb is_dict l
  | _ => false
  end.

(** [v.get(k, [])] *)
Definition entry (v : value) (k : string) : value :=
  match v with
  | VDict d => default (VList []) (dict_lookup d k)
  | _ => VNone
  end.

Definition items (v : value) : list value :=
  match v with
  | VDict _ => [v]
  | VList l => l
  | _ => []
  end.

Definition shaped_db (db : value) : bool :=
  mapping_or_mappings (entry db "Link").

Definition shaped_link_set (link_set : value) : bool :=
  mapping_or_mappings (entry link_set "LinkSetDb")
  && forallb shaped_db (items (entry link_set "LinkSetDb")).

Definition shaped_link_result (link_result : value) : bool :=
  is_dict link_result
  && is_dict (container link_result "eLinkResult")
  && mapping_or_mappings (entry (container link_result "eLinkResult") "LinkSet")
  && forallb shaped_link_set
       (items (entry (container link_result "eLinkResult") "LinkSet")).

(** A record whose PMID element has no attribute, so that the
    translator hands it over as plain text. *)
Definition plain_pmid_record : value :=
  VDict [("MedlineCitation",
          VDict [("PMID", VStr "2");
                 ("Article", VDict [("ArticleTitle", VStr "On leaves")])])].

(** What a loop with a per-article handler keeps: the outputs of the
    articles that can be read, in input order, each computed at the
    position the article has in the sequence. *)
Definition readable {A} (body : nat → value → result A) (articles : list value)
  : list A :=
  omap id (imap (λ i article, match body i article with
                              | Ok x => Some x
                              | Raise _ => None
                              end) articles).

(** A set of three records, the second of which cannot be read. *)
Definition three_records : list value :=
  [record "1"; malformed_record; record "3"].

(** A record whose abstract element is empty. *)
Definition record_with_empty_abstract : list (string * value) :=
  [("MedlineCitation",
    VDict [("PMID", VDict [("@Version", VStr "1"); ("#text", VStr "8")]);
           ("Article", VDict [("ArticleTitle", VStr "On roots");
                              ("Abstract", VDict [("AbstractText", VNone)])])])].

(** The parameters of the request for the record [pmid]. *)
Definition details_request (pmid : string) : list (string * string) :=
  [("db", "pubmed"); ("id", pmid); ("rettype", "abstract"); ("retmode", "xml")].


(** ** Totality of the extractors *)

Lemma try_except_guarded {A} (body : result A) (dflt : A) :
  (∃ r, body = Ok r ∧ try_except body dflt = r)
  ∨ (∃ e, body = Raise e ∧ try_except body dflt = dflt).
Proof. destruct body as [r|e]; [left|right]; eauto. Qed.

(** C1. Every field extractor is total over the document tree: on
    every input it returns the value of its body, and when the body
    raises (an internal inconsistency of the input) it returns its
    documented default: ["Authors not available"],
    ["Date not available"], the empty string (abstract, DOI) or the
    empty list (keywords, publication types, MeSH terms). *)
Theorem extractors_total :
  guarded _extract_authors _extract_authors_body (VStr "Authors not available")
  ∧ guarded _extract_pub_date _extract_pub_date_body (VStr "Date not available")
  ∧ guarded _extract_abstract _extract_abstract_body (VStr "")
  ∧ guarded _extract_doi _extract_doi_body (VStr "")
  ∧ guarded _extract_keywords _extract_keywords_body (VList [])
  ∧ guarded _extract_publication_types _extract_publication_types_body (VList [])
  ∧ guarded _extract_mesh_terms _extract_mesh_terms_body (VList []).
Proof. repeat split; intros v; apply try_except_guarded. Qed.

(** The handlers are exercised: a scalar where a mapping is expected
    makes the body raise [AttributeError]; a last name that is a
    mapping, rendered alone, makes the join raise [TypeError]. *)
Lemma bodies_can_raise s :
  _extract_authors_body (VStr s) = Raise AttributeError
  ∧ _extract_pub_date_body (VStr s) = Raise AttributeError
  ∧ _extract_abstract_body (VStr s) = Raise AttributeError
  ∧ _extract_keywords_body (VStr s) = Raise AttributeError
  ∧ _extract_publication_types_body (VStr s) = Raise AttributeError
  ∧ _extract_mesh_terms_body (VStr s) = Raise AttributeError
  ∧ _extract_doi_body (VDict [("@EIdType", VNone)]) = Raise AttributeError
  ∧ _extract_authors_body (VDict [("Author", attributed_last_name)])
    = Raise TypeError.
Proof. repeat split; reflexivity. Qed.

(** ** Cardinality invariance *)

Lemma listify_truthy_dict m :
  listify_truthy (VDict m) = if truthy (VDict m) then [VDict m] else [].
Proof. reflexivity. Qed.

Lemma authors_cardinality : cardinality_invariant _extract_authors "Author".
Proof.
  intros c1 c2 m H1 H2.
  unfold _extract_authors, _extract_authors_body. simpl.
  rewrite H1, H2. reflexivity.
Qed.

Lemma keywords_cardinality : cardinality_invariant _extract_keywords "Keyword".
Proof.
  intros c1 c2 m H1 H2.
  unfold _extract_keywords, _extract_keywords_body. simpl.
  rewrite H1, H2. simpl. destruct m as [|kv m]; reflexivity.
Qed.

Lemma publication_types_cardinality :
  cardinality_invariant _extract_publication_types "PublicationType".
Proof.
  intros c1 c2 m H1 H2.
  unfold _extract_publication_types, _extract_publication_types_body. simpl.
  rewrite H1, H2. simpl. destruct m as [|kv m]; reflexivity.
Qed.

Lemma mesh_terms_cardinality :
  cardinality_invariant _extract_mesh_terms "MeshHeading".
Proof.
  intros c1 c2 m H1 H2.
  unfold _extract_mesh_terms, _extract_mesh_terms_body. simpl.
  rewrite H1, H2. simpl. destruct m as [|kv m]; reflexivity.
Qed.

Lemma doi_cardinality m : _extract_doi (VDict m) = _extract_doi (VList [VDict m]).
Proof.
  unfold _extract_doi, _extract_doi_body.
  rewrite listify_truthy_dict. destruct m as [|kv m]; reflexivity.
Qed.

Lemma abstract_single_mapping c m :
  dict_lookup c "AbstractText" = Some (VDict m) →
  _extract_abstract (VDict c) = default (VStr "") (dict_lookup m "#text").
Proof.
  intros H. unfold _extract_abstract, _extract_abstract_body. simpl.
  rewrite H. reflexivity.
Qed.

Lemma truthy_VStr s : s ≠ "" → truthy (VStr s) = true.
Proof.
  intros H. simpl. destruct (String.eqb_spec s ""); [contradiction|reflexivity].
Qed.

Lemma abstract_one_labelled_part c m label text :
  dict_lookup c "AbstractText" = Some (VList [VDict m]) →
  dict_lookup m "@Label" = Some (VStr label) → label ≠ "" →
  dict_lookup m "#text" = Some (VStr text) → text ≠ "" →
  _extract_abstract (VDict c) = VStr ("**" +:+ label +:+ ":** " +:+ text).
Proof.
  intros H Hl Hl' Ht Ht'. unfold _extract_abstract, _extract_abstract_body.
  simpl. rewrite H. simpl. unfold abstract_step. simpl. rewrite Hl, Ht. simpl.
  pose proof (truthy_VStr _ Hl') as El. pose proof (truthy_VStr _ Ht') as Et.
  simpl in El, Et. rewrite El, Et. reflexivity.
Qed.

Lemma pub_date_sequence c l :
  dict_lookup c "PubDate" = Some (VList l) →
  _extract_pub_date (VDict c) = VStr "Date not available".
Proof.
  intros H. unfold _extract_pub_date, _extract_pub_date_body. simpl.
  rewrite H. reflexivity.
Qed.

(** C2, as stated, fails: a single labelled abstract mapping yields its
    inner text, the one-element sequence of the same mapping yields the
    labelled rendering; a single publication-date mapping is read, a
    one-element sequence of it is not. *)
Lemma cardinality_invariance_fails :
  ¬ cardinality_invariant _extract_abstract "AbstractText"
  ∧ ¬ cardinality_invariant _extract_pub_date "PubDate".
Proof.
  split; intros H.
  - specialize (H [("AbstractText",
                    VDict [("@Label", VStr "BACKGROUND"); ("#text", VStr "Text")])]
                  [("AbstractText",
                    VList [VDict [("@Label", VStr "BACKGROUND"); ("#text", VStr "Text")]])]
                  [("@Label", VStr "BACKGROUND"); ("#text", VStr "Text")]
                  eq_refl eq_refl).
    vm_compute in H. discriminate H.
  - specialize (H [("PubDate", VDict [("Year", VStr "2020")])]
                  [("PubDate", VList [VDict [("Year", VStr "2020")]])]
                  [("Year", VStr "2020")] eq_refl eq_refl).
    vm_compute in H. discriminate H.
Qed.

(** C2, amended. The authors, DOI, keywords, publication-types and
    MeSH-terms extractors give the same value for a single mapping and
    for the one-element sequence holding it.  The abstract extractor
    gives the inner text of a single labelled mapping and the rendering
    ["**Label:** text"] of a one-element sequence; the publication-date
    extractor reads a single mapping only and gives
    ["Date not available"] for any sequence. *)
Theorem cardinality_invariance :
  cardinality_invariant _extract_authors "Author"
  ∧ (∀ m, _extract_doi (VDict m) = _extract_doi (VList [VDict m]))
  ∧ cardinality_invariant _extract_keywords "Keyword"
  ∧ cardinality_invariant _extract_publication_types "PublicationType"
  ∧ cardinality_invariant _extract_mesh_terms "MeshHeading"
  ∧ (∀ c1 c2 m label text,
       dict_lookup c1 "AbstractText" = Some (VDict m) →
       dict_lookup c2 "AbstractText" = Some (VList [VDict m]) →
       dict_lookup m "@Label" = Some (VStr label) → label ≠ "" →
       dict_lookup m "#text" = Some (VStr text) → text ≠ "" →
       _extract_abstract (VDict c1) = VStr text
       ∧ _extract_abstract (VDict c2) = VStr ("**" +:+ label +:+ ":** " +:+ text))
  ∧ (∀ c l, dict_lookup c "PubDate" = Some (VList l) →
       _extract_pub_date (VDict c) = VStr "Date not available").
Proof.
  split; [exact authors_cardinality|].
  split; [exact doi_cardinality|].
  split; [exact keywords_cardinality|].
  split; [exact publication_types_cardinality|].
  split; [exact mesh_terms_cardinality|].
  split.
  - intros c1 c2 m label text H1 H2 Hl Hl' Ht Ht'. split.
    + rewrite (abstract_single_mapping _ _ H1), Ht. reflexivity.
    + eauto using abstract_one_labelled_part.
  - exact pub_date_sequence.
Qed.

Lemma cardinality_invariance_witness :
  _extract_authors (VDict [("Author", VDict sample_author)])
  = _extract_authors (VDict [("Author", VList [VDict sample_author])])
  ∧ _extract_authors (VDict [("Author", VDict sample_author)])
    = VStr "Curie Marie".
Proof.
  split.
  - exact (proj1 cardinality_invariance
             [("Author", VDict sample_author)]
             [("Author", VList [VDict sample_author])]
             sample_author eq_refl eq_refl).
  - reflexivity.
Defined.

(** ** Query augmentation *)

Lemma prefix_spec p s :
  String.prefix p s = true ↔ ∃ rest, s = p +:+ rest.
Proof.
  revert s. induction p as [|a p IH]; intros s.
  - split; [intros _; exists s; reflexivity | intros _; destruct s; reflexivity].
  - destruct s as [|b s]; simpl.
    + split; [discriminate | intros [rest H]; discriminate H].
    + destruct (ascii_dec a b) as [->|Hne].
      * rewrite IH. split; intros [rest H]; exists rest.
        -- rewrite H. reflexivity.
        -- injection H as H. exact H.
      * split; [discriminate | intros [rest H]; injection H as H _; congruence].
Qed.

Lemma substring_in_spec sub s :
  substring_in sub s = true ↔ ∃ before after, s = before +:+ sub +:+ after.
Proof.
  induction s as [|c s IH].
  - change (substring_in sub "") with (String.prefix sub "" || false).
    rewrite orb_false_r, prefix_spec. split.
    + intros [rest H]. exists "", rest. exact H.
    + intros [before [after H]]. destruct before; [|discriminate H].
      exists after. exact H.
  - change (substring_in sub (String c s))
      with (String.prefix sub (String c s) || substring_in sub s).
    rewrite orb_true_iff, prefix_spec, IH. split.
    + intros [[rest H]|[before [after H]]].
      * exists "", rest. exact H.
      * exists (String c before), after. simpl. rewrite H. reflexivity.
    + intros [before [after H]]. destruct before as [|b before].
      * left. exists after. exact H.
      * right. injection H as _ H. exists before, after. exact H.
Qed.

Lemma has_colon_spec token : substring_in ":" token = true ↔ has_colon token.
Proof. apply substring_in_spec. Qed.

(** *** Characters *)

Lemma chars_cons_lead b s :
  starts_continued s = false → chars (String b s) = String b "" :: chars s.
Proof. intros H. cbn [chars]. rewrite H. reflexivity. Qed.

Lemma chars_nonempty b s : chars (String b s) ≠ [].
Proof.
  cbn [chars]. destruct (starts_continued s); [|discriminate].
  destruct (chars s); discriminate.
Qed.

Lemma append_cons a u r : String a u +:+ r = String a (u +:+ r).
Proof. reflexivity. Qed.

Lemma append_nil r : "" +:+ r = r.
Proof. reflexivity. Qed.

Lemma append_assoc (u v w : string) : (u +:+ v) +:+ w = u +:+ (v +:+ w).
Proof.
  induction u as [|a u IH]; [reflexivity|].
  rewrite !append_cons, IH. reflexivity.
Qed.

Lemma unchars_cons c cs : unchars (c :: cs) = c +:+ unchars cs.
Proof. reflexivity. Qed.

Lemma unchars_app l1 l2 : unchars (l1 ++ l2) = unchars l1 +:+ unchars l2.
Proof.
  induction l1 as [|c l1 IH]; [reflexivity|].
  rewrite <- app_comm_cons, !unchars_cons, IH, append_assoc. reflexivity.
Qed.

Lemma unchars_chars s : unchars (chars s) = s.
Proof.
  induction s as [|b s IH]; [reflexivity|]. cbn [chars].
  destruct (starts_continued s) eqn:E.
  - destruct (chars s) as [|c cs].
    + cbn in IH. subst s. discriminate E.
    + rewrite unchars_cons in *. rewrite append_cons, IH. reflexivity.
  - rewrite unchars_cons, IH. reflexivity.
Qed.

Lemma chars_app u v :
  starts_continued v = false → chars (u +:+ v) = chars u ++ chars v.
Proof.
  intros Hv. induction u as [|b u IH]; [reflexivity|].
  rewrite append_cons. cbn [chars]. rewrite IH. destruct u as [|b' u].
  - rewrite append_nil. cbn [starts_continued chars app]. rewrite Hv.
    reflexivity.
  - rewrite append_cons. cbn [starts_continued].
    destruct (is_continuation b'); [|reflexivity].
    destruct (chars (String b' u)) as [|c cs] eqn:E; [|reflexivity].
    exfalso. exact (chars_nonempty _ _ E).
Qed.

Lemma chars_of_char b t rest :
  all_chars is_continuation t = true → starts_continued rest = false →
  chars (String b (t +:+ rest)) = String b t :: chars rest.
Proof.
  revert b. induction t as [|b' t IH]; intros b Ht Hrest.
  - rewrite append_nil. apply chars_cons_lead, Hrest.
  - cbn [all_chars] in Ht. apply andb_true_iff in Ht as [Hb' Ht].
    rewrite append_cons. specialize (IH b' Ht Hrest).
    remember (String b' (t +:+ rest)) as s' eqn:Es.
    cbn [chars]. rewrite IH. rewrite Es. cbn [starts_continued].
    rewrite Hb'. reflexivity.
Qed.

Lemma starts_continued_unchars c cs :
  is_char c → starts_continued c = false →
  starts_continued (unchars (c :: cs)) = false.
Proof. destruct c as [|b t]; [contradiction|]. intros _ H. exact H. Qed.

Lemma chars_unchars l :
  Forall is_char l → Forall (λ c, starts_continued c = false) (tail l) →
  chars (unchars l) = l.
Proof.
  induction l as [|c l IH]; [reflexivity|]. intros Hl Htl.
  apply Forall_cons in Hl as [Hc Hl]. cbn [tail] in Htl.
  rewrite unchars_cons. destruct c as [|b t]; [contradiction|].
  rewrite append_cons, chars_of_char.
  - rewrite IH; [reflexivity | exact Hl |].
    destruct l; [constructor | apply Forall_cons in Htl as [_ H]; exact H].
  - exact Hc.
  - destruct l as [|c' l]; [reflexivity|].
    apply Forall_cons in Htl as [Hc' _]. apply Forall_cons in Hl as [Hchar _].
    apply starts_continued_unchars; assumption.
Qed.

Lemma chars_head b s :
  ∃ t cs, chars (String b s) = String b t :: cs.
Proof.
  cbn [chars]. destruct (starts_continued s); [|eauto].
  destruct (chars s); eauto.
Qed.

Lemma chars_well_formed s :
  Forall is_char (chars s)
  ∧ Forall (λ c, starts_continued c = false) (tail (chars s)).
Proof.
  induction s as [|b s [IH1 IH2]]; [split; constructor|].
  cbn [chars]. destruct (starts_continued s) eqn:E.
  - destruct s as [|b' s]; [discriminate E|]. cbn [starts_continued] in E.
    destruct (chars_head b' s) as (t & cs & Hcs). rewrite Hcs in *.
    apply Forall_cons in IH1 as [Ht IH1]. cbn [tail] in *.
    split; [|exact IH2]. constructor; [|exact IH1].
    cbn [is_char all_chars] in *. rewrite E, Ht. reflexivity.
  - split; [constructor; [reflexivity | exact IH1]|]. cbn [tail].
    destruct s as [|b' s]; [constructor|]. cbn [starts_continued] in E.
    destruct (chars_head b' s) as (t & cs & Hcs). rewrite Hcs in *.
    cbn [tail] in IH2. constructor; [exact E | exact IH2].
Qed.

Lemma chars_unchars_sublist_take n s :
  chars (unchars (take n (chars s))) = take n (chars s).
Proof.
  destruct (chars_well_formed s) as [H1 H2]. apply chars_unchars.
  - apply Forall_take, H1.
  - destruct n as [|n]; [constructor|].
    destruct (chars s) as [|c cs]; [constructor|]. cbn [take tail] in *.
    apply Forall_take, H2.
Qed.

Lemma len_str_take n s : len (str_take n s) ≤ n.
Proof.
  unfold len, str_take. rewrite chars_unchars_sublist_take, length_take. lia.
Qed.

Lemma chars_unchars_slice n s :
  chars (unchars (slice_to n (chars s))) = slice_to n (chars s).
Proof. unfold slice_to. destruct (0 <=? n)%Z; apply chars_unchars_sublist_take. Qed.

(** *** The date filter *)

Lemma decimal_digit_char a :
  a ∈ decimal_digits →
  is_continuation a = false ∧ is_digit_char (String a "") = true.
Proof.
  unfold decimal_digits. intros H.
  repeat (apply elem_of_cons in H as [->|H]; [split; vm_compute; reflexivity|]).
  apply elem_of_nil in H. contradiction.
Qed.

Lemma four_digits_spec token :
  isdigit token && (len token =? 4)%nat = true ↔ four_digits token.
Proof.
  unfold four_digits, isdigit, len. split.
  - intros H. apply andb_true_iff in H as [H Hlen].
    apply andb_true_iff in H as [_ H]. apply Nat.eqb_eq in Hlen.
    destruct (chars token) as [|a [|b [|c [|d [|e l]]]]]; try discriminate Hlen.
    cbn [forallb] in H.
    repeat (apply andb_true_iff in H as [? H]).
    exists a, b, c, d. auto.
  - intros (a & b & c & d & E & Ha & Hb & Hc & Hd). rewrite E.
    cbn [forallb length]. rewrite Ha, Hb, Hc, Hd.
    destruct token; [discriminate E | reflexivity].
Qed.

Lemma four_decimal_digits_four_digits token :
  four_decimal_digits token → four_digits token.
Proof.
  intros (a & b & c & d & -> & Ha & Hb & Hc & Hd).
  apply decimal_digit_char in Ha as [_ Ha], Hb as [Hb' Hb], Hc as [Hc' Hc],
    Hd as [Hd' Hd].
  exists (String a ""), (String b ""), (String c ""), (String d "").
  split; [|auto].
  rewrite !chars_cons_lead by assumption || reflexivity. reflexivity.
Qed.

Lemma search_query_colon y q token :
  has_colon token → search_query y q token = with_pdat q token.
Proof.
  intros H. apply has_colon_spec in H. unfold search_query.
  destruct (String.eqb_spec token "") as [->|_]; [discriminate H|].
  destruct (String.eqb_spec token "last_5_years") as [->|_]; [discriminate H|].
  destruct (String.eqb_spec token "last_year") as [->|_]; [discriminate H|].
  cbn [negb]. rewrite H. reflexivity.
Qed.

Lemma search_query_year y q token :
  four_digits token → search_query y q token = with_pdat q token.
Proof.
  intros H. pose proof (proj2 (four_digits_spec token) H) as Hd.
  unfold search_query.
  destruct (String.eqb_spec token "") as [->|_]; [discriminate Hd|].
  destruct (String.eqb_spec token "last_5_years") as [->|_]; [discriminate Hd|].
  destruct (String.eqb_spec token "last_year") as [->|_]; [discriminate Hd|].
  cbn [negb]. rewrite Hd. destruct (substring_in ":" token); reflexivity.
Qed.

(** C3, as stated, fails: the token ["²⁰²³"] is not empty, is none of
    the two named ranges, has no colon and is no token of four decimal
    digits, and yet the query is not left unchanged: the four
    superscript digits pass [str.isdigit] and are appended. *)
Lemma query_augmentation_fails :
  "²⁰²³" ≠ "" ∧ "²⁰²³" ≠ "last_5_years" ∧ "²⁰²³" ≠ "last_year"
  ∧ ¬ has_colon "²⁰²³" ∧ ¬ four_decimal_digits "²⁰²³"
  ∧ search_query 2026 "cancer" "²⁰²³" = "cancer AND ²⁰²³[pdat]"
  ∧ search_query 2026 "cancer" "²⁰²³" ≠ "cancer".
Proof.
  split; [discriminate|]. split; [discriminate|]. split; [discriminate|].
  split; [|split; [|split]].
  - intros H. apply has_colon_spec in H. discriminate H.
  - intros (a & b & c & d & H & _). discriminate H.
  - reflexivity.
  - discriminate.
Qed.

(** C3, amended. The date filter of the search follows the rule table:
    an empty token leaves the query unchanged; ["last_5_years"] and
    ["last_year"] append the range from five (one) years before the
    current year to the current year; a token containing [":"] and a
    token of exactly four digit characters (as [str.isdigit] reads
    them; four decimal digits are such a token) are appended verbatim
    as [" AND {token}[pdat]"]; every other token leaves the query
    unchanged. *)
Theorem query_augmentation (current_year : Z) (query token : string) :
  (token = "" → search_query current_year query token = query)
  ∧ (token = "last_5_years" →
       search_query current_year query token
       = query +:+ " AND " +:+ pretty (current_year - 5)%Z +:+ ":"
               +:+ pretty current_year +:+ "[pdat]")
  ∧ (token = "last_year" →
       search_query current_year query token
       = query +:+ " AND " +:+ pretty (current_year - 1)%Z +:+ ":"
               +:+ pretty current_year +:+ "[pdat]")
  ∧ (has_colon token →
       search_query current_year query token
       = query +:+ " AND " +:+ token +:+ "[pdat]")
  ∧ (four_digits token →
       search_query current_year query token
       = query +:+ " AND " +:+ token +:+ "[pdat]")
  ∧ (four_decimal_digits token →
       four_digits token
       ∧ search_query current_year query token
         = query +:+ " AND " +:+ token +:+ "[pdat]")
  ∧ (token ≠ "last_5_years" → token ≠ "last_year" →
     ¬ has_colon token → ¬ four_digits token →
       search_query current_year query token = query).
Proof.
  repeat split.
  - intros ->. reflexivity.
  - intros ->. reflexivity.
  - intros ->. reflexivity.
  - apply search_query_colon.
  - apply search_query_year.
  - apply four_decimal_digits_four_digits. assumption.
  - apply search_query_year, four_decimal_digits_four_digits. assumption.
  - intros H5 H1 Hc Hd. unfold search_query.
    destruct (String.eqb_spec token ""); [reflexivity|].
    destruct (String.eqb_spec token "last_5_years"); [contradiction|].
    destruct (String.eqb_spec token "last_year"); [contradiction|].
    cbn [negb]. destruct (substring_in ":" token) eqn:Ec.
    { exfalso. apply Hc, has_colon_spec, Ec. }
    destruct (isdigit token && (len token =? 4)%nat) eqn:Ed.
    { exfalso. apply Hd, four_digits_spec, Ed. }
    reflexivity.
Qed.

Lemma query_augmentation_witness :
  search_query 2026 "cancer" "2020:2024" = "cancer AND 2020:2024[pdat]"
  ∧ search_query 2026 "cancer" "2023" = "cancer AND 2023[pdat]"
  ∧ search_query 2026 "cancer" "²⁰²³" = "cancer AND ²⁰²³[pdat]"
  ∧ search_query 2026 "cancer" "" = "cancer"
  ∧ search_query 2026 "cancer" "bogus" = "cancer"
  ∧ search_query 2026 "cancer" "last_5_years" = "cancer AND 2021:2026[pdat]"
  ∧ search_query 2026 "cancer" "last_year" = "cancer AND 2025:2026[pdat]".
Proof.
  split; [|split; [|split; [|split; [|split; [|split]]]]].
  - refine (proj1 (proj2 (proj2 (proj2
              (query_augmentation 2026 "cancer" "2020:2024")))) _).
    exists "2020", "2024". reflexivity.
  - refine (proj2 (proj1 (proj2 (proj2 (proj2 (proj2 (proj2
              (query_augmentation 2026 "cancer" "2023")))))) _)).
    exists "2"%char, "0"%char, "2"%char, "3"%char.
    split; [reflexivity|]. unfold decimal_digits.
    repeat split; repeat constructor.
  - refine (proj1 (proj2 (proj2 (proj2 (proj2
              (query_augmentation 2026 "cancer" "²⁰²³"))))) _).
    exists "²", "⁰", "²", "³". repeat split; reflexivity.
  - exact (proj1 (query_augmentation 2026 "cancer" "") eq_refl).
  - refine (proj2 (proj2 (proj2 (proj2 (proj2 (proj2
              (query_augmentation 2026 "cancer" "bogus")))))) _ _ _ _).
    + discriminate.
    + discriminate.
    + intros H. apply has_colon_spec in H. discriminate H.
    + intros H. apply four_digits_spec in H. discriminate H.
  - exact (proj1 (proj2 (query_augmentation 2026 "cancer" "last_5_years"))
             eq_refl).
  - exact (proj1 (proj2 (proj2 (query_augmentation 2026 "cancer" "last_year")))
             eq_refl).
Defined.

(** ** Authors *)

Lemma author_step_spec names a :
  author_step names a = Ok (names ++ option_list (rendered_name a)).
Proof.
  destruct a as [|s|l|d]; simpl; rewrite ?app_nil_r; try reflexivity.
  unfold author_step, rendered_name. simpl.
  destruct (truthy (default (VStr "") (dict_lookup d "LastName")));
    [|rewrite app_nil_r; reflexivity].
  destruct (truthy (default (VStr "") (dict_lookup d "ForeName")));
    [reflexivity|].
  destruct (truthy (default (VStr "") (dict_lookup d "Initials")));
    reflexivity.
Qed.

Lemma for_each_author_step l names :
  for_each author_step l names = Ok (names ++ omap rendered_name l).
Proof.
  revert names. induction l as [|a l IH]; intros names.
  - simpl. rewrite app_nil_r. reflexivity.
  - change (for_each author_step (a :: l) names)
      with (author_step names a ≫= for_each author_step l).
    rewrite author_step_spec.
    change (Ok (names ++ option_list (rendered_name a)) ≫= for_each author_step l)
      with (for_each author_step l (names ++ option_list (rendered_name a))).
    rewrite IH.
    change (omap rendered_name (a :: l))
      with (match rendered_name a with
            | Some y => y :: omap rendered_name l
            | None => omap rendered_name l
            end).
    destruct (rendered_name a); simpl; rewrite <- ?app_assoc, ?app_nil_r;
      reflexivity.
Qed.

Lemma as_strs_texts (l : list string) : as_strs (VStr <$> l) = Ok l.
Proof.
  induction l as [|s l IH]; [reflexivity|]. rewrite fmap_cons.
  change (as_strs (VStr s :: (VStr <$> l)))
    with (ss ← as_strs (VStr <$> l); Ok (s :: ss)).
  rewrite IH. reflexivity.
Qed.

Lemma text_field_default d k s :
  text_field d k s →
  truthy (default (VStr "") (dict_lookup d k)) = negb (String.eqb s "")
  ∧ (s ≠ "" → default (VStr "") (dict_lookup d k) = VStr s).
Proof.
  intros [H|[-> [H|H]]]; rewrite H; simpl; split; auto; congruence.
Qed.



Lemma extract_authors_list c authors :
  dict_lookup c "Author" = Some (VList authors) →
  _extract_authors_body (VDict c)
  = let author_names := omap rendered_name (take 15 authors) in
    if (15 <? length authors)%nat then
      joined ← join ", " (VList author_names);
      Ok (VStr (joined +:+ ", et al."))
    else if truthy (VList author_names)
         then VStr <$> join ", " (VList author_names)
         else Ok (VStr "Authors not available").
Proof.
  intros H. unfold _extract_authors_body. simpl. rewrite H. simpl.
  rewrite for_each_author_step. reflexivity.
Qed.




Lemma rendered_name_text a :
  last_name_is_text a →
  rendered_name a = None ∨ ∃ s, rendered_name a = Some (VStr s).
Proof.
  destruct a as [|s|l|d]; simpl; auto. intros H.
  destruct (dict_lookup d "LastName") as [[|s|l|d']|]; simpl; auto;
    try contradiction.
  destruct (negb (String.eqb s "")); auto. right.
  destruct (truthy (default (VStr "") (dict_lookup d "ForeName"))); eauto.
  destruct (truthy (default (VStr "") (dict_lookup d "Initials"))); eauto.
Qed.

Lemma rendered_names_text authors :
  Forall last_name_is_text authors →
  ∃ names, omap rendered_name authors = VStr <$> names
           ∧ length names ≤ length authors.
Proof.
  induction 1 as [|a authors Ha _ (names & IH & Hlen)].
  - exists []. split; [reflexivity | simpl; lia].
  - change (omap rendered_name (a :: authors))
      with (match rendered_name a with
            | Some y => y :: omap rendered_name authors
            | None => omap rendered_name authors
            end).
    destruct (rendered_name_text _ Ha) as [->|[s ->]].
    + exists names. split; [exact IH | simpl; lia].
    + exists (s :: names). rewrite IH. split; [reflexivity | simpl; lia].
Qed.

Lemma rendered_name_lacking a : lacks_last_name a → rendered_name a = None.
Proof.
  destruct a as [|s|l|d]; simpl; auto. intros ->. reflexivity.
Qed.

Lemma rendered_names_lacking authors :
  Forall lacks_last_name authors → omap rendered_name authors = [].
Proof.
  induction 1 as [|a authors Ha _ IH]; [reflexivity|].
  change (omap rendered_name (a :: authors))
    with (match rendered_name a with
          | Some y => y :: omap rendered_name authors
          | None => omap rendered_name authors
          end).
  rewrite (rendered_name_lacking _ Ha). exact IH.
Qed.

Lemma not_a_suffix_of_placeholder :
  ¬ ∃ s, VStr "Authors not available" = VStr (s +:+ ", et al.").
Proof.
  intros [s H]. injection H as H.
  do 21 (destruct s as [|? s]; [discriminate H | injection H as _ H]).
  destruct s; discriminate H.
Qed.

(** C10, as stated, fails: sixteen entries whose last name is a mapping
    (a [LastName] element with an attribute) and that have neither fore
    name nor initials make the join raise; the extractor returns its
    default, which does not end with [", et al."]. *)
Lemma et_al_marker_fails :
  document_tree sixteen_attributed = true
  ∧ dict_lookup [("Author", VList (replicate 16 attributed_last_name))] "Author"
    = Some (VList (replicate 16 attributed_last_name))
  ∧ 15 < length (replicate 16 attributed_last_name)
  ∧ _extract_authors sixteen_attributed = VStr "Authors not available"
  ∧ ¬ ∃ s, _extract_authors sixteen_attributed = VStr (s +:+ ", et al.").
Proof.
  split; [reflexivity|]. split; [reflexivity|]. split; [vm_compute; lia|].
  split; [reflexivity|]. exact not_a_suffix_of_placeholder.
Qed.

(** C10, amended. For every author list with more than 15 raw entries
    in which the last names present among the first 15 entries are
    text, the author string is the rendered names followed by
    [", et al."], however many names were rendered: at most 15, fewer
    when entries lack a last name, and none (the suffix alone) when
    every entry lacks one. *)
Theorem et_al_by_raw_count c authors :
  dict_lookup c "Author" = Some (VList authors) →
  15 < length authors →
  Forall last_name_is_text (take 15 authors) →
  (∃ names,
     omap rendered_name (take 15 authors) = VStr <$> names
     ∧ length names ≤ 15
     ∧ _extract_authors (VDict c)
       = VStr (String.concat ", " names +:+ ", et al."))
  ∧ (Forall lacks_last_name authors →
     _extract_authors (VDict c) = VStr ", et al.").
Proof.
  intros Hc Hmore Htext. apply Nat.ltb_lt in Hmore as Hb.
  unfold _extract_authors. rewrite (extract_authors_list _ _ Hc). cbv zeta.
  rewrite Hb. split.
  - destruct (rendered_names_text _ Htext) as (names & Hnames & Hlen).
    exists names. rewrite Hnames. split; [reflexivity|]. split.
    + rewrite length_take in Hlen. lia.
    + simpl. rewrite as_strs_texts. reflexivity.
  - intros Hlack. rewrite rendered_names_lacking; [reflexivity|].
    apply Forall_take, Hlack.
Qed.

Lemma et_al_by_raw_count_witness :
  _extract_authors (VDict [("Author", VList sixteen_sparse)])
  = VStr "Author1 A, et al."
  ∧ _extract_authors
      (VDict [("Author", VList (replicate 16 (VDict [("ForeName", VStr "A")])))])
    = VStr ", et al.".
Proof.
  split.
  - destruct (proj1 (et_al_by_raw_count [("Author", VList sixteen_sparse)]
                       sixteen_sparse eq_refl ltac:(vm_compute; lia)
                       ltac:(repeat constructor)))
      as (names & Hnames & _ & ->).
    vm_compute in Hnames. destruct names as [|n [|n' names]]; try discriminate.
    injection Hnames as <-. reflexivity.
  - refine (proj2 (et_al_by_raw_count
              [("Author", VList (replicate 16 (VDict [("ForeName", VStr "A")])))]
              (replicate 16 (VDict [("ForeName", VStr "A")]))
              eq_refl _ _) _).
    + vm_compute. lia.
    + vm_compute. repeat constructor.
    + vm_compute. repeat constructor.
Defined.

(** ** Keywords *)

Lemma filter_fmap_NoDup {A B} `{EqDecision B} (f : A → B) (P : A → Prop)
    `{∀ x, Decision (P x)} (l : list A) :
  NoDup (f <$> l) → NoDup (f <$> filter P l).
Proof.
  induction l as [|x l IH]; [intros; constructor|].
  rewrite fmap_cons, NoDup_cons. intros [Hx Hl].
  rewrite filter_cons. destruct (decide (P x)); [|auto].
  rewrite fmap_cons, NoDup_cons. split; [|auto].
  intros Hin. apply Hx. apply list_elem_of_fmap in Hin as (y & -> & Hy).
  apply list_elem_of_fmap. exists y. split; [reflexivity|].
  apply list_elem_of_filter in Hy. tauto.
Qed.

Lemma first_occurrences_NoDup texts :
  NoDup (lower <$> first_occurrences texts).
Proof.
  induction texts as [|t rest IH]; [constructor|]. cbn [first_occurrences].
  rewrite fmap_cons, NoDup_cons. split.
  - intros Hin. apply list_elem_of_fmap in Hin as (u & Hu & Hin).
    apply list_elem_of_filter in Hin as [Hne _]. congruence.
  - apply filter_fmap_NoDup, IH.
Qed.

Lemma first_occurrences_sublist texts : sublist (first_occurrences texts) texts.
Proof.
  induction texts as [|t rest IH]; [constructor|]. simpl.
  apply sublist_skip. etrans; [apply sublist_filter | exact IH].
Qed.


Lemma unseen_spec seen texts :
  unseen seen texts = filter (λ u, lower u ∉ seen) (first_occurrences texts).
Proof.
  revert seen. induction texts as [|t rest IH]; intros seen; [reflexivity|].
  simpl. rewrite filter_cons, list_filter_filter.
  destruct (decide (lower t ∈ seen)) as [Hin|Hnin].
  - rewrite decide_False by tauto. rewrite IH.
    apply list_filter_iff. intros u. split; [|tauto].
    intros Hu. split; [exact Hu | congruence].
  - rewrite decide_True by exact Hnin. rewrite IH. f_equal.
    apply list_filter_iff. intros u.
    rewrite not_elem_of_union, not_elem_of_singleton. tauto.
Qed.

Lemma unseen_empty texts : unseen ∅ texts = first_occurrences texts.
Proof.
  rewrite unseen_spec. induction (first_occurrences texts) as [|u l IH];
    [reflexivity|].
  rewrite filter_cons, decide_True by set_solver. rewrite IH. reflexivity.
Qed.

Lemma keyword_step_spec acc seen keyword :
  keyword_node keyword →
  keyword_step (acc, seen) keyword
  = Ok match keyword_text keyword with
       | Some t =>
           if decide (lower t ∈ seen) then (acc, seen)
           else (acc ++ [VStr t], seen ∪ {[lower t]})
       | None => (acc, seen)
       end.
Proof.
  assert (Hstep : ∀ t, (if bool_decide (lower t ∉ seen)
                        then Ok (acc ++ [VStr t], seen ∪ {[lower t]})
                        else Ok (acc, seen))
                       = Ok (if decide (lower t ∈ seen) then (acc, seen)
                             else (acc ++ [VStr t], seen ∪ {[lower t]}))).
  { intros t. destruct (decide (lower t ∈ seen)).
    - rewrite bool_decide_eq_false_2 by tauto. reflexivity.
    - rewrite bool_decide_eq_true_2 by assumption. reflexivity. }
  destruct keyword as [|s|l|d]; intros Hnode; unfold keyword_step, keyword_text.
  - reflexivity.
  - simpl. destruct (String.eqb_spec s ""); simpl; [reflexivity | apply Hstep].
  - destruct l as [|x l]; [reflexivity|].
    exact (Hstep (str (VList (x :: l)))).
  - simpl in *. destruct (dict_lookup d "#text") as [[|s|[|x l]|[|kv d']]|];
      simpl; try reflexivity; try contradiction.
    destruct (decide (s = "")) as [->|Hs]; [reflexivity|].
    destruct (String.eqb_spec s ""); [contradiction|]. simpl. apply Hstep.
Qed.

Lemma for_each_keyword_step kws acc seen :
  Forall keyword_node kws →
  ∃ seen', for_each keyword_step kws (acc, seen)
           = Ok (acc ++ (VStr <$> unseen seen (omap keyword_text kws)), seen').
Proof.
  intros H. revert acc seen.
  induction H as [|k kws Hk _ IH]; intros acc seen.
  - exists seen. simpl. rewrite app_nil_r. reflexivity.
  - change (for_each keyword_step (k :: kws) (acc, seen))
      with (keyword_step (acc, seen) k ≫= for_each keyword_step kws).
    rewrite (keyword_step_spec _ _ _ Hk).
    change (omap keyword_text (k :: kws))
      with (match keyword_text k with
            | Some t => t :: omap keyword_text kws
            | None => omap keyword_text kws
            end).
    destruct (keyword_text k) as [t|]; [|apply IH]. simpl unseen.
    destruct (decide (lower t ∈ seen)); [apply IH|].
    destruct (IH (acc ++ [VStr t]) (seen ∪ {[lower t]})) as [seen' E].
    exists seen'. etrans; [exact E|]. rewrite fmap_cons, <- app_assoc.
    reflexivity.
Qed.

Lemma document_tree_inner_text d v :
  document_tree (VDict d) = true → dict_lookup d "#text" = Some v →
  is_str v = true.
Proof.
  induction d as [|[k x] d IH]; [discriminate 2|].
  cbn [document_tree forallb dict_lookup fst snd]. intros H Hv.
  apply andb_true_iff in H as [Hx Hd].
  destruct (String.eqb_spec k "#text") as [->|_].
  - injection Hv as <-. exact Hx.
  - exact (IH Hd Hv).
Qed.

Lemma document_tree_keyword_node kws :
  document_tree (VList kws) = true → Forall keyword_node kws.
Proof.
  cbn [document_tree]. intros H. apply Forall_forall. intros k Hk.
  rewrite forallb_forall in H. apply list_elem_of_In, H in Hk.
  apply andb_true_iff in Hk as [_ Hk].
  destruct k as [|s|l|d]; cbn [keyword_node]; auto.
  destruct (dict_lookup d "#text") as [v|] eqn:E; [|exact I].
  pose proof (document_tree_inner_text _ _ Hk E) as Hv.
  destruct v; try discriminate Hv; exact I.
Qed.



(** ** Related identifiers *)

Lemma link_ids_spec links pmid :
  link_ids links pmid
  = filter (λ id, ne_str id pmid = true)
      <$> comprehension (λ link, getitem link "Id") links.
Proof.
  induction links as [|link rest IH]; [reflexivity|].
  cbn [link_ids comprehension]. destruct (getitem link "Id") as [id|e];
    [|reflexivity].
  cbn [mbind result_bind]. rewrite IH.
  destruct (comprehension _ rest) as [raw|e];
    cbn [fmap result_fmap mbind result_bind]; rewrite ?filter_cons;
    destruct (ne_str id pmid) eqn:E; reflexivity.
Qed.

Lemma similar_pmids_spec link_result pmid :
  similar_pmids link_result pmid
  = filter (λ id, ne_str id pmid = true) <$> selected_ids link_result.
Proof.
  unfold similar_pmids, selected_ids, selected_links.
  destruct (has_linkset link_result) as [[]|e]; try reflexivity.
  cbn [mbind result_bind].
  destruct (getitem link_result "eLinkResult") as [elink|e]; [|reflexivity].
  cbn [mbind result_bind].
  destruct (getitem elink "LinkSet") as [linkset|e]; [|reflexivity].
  cbn [mbind result_bind].
  destruct (contains "LinkSetDb" (first_if_list linkset)) as [[]|e];
    try reflexivity.
  cbn [mbind result_bind].
  destruct (getitem (first_if_list linkset) "LinkSetDb") as [dbs|e];
    [|reflexivity].
  cbn [mbind result_bind].
  destruct (contains "Link" (first_if_list dbs)) as [[]|e]; try reflexivity.
  cbn [mbind result_bind].
  destruct (getitem (first_if_list dbs) "Link") as [links|e]; [|reflexivity].
  cbn [mbind result_bind].
  destruct links as [|s|links|d]; try reflexivity.
  - apply link_ids_spec.
  - cbn [listify comprehension]. destruct (getitem (VDict d) "Id") as [id|e];
      [|reflexivity].
    cbn [mbind result_bind fmap result_fmap]. rewrite filter_cons.
    destruct (ne_str id pmid) eqn:E; reflexivity.
Qed.

Lemma comprehension_link_to links ids :
  Forall2 link_to links ids →
  comprehension (λ link, getitem link "Id") links = Ok ids.
Proof.
  induction 1 as [|link id links ids (d & -> & Hid) _ IH]; [reflexivity|].
  cbn [comprehension getitem]. rewrite Hid. cbn [mbind result_bind].
  rewrite IH. reflexivity.
Qed.

Lemma first_if_list_first_item v x :
  first_item v (VDict x) → first_if_list v = VDict x.
Proof. intros [[-> _]|[rest ->]]; reflexivity. Qed.

Lemma contains_present d k v :
  dict_lookup d k = Some v → contains k (VDict d) = Ok true.
Proof.
  intros H. cbn [contains]. rewrite H, bool_decide_eq_true_2 by eauto.
  reflexivity.
Qed.

Lemma getitem_present d k v :
  dict_lookup d k = Some v → getitem (VDict d) k = Ok v.
Proof. intros H. cbn [getitem]. rewrite H. reflexivity. Qed.

Lemma selected_links_first doc elink linksets ls dbs db links :
  dict_lookup doc "eLinkResult" = Some (VDict elink) →
  dict_lookup elink "LinkSet" = Some linksets →
  first_item linksets (VDict ls) →
  dict_lookup ls "LinkSetDb" = Some dbs →
  first_item dbs (VDict db) →
  dict_lookup db "Link" = Some links →
  selected_links (VDict doc) = Ok (listify links).
Proof.
  intros Hdoc Helink Hls Hdbs Hdb Hlinks. unfold selected_links, has_linkset.
  rewrite (contains_present _ _ _ Hdoc). cbn [mbind result_bind].
  rewrite (getitem_present _ _ _ Hdoc). cbn [mbind result_bind].
  rewrite (contains_present _ _ _ Helink). cbn [mbind result_bind].
  rewrite (getitem_present _ _ _ Helink). cbn [mbind result_bind].
  rewrite (first_if_list_first_item _ _ Hls).
  rewrite (contains_present _ _ _ Hdbs). cbn [mbind result_bind].
  rewrite (getitem_present _ _ _ Hdbs). cbn [mbind result_bind].
  rewrite (first_if_list_first_item _ _ Hdb).
  rewrite (contains_present _ _ _ Hlinks). cbn [mbind result_bind].
  rewrite (getitem_present _ _ _ Hlinks). reflexivity.
Qed.

Lemma similar_pmids_first_database doc pmid elink linksets ls dbs db links ids :
  dict_lookup doc "eLinkResult" = Some (VDict elink) →
  dict_lookup elink "LinkSet" = Some linksets →
  first_item linksets (VDict ls) →
  dict_lookup ls "LinkSetDb" = Some dbs →
  first_item dbs (VDict db) →
  dict_lookup db "Link" = Some links →
  Forall2 link_to (listify links) ids →
  similar_pmids (VDict doc) pmid
  = Ok (filter (λ id, ne_str id pmid = true) ids).
Proof.
  intros Hdoc Helink Hls Hdbs Hdb Hlinks Hids.
  rewrite similar_pmids_spec. unfold selected_ids.
  rewrite (selected_links_first _ _ _ _ _ _ _ Hdoc Helink Hls Hdbs Hdb Hlinks).
  cbn [mbind result_bind]. rewrite (comprehension_link_to _ _ Hids).
  reflexivity.
Qed.

Lemma link_samples_are_document_trees :
  document_tree two_databases = true
  ∧ document_tree two_link_sets = true
  ∧ document_tree foreign_database = true
  ∧ document_tree origin_repeated = true.
Proof. repeat split; reflexivity. Qed.

(** C6, as stated, fails: the links of a second link-set-database and
    of a second link-set are not collected, and the links of a
    link-set-database into another database are collected. *)
Lemma related_scope_fails :
  (similar_pmids two_databases "9" = Ok [VStr "1"; VStr "2"]
   ∧ claimed_related_ids "pubmed" two_databases "9"
     = [VStr "1"; VStr "2"; VStr "3"])
  ∧ (similar_pmids two_link_sets "9" = Ok [VStr "1"]
     ∧ claimed_related_ids "pubmed" two_link_sets "9" = [VStr "1"; VStr "4"])
  ∧ (similar_pmids foreign_database "9" = Ok [VStr "77"]
     ∧ claimed_related_ids "pubmed" foreign_database "9" = []).
Proof. repeat split; vm_compute; reflexivity. Qed.

(** C6, amended. The resolver reads the first link-set only, and in it
    the first link-set-database only, whatever its target database (no
    filter on the database name is applied); it collects the
    identifiers of that database's link entries in input order, leaving
    out those equal to the origin identifier. *)
Theorem related_scope doc pmid elink linksets ls dbs db links ids :
  dict_lookup doc "eLinkResult" = Some (VDict elink) →
  dict_lookup elink "LinkSet" = Some linksets →
  first_item linksets (VDict ls) →
  dict_lookup ls "LinkSetDb" = Some dbs →
  first_item dbs (VDict db) →
  dict_lookup db "Link" = Some links →
  Forall2 link_to (listify links) ids →
  similar_pmids (VDict doc) pmid
  = Ok (filter (λ id, ne_str id pmid = true) ids).
Proof. apply similar_pmids_first_database. Qed.

Lemma related_scope_witness :
  similar_pmids two_databases "9" = Ok [VStr "1"; VStr "2"].
Proof.
  change (similar_pmids two_databases "9"
          = Ok (filter (λ id, ne_str id "9" = true)
                  [VStr "9"; VStr "1"; VStr "2"])).
  unfold two_databases, link_result_of, link_set.
  eapply related_scope;
    [ reflexivity | reflexivity | left; split; reflexivity | reflexivity
    | right; eexists; reflexivity | reflexivity | ].
  repeat constructor; eexists; split; reflexivity.
Defined.

(** C7. The resolved identifier sequence never contains an identifier
    textually equal to the origin identifier, wherever and however
    often it occurs among the links, and the identifiers that remain
    keep the input order of the link entries: the result is the
    sequence of linked identifiers with the origin removed. *)
Theorem related_self_exclusion link_result pmid :
  (∀ raw, selected_ids link_result = Ok raw →
     similar_pmids link_result pmid
     = Ok (filter (λ id, ne_str id pmid = true) raw))
  ∧ (∀ ids, similar_pmids link_result pmid = Ok ids →
       (VStr pmid ∉ ids)
       ∧ (∃ raw, selected_ids link_result = Ok raw ∧ sublist ids raw)).
Proof.
  rewrite similar_pmids_spec. split.
  - intros raw ->. reflexivity.
  - intros ids H. destruct (selected_ids link_result) as [raw|e];
      [|discriminate H].
    injection H as <-. split.
    + intros Hin. apply list_elem_of_filter in Hin as [Hne _].
      simpl in Hne. rewrite String.eqb_refl in Hne. discriminate Hne.
    + exists raw. split; [reflexivity | apply sublist_filter].
Qed.

Lemma related_self_exclusion_witness :
  similar_pmids origin_repeated "9" = Ok [VStr "5"; VStr "3"]
  ∧ VStr "9" ∉ [VStr "5"; VStr "3"].
Proof.
  split.
  - exact (proj1 (related_self_exclusion origin_repeated "9")
             [VStr "9"; VStr "5"; VStr "9"; VStr "3"; VStr "9"] eq_refl).
  - exact (proj1 (proj2 (related_self_exclusion origin_repeated "9")
                    [VStr "5"; VStr "3"] eq_refl)).
Defined.

(** ** Batch resilience *)

Lemma bind_Ok_inv {A B} (m : result A) (f : A → result B) b :
  m ≫= f = Ok b → ∃ a, m = Ok a ∧ f a = Ok b.
Proof. destruct m as [a|e]; [eauto | discriminate]. Qed.

Lemma parse_single_article_built article_data article :
  _parse_single_article_body article_data = Ok article →
  truthy article = true.
Proof.
  unfold _parse_single_article_body. intros H.
  repeat (apply bind_Ok_inv in H as (? & _ & H)).
  injection H as <-. reflexivity.
Qed.

Lemma parse_step_spec articles article_data :
  parse_step articles article_data
  = articles ++ option_list (publication article_data).
Proof.
  unfold parse_step, publication, _parse_single_article.
  destruct (_parse_single_article_body article_data) as [a|e] eqn:E;
    cbn [try_except option_list].
  - rewrite (parse_single_article_built _ _ E). reflexivity.
  - rewrite app_nil_r. reflexivity.
Qed.

Lemma foldl_parse_step docs articles :
  foldl parse_step articles docs = articles ++ omap publication docs.
Proof.
  revert articles. induction docs as [|d docs IH]; intros articles.
  - simpl. rewrite app_nil_r. reflexivity.
  - cbn [foldl]. rewrite IH, parse_step_spec, <- app_assoc.
    change (omap publication (d :: docs))
      with (match publication d with
            | Some y => y :: omap publication docs
            | None => omap publication docs
            end).
    destruct (publication d); reflexivity.
Qed.

Lemma parse_articles_list xml set docs :
  dict_lookup xml "PubmedArticleSet" = Some (VDict set) →
  dict_lookup set "PubmedArticle" = Some (VList docs) →
  _parse_articles_body (VDict xml) = Ok (omap publication docs).
Proof.
  intros Hxml Hset. unfold _parse_articles_body. cbn [get].
  rewrite Hxml. cbn [default from_option id mbind result_bind].
  destruct set as [|kv set]; [discriminate Hset|].
  cbn [truthy negb get]. rewrite Hset.
  cbn [default from_option id mbind result_bind listify].
  rewrite foldl_parse_step.
  reflexivity.
Qed.

(** C8. A document whose build fails is dropped and the batch goes on:
    [_parse_articles] returns, in input order, the publications of the
    documents whose build succeeds, and never raises; of three
    documents of which the second fails, the publications of the first
    and the third are returned; when no document survives the result
    is the empty sequence. *)
Theorem batch_resilience xml set docs :
  dict_lookup xml "PubmedArticleSet" = Some (VDict set) →
  dict_lookup set "PubmedArticle" = Some (VList docs) →
  _parse_articles_body (VDict xml) = Ok (_parse_articles (VDict xml))
  ∧ _parse_articles (VDict xml) = omap publication docs
  ∧ (∀ d1 d2 d3 p1 p3 e,
       docs = [d1; d2; d3] →
       _parse_single_article_body d1 = Ok p1 →
       _parse_single_article_body d2 = Raise e →
       _parse_single_article_body d3 = Ok p3 →
       _parse_articles (VDict xml) = [p1; p3])
  ∧ (Forall (λ d, ∃ e, _parse_single_article_body d = Raise e) docs →
       _parse_articles (VDict xml) = []).
Proof.
  intros Hxml Hset. unfold _parse_articles.
  rewrite (parse_articles_list _ _ _ Hxml Hset). cbn [try_except].
  split; [reflexivity|]. split; [reflexivity|]. split.
  - intros d1 d2 d3 p1 p3 e -> H1 H2 H3.
    cbn [omap list_omap]. unfold publication. rewrite H1, H2, H3.
    reflexivity.
  - intros Hfail. clear Hxml Hset.
    induction Hfail as [|d docs' [e He] _ IH]; [reflexivity|].
    change (omap publication (d :: docs'))
      with (match publication d with
            | Some y => y :: omap publication docs'
            | None => omap publication docs'
            end).
    unfold publication at 1. rewrite He. exact IH.
Qed.

Lemma batch_resilience_witness :
  (λ article, field article "pmid")
    <$> _parse_articles
          (VDict (article_set (VList [record "1"; malformed_record; record "3"])))
  = [VStr "1"; VStr "3"]
  ∧ _parse_articles (VDict (article_set (VList [malformed_record]))) = [].
Proof.
  split.
  - destruct (batch_resilience
                (article_set (VList [record "1"; malformed_record; record "3"]))
                [("PubmedArticle", VList [record "1"; malformed_record; record "3"])]
                [record "1"; malformed_record; record "3"] eq_refl eq_refl)
      as (_ & _ & H & _).
    rewrite (H (record "1") malformed_record (record "3")
               (try_except (_parse_single_article_body (record "1")) VNone)
               (try_except (_parse_single_article_body (record "3")) VNone)
               AttributeError eq_refl eq_refl eq_refl eq_refl).
    reflexivity.
  - refine (proj2 (proj2 (proj2 (batch_resilience
              (article_set (VList [malformed_record]))
              [("PubmedArticle", VList [malformed_record])]
              [malformed_record] eq_refl eq_refl))) _).
    repeat constructor. exists AttributeError. reflexivity.
Defined.

(** ** Detail rendering *)

Lemma empty_field_get article k dflt :
  empty_field article k → truthy dflt = false →
  truthy (default dflt (dict_lookup article k)) = false.
Proof.
  unfold empty_field. destruct (dict_lookup article k); simpl; auto.
Qed.

Lemma joined_section_empty header v details :
  truthy v = false → joined_section header v details = Ok details.
Proof. intros H. unfold joined_section. rewrite H. reflexivity. Qed.

Lemma joined_section_texts header v details :
  text_sequence v → ∃ details', joined_section header v details = Ok details'.
Proof.
  intros [texts ->]. unfold joined_section.
  destruct (truthy _); [|eauto]. cbn [join]. rewrite as_strs_texts.
  cbn [fmap result_fmap mbind result_bind]. eauto.
Qed.

Lemma mandatory_lines_headers pmid title authors journal pub_date :
  Forall (λ line, Forall (λ header, String.prefix header line = false)
                    optional_headers)
    (mandatory_lines pmid title authors journal pub_date).
Proof. repeat constructor. Qed.

Lemma detail_lines_bare article :
  Forall (empty_field article) optional_fields →
  detail_lines (VDict article)
  = Ok (mandatory_lines (default (VStr "Unknown") (dict_lookup article "pmid"))
          (default (VStr "No title") (dict_lookup article "title"))
          (default (VStr "No authors") (dict_lookup article "authors"))
          (default (VStr "Unknown journal") (dict_lookup article "journal"))
          (default (VStr "Unknown date") (dict_lookup article "pub_date"))).
Proof.
  intros H. unfold optional_fields in H.
  apply Forall_cons in H as [Hiso H]. apply Forall_cons in H as [Hdoi H].
  apply Forall_cons in H as [Htypes H]. apply Forall_cons in H as [Habs H].
  apply Forall_cons in H as [Hkw H]. apply Forall_cons in H as [Hmesh _].
  pose proof (empty_field_get _ _ (VStr "") Hiso eq_refl) as Eiso.
  pose proof (empty_field_get _ _ (VStr "") Hdoi eq_refl) as Edoi.
  pose proof (empty_field_get _ _ (VStr "") Habs eq_refl) as Eabs.
  pose proof (empty_field_get _ _ (VList []) Htypes eq_refl) as Etypes.
  pose proof (empty_field_get _ _ (VList []) Hkw eq_refl) as Ekw.
  pose proof (empty_field_get _ _ (VList []) Hmesh eq_refl) as Emesh.
  unfold detail_lines. cbn [get mbind result_bind].
  rewrite Eiso, Edoi, Eabs.
  rewrite (joined_section_empty _ _ _ Etypes). cbn [mbind result_bind].
  rewrite (joined_section_empty _ _ _ Ekw). cbn [mbind result_bind].
  rewrite (joined_section_empty _ _ _ Emesh). reflexivity.
Qed.

Lemma detail_lines_total article :
  Forall (λ k, ∀ v, dict_lookup article k = Some v → text_sequence v)
    sequence_fields →
  ∃ lines, detail_lines (VDict article) = Ok lines.
Proof.
  intros H. unfold sequence_fields in H.
  apply Forall_cons in H as [Htypes H]. apply Forall_cons in H as [Hkw H].
  apply Forall_cons in H as [Hmesh _].
  assert (Hseq : ∀ k, (∀ v, dict_lookup article k = Some v → text_sequence v) →
                      text_sequence (default (VList []) (dict_lookup article k))).
  { intros k Hk. destruct (dict_lookup article k) as [v|]; [auto|].
    exists []. reflexivity. }
  pose proof (Hseq _ Htypes) as Ttypes. pose proof (Hseq _ Hkw) as Tkw.
  pose proof (Hseq _ Hmesh) as Tmesh.
  unfold detail_lines. cbn [get mbind result_bind].
  destruct (truthy (default (VStr "") (dict_lookup article "doi")));
    repeat match goal with
           | |- context [joined_section ?h ?v ?d] =>
               let T := fresh "T" in
               assert (T : text_sequence v) by assumption;
               destruct (joined_section_texts h v d T) as [? ->];
               clear T; cbn [mbind result_bind]
           end;
  eauto.
Qed.

(** C9. For every publication whose journal ISO abbreviation, DOI,
    publication types, abstract, keywords and MeSH terms are empty, the
    detail block consists of the mandatory lines only (title header,
    title, authors, journal, date, PMID, links block): no line of an
    optional section, no empty header, no filler line.  Rendering is
    total: every publication record (its sequence fields hold texts)
    is rendered to a string. *)
Theorem detail_rendering :
  (∀ article,
     Forall (empty_field article) optional_fields →
     let lines :=
       mandatory_lines (default (VStr "Unknown") (dict_lookup article "pmid"))
         (default (VStr "No title") (dict_lookup article "title"))
         (default (VStr "No authors") (dict_lookup article "authors"))
         (default (VStr "Unknown journal") (dict_lookup article "journal"))
         (default (VStr "Unknown date") (dict_lookup article "pub_date")) in
     detail_lines (VDict article) = Ok lines
     ∧ _format_article_details (VDict article) = Ok (String.concat nl lines)
     ∧ Forall (λ line, Forall (λ header, String.prefix header line = false)
                         optional_headers) lines)
  ∧ (∀ article,
       Forall (λ k, ∀ v, dict_lookup article k = Some v → text_sequence v)
         sequence_fields →
       ∃ text, _format_article_details (VDict article) = Ok text).
Proof.
  split.
  - intros article H lines. pose proof (detail_lines_bare _ H) as E.
    split; [exact E|]. split.
    + unfold _format_article_details. rewrite E. reflexivity.
    + apply mandatory_lines_headers.
  - intros article H. destruct (detail_lines_total _ H) as [lines E].
    unfold _format_article_details. rewrite E. eauto.
Qed.

Lemma detail_rendering_witness :
  _format_article_details (VDict bare_publication)
  = Ok (String.concat nl
          [ "# 📄 Publication Details - PMID 123" +:+ nl;
            "## On trees" +:+ nl;
            "**Authors:** Authors not available" +:+ nl;
            "**Journal:** Unknown journal";
            "**Published:** Date not available";
            "**PMID:** 123";
            nl +:+ "## 🔗 Quick Access Links";
            "• [📄 **View on PubMed**](https://pubmed.ncbi.nlm.nih.gov/123/) - Official PubMed page";
            "• [🔍 **Search Full Text**](https://pubmed.ncbi.nlm.nih.gov/123/) - Look for free full text";
            "• [📊 **Citation Analysis**](https://scholar.google.com/scholar?q=123) - Google Scholar citations";
            "• [🔗 **Find Similar**](https://pubmed.ncbi.nlm.nih.gov/sites/pubmed/?linkname=pubmed_pubmed&from_uid=123) - Related articles" ]).
Proof.
  exact (proj1 (proj2 (proj1 detail_rendering bare_publication
                         ltac:(repeat constructor)))).
Defined.

(** * Further properties of the code *)

(** ** Publication date *)

(** X1. A pre-composed [MedlineDate] takes precedence: whenever it is
    present and not empty it is returned as it is, whatever the year,
    month and day fields hold. *)
Theorem medline_date_precedence c pub_date date_string :
  dict_lookup c "PubDate" = Some (VDict pub_date) →
  dict_lookup pub_date "MedlineDate" = Some date_string →
  truthy date_string = true →
  _extract_pub_date (VDict c) = date_string.
Proof.
  intros Hc Hd Ht. unfold _extract_pub_date, _extract_pub_date_body.
  cbn [get mbind result_bind]. rewrite Hc.
  cbn [default from_option id is_dict get mbind result_bind].
  rewrite Hd. cbn [default from_option id]. rewrite Ht. reflexivity.
Qed.

Lemma medline_date_precedence_witness :
  _extract_pub_date
    (VDict [("PubDate", VDict [("Year", VStr "1999");
                               ("MedlineDate", VStr "1998 Dec-1999 Jan")])])
  = VStr "1998 Dec-1999 Jan".
Proof.
  exact (medline_date_precedence
           [("PubDate", VDict [("Year", VStr "1999");
                               ("MedlineDate", VStr "1998 Dec-1999 Jan")])]
           [("Year", VStr "1999"); ("MedlineDate", VStr "1998 Dec-1999 Jan")]
           (VStr "1998 Dec-1999 Jan") eq_refl eq_refl eq_refl).
Defined.

(** X2. Without a [MedlineDate], the date is the year, then the month,
    then the day, joined by a space; the day is left out when there is
    no month, and without a year the result is ["Date not available"]
    even when a month or a day is given. *)
Theorem pub_date_composition c pub_date year month day :
  dict_lookup c "PubDate" = Some (VDict pub_date) →
  text_field pub_date "MedlineDate" "" →
  text_field pub_date "Year" year →
  text_field pub_date "Month" month →
  text_field pub_date "Day" day →
  _extract_pub_date (VDict c) = VStr (composed_date year month day).
Proof.
  intros Hc Hmd Hy Hm Hd.
  destruct (text_field_default _ _ _ Hmd) as [Tmd _].
  destruct (text_field_default _ _ _ Hy) as [Ty Vy].
  destruct (text_field_default _ _ _ Hm) as [Tm Vm].
  destruct (text_field_default _ _ _ Hd) as [Td Vd].
  unfold _extract_pub_date, _extract_pub_date_body, composed_date.
  cbn [get mbind result_bind]. rewrite Hc.
  cbn [default from_option id is_dict get mbind result_bind] in *.
  rewrite Tmd, Ty, Tm, Td. cbn [negb String.eqb].
  destruct (decide (year = "")) as [->|Hyear]; [reflexivity|].
  destruct (String.eqb_spec year ""); [contradiction|]. rewrite (Vy Hyear).
  destruct (decide (month = "")) as [->|Hmonth]; [reflexivity|].
  destruct (String.eqb_spec month ""); [contradiction|]. rewrite (Vm Hmonth).
  destruct (decide (day = "")) as [->|Hday]; [reflexivity|].
  destruct (String.eqb_spec day ""); [contradiction|]. rewrite (Vd Hday).
  reflexivity.
Qed.

Lemma pub_date_composition_witness :
  _extract_pub_date
    (VDict [("PubDate", VDict [("Year", VStr "2021"); ("Day", VStr "07")])])
  = VStr "2021"
  ∧ _extract_pub_date
      (VDict [("PubDate", VDict [("Month", VStr "Mar"); ("Day", VStr "07")])])
    = VStr "Date not available".
Proof.
  split.
  - refine (pub_date_composition
              [("PubDate", VDict [("Year", VStr "2021"); ("Day", VStr "07")])]
              [("Year", VStr "2021"); ("Day", VStr "07")] "2021" "" "07"
              eq_refl _ _ _ _).
    + right. split; [reflexivity | left; reflexivity].
    + left. reflexivity.
    + right. split; [reflexivity | left; reflexivity].
    + left. reflexivity.
  - refine (pub_date_composition
              [("PubDate", VDict [("Month", VStr "Mar"); ("Day", VStr "07")])]
              [("Month", VStr "Mar"); ("Day", VStr "07")] "" "Mar" "07"
              eq_refl _ _ _ _).
    + right. split; [reflexivity | left; reflexivity].
    + right. split; [reflexivity | left; reflexivity].
    + left. reflexivity.
    + left. reflexivity.
Defined.

(** ** Abstract *)

Lemma abstract_step_section acc p part :
  section_entry p part →
  abstract_step acc p = Ok (acc ++ (VStr <$> option_list (abstract_section part))).
Proof.
  destruct part as [label text]. intros (d & -> & Hl & Ht). cbn [fst snd] in *.
  destruct (text_field_default _ _ _ Hl) as [Tl Vl].
  destruct (text_field_default _ _ _ Ht) as [Tt Vt].
  unfold abstract_step, abstract_section.
  cbn [is_dict get mbind result_bind]. rewrite Tl, Tt.
  destruct (decide (text = "")) as [->|Htext].
  - rewrite andb_false_r. cbn. rewrite app_nil_r. reflexivity.
  - destruct (String.eqb_spec text ""); [contradiction|]. rewrite (Vt Htext).
    destruct (decide (label = "")) as [->|Hlabel]; [reflexivity|].
    destruct (String.eqb_spec label ""); [contradiction|]. rewrite (Vl Hlabel).
    reflexivity.
Qed.

Lemma for_each_abstract_step parts sections acc :
  Forall2 section_entry parts sections →
  for_each abstract_step parts acc
  = Ok (acc ++ (VStr <$> omap abstract_section sections)).
Proof.
  intros H. revert acc. induction H as [|p part parts sections Hp _ IH];
    intros acc.
  - cbn. rewrite app_nil_r. reflexivity.
  - change (for_each abstract_step (p :: parts) acc)
      with (abstract_step acc p ≫= for_each abstract_step parts).
    rewrite (abstract_step_section _ _ _ Hp). cbn [mbind result_bind].
    rewrite IH, <- app_assoc.
    change (omap abstract_section (part :: sections))
      with (match abstract_section part with
            | Some y => y :: omap abstract_section sections
            | None => omap abstract_section sections
            end).
    destruct (abstract_section part); reflexivity.
Qed.

(** X3. A structured abstract whose parts are mappings with text is
    rendered part by part, the parts joined by a blank line: a part
    with a label as ["**Label:** text"], a part without label as its
    bare text, and a part without text is dropped even when it has a
    label. *)
Theorem structured_abstract c parts sections :
  dict_lookup c "AbstractText" = Some (VList parts) →
  Forall2 section_entry parts sections →
  _extract_abstract (VDict c)
  = VStr (String.concat (nl +:+ nl) (omap abstract_section sections)).
Proof.
  intros Hc Hparts. unfold _extract_abstract, _extract_abstract_body.
  cbn [get mbind result_bind]. rewrite Hc. cbn [default from_option id].
  rewrite (for_each_abstract_step _ _ _ Hparts). cbn [mbind result_bind app join].
  rewrite as_strs_texts. reflexivity.
Qed.

Lemma structured_abstract_witness :
  _extract_abstract (VDict [("AbstractText", VList sample_parts)])
  = VStr ("**AIM:** To see." +:+ nl +:+ nl +:+ "Seen.").
Proof.
  refine (structured_abstract [("AbstractText", VList sample_parts)] sample_parts
            [("AIM", "To see."); ("METHODS", ""); ("", "Seen.")] eq_refl _).
  repeat constructor.
  - eexists. split; [reflexivity|]. split; left; reflexivity.
  - eexists. split; [reflexivity|]. split; [left; reflexivity|].
    right. split; [reflexivity | left; reflexivity].
  - eexists. split; [reflexivity|].
    split; [right; split; [reflexivity | left; reflexivity] | left; reflexivity].
Defined.

(** ** DOI *)

Lemma doi_scan_passed_over elocation rest :
  passed_over elocation → doi_scan (elocation :: rest) = doi_scan rest.
Proof.
  destruct elocation as [|s|l|d]; try reflexivity.
  intros (id_type & Hty & Hskip). cbn [doi_scan is_dict get mbind result_bind].
  rewrite Hty. cbn [lower_of mbind result_bind].
  destruct (String.eqb_spec (lower id_type) "doi") as [E|_]; [|reflexivity].
  destruct Hskip as [Hne|Hfalsy]; [contradiction|]. rewrite Hfalsy. reflexivity.
Qed.

Lemma doi_scan_all_passed_over elocations :
  Forall passed_over elocations → doi_scan elocations = Ok None.
Proof.
  induction 1 as [|e rest He _ IH]; [reflexivity|].
  rewrite (doi_scan_passed_over _ _ He). exact IH.
Qed.

(** X4. The DOI is the text of the first identifier entry whose type
    equals ["doi"] case-insensitively and whose text is not empty:
    entries of other types, entries that are no mappings and DOI
    entries without text before it are passed over, and the entries
    after it are not looked at.  When every entry is passed over the
    DOI is the empty string. *)
Theorem first_doi_wins :
  (∀ before d id_type doi after,
     Forall passed_over before →
     dict_lookup d "@EIdType" = Some (VStr id_type) → lower id_type = "doi" →
     dict_lookup d "#text" = Some doi → truthy doi = true →
     _extract_doi (VList (before ++ VDict d :: after)) = doi)
  ∧ (∀ elocations,
       Forall passed_over elocations → _extract_doi (VList elocations) = VStr "").
Proof.
  split.
  - intros before d id_type doi after Hbefore Hty Hdoi Htext Htruthy.
    unfold _extract_doi, _extract_doi_body. cbn [listify_truthy].
    assert (E : doi_scan (before ++ VDict d :: after) = Ok (Some doi)).
    { induction Hbefore as [|e before He _ IH].
      - cbn [app doi_scan is_dict get mbind result_bind]. rewrite Hty.
        cbn [default from_option id lower_of mbind result_bind].
        rewrite Hdoi. cbn [String.eqb Ascii.eqb Bool.eqb]. rewrite Htext.
        cbn [default from_option id]. rewrite Htruthy. reflexivity.
      - rewrite <- app_comm_cons, (doi_scan_passed_over _ _ He). exact IH. }
    rewrite E. reflexivity.
  - intros elocations H. unfold _extract_doi, _extract_doi_body.
    cbn [listify_truthy]. rewrite (doi_scan_all_passed_over _ H). reflexivity.
Qed.

Lemma first_doi_wins_witness :
  _extract_doi
    (VList [VDict [("@EIdType", VStr "pii"); ("#text", VStr "S0140")];
            VDict [("@EIdType", VStr "DOI"); ("#text", VStr "10.1000/a")];
            VDict [("@EIdType", VStr "doi"); ("#text", VStr "10.1000/b")]])
  = VStr "10.1000/a"
  ∧ _extract_doi (VList [VDict [("@EIdType", VStr "pii"); ("#text", VStr "S0140")]])
    = VStr "".
Proof.
  split.
  - refine (proj1 first_doi_wins
              [VDict [("@EIdType", VStr "pii"); ("#text", VStr "S0140")]]
              [("@EIdType", VStr "DOI"); ("#text", VStr "10.1000/a")] "DOI"
              (VStr "10.1000/a")
              [VDict [("@EIdType", VStr "doi"); ("#text", VStr "10.1000/b")]]
              _ eq_refl eq_refl eq_refl eq_refl).
    repeat constructor. exists "pii". split; [reflexivity|]. left. discriminate.
  - refine (proj2 first_doi_wins _ _).
    repeat constructor. exists "pii". split; [reflexivity|]. left. discriminate.
Defined.

(** ** MeSH terms *)

Lemma for_each_length {A} (body : list value → A → result (list value)) :
  (∀ acc x r, body acc x = Ok r → length r ≤ S (length acc)) →
  ∀ l acc r, for_each body l acc = Ok r → length r ≤ length acc + length l.
Proof.
  intros Hbody l. induction l as [|x l IH]; intros acc r H.
  - injection H as <-. simpl. lia.
  - change (for_each body (x :: l) acc) with (body acc x ≫= for_each body l) in H.
    destruct (body acc x) as [acc'|e] eqn:E; [|discriminate H].
    apply Hbody in E. apply IH in H. simpl. lia.
Qed.

Lemma mesh_step_length acc heading r :
  mesh_step acc heading = Ok r → length r ≤ S (length acc).
Proof.
  unfold mesh_step. destruct (is_dict heading).
  - destruct (get heading "DescriptorName" (VDict [])) as [descriptor|e];
      [|discriminate].
    cbn [mbind result_bind]. destruct (is_dict descriptor).
    + destruct (get descriptor "#text" (VStr "")) as [term|e]; [|discriminate].
      cbn [mbind result_bind]. destruct (truthy term); intros [= <-];
        rewrite ?length_app; simpl; lia.
    + intros [= <-]. lia.
  - intros [= <-]. lia.
Qed.

Lemma extract_mesh_terms_bound v :
  ∃ terms, _extract_mesh_terms v = VList terms ∧ length terms ≤ 10.
Proof.
  unfold _extract_mesh_terms, _extract_mesh_terms_body.
  destruct (get v "MeshHeading" (VList [])) as [hs|e];
    [|exists []; split; [reflexivity | simpl; lia]].
  cbn [mbind result_bind].
  destruct (for_each mesh_step (take 10 (listify_truthy hs)) []) as [r|e] eqn:E;
    [|exists []; split; [reflexivity | simpl; lia]].
  exists r. split; [reflexivity|].
  apply (for_each_length _ mesh_step_length) in E.
  rewrite length_take in E. cbn [length] in E. lia.
Qed.

(** X5. The MeSH extractor never returns more than ten terms, whatever
    its input; and only the first ten headings are looked at: headings
    after the tenth change nothing, even when some of the first ten
    give no term. *)
Theorem mesh_truncation :
  (∀ v, ∃ terms, _extract_mesh_terms v = VList terms ∧ length terms ≤ 10)
  ∧ (∀ c1 c2 headings more,
       dict_lookup c1 "MeshHeading" = Some (VList headings) →
       dict_lookup c2 "MeshHeading" = Some (VList (headings ++ more)) →
       10 ≤ length headings →
       _extract_mesh_terms (VDict c2) = _extract_mesh_terms (VDict c1)).
Proof.
  split.
  - exact extract_mesh_terms_bound.
  - intros c1 c2 headings more H1 H2 Hlen.
    unfold _extract_mesh_terms, _extract_mesh_terms_body.
    cbn [get mbind result_bind]. rewrite H1, H2.
    cbn [default from_option id listify_truthy].
    rewrite (take_app_le _ _ _ Hlen). reflexivity.
Qed.

Lemma mesh_truncation_witness :
  _extract_mesh_terms (VDict [("MeshHeading", VList eleven_headings)]) = VList [].
Proof.
  exact (proj2 mesh_truncation
           [("MeshHeading", VList (take 10 eleven_headings))]
           [("MeshHeading", VList eleven_headings)]
           (take 10 eleven_headings) (drop 10 eleven_headings)
           eq_refl eq_refl ltac:(vm_compute; lia)).
Defined.

(** ** Publication types *)

Lemma pub_type_step_entry acc p t :
  type_entry p t → pub_type_step acc p = Ok (acc ++ [VStr t]).
Proof.
  intros [Ht [->|(d & -> & Hd)]]; [reflexivity|].
  unfold pub_type_step. cbn [is_dict get mbind result_bind]. rewrite Hd.
  cbn [default from_option id]. rewrite (truthy_VStr _ Ht). reflexivity.
Qed.

Lemma for_each_pub_type_step entries texts acc :
  Forall2 type_entry entries texts →
  for_each pub_type_step entries acc = Ok (acc ++ (VStr <$> texts)).
Proof.
  intros H. revert acc. induction H as [|p t entries texts Hp _ IH]; intros acc.
  - cbn. rewrite app_nil_r. reflexivity.
  - change (for_each pub_type_step (p :: entries) acc)
      with (pub_type_step acc p ≫= for_each pub_type_step entries).
    rewrite (pub_type_step_entry _ _ _ Hp). cbn [mbind result_bind].
    rewrite IH, <- app_assoc. reflexivity.
Qed.

(** X6. Publication types are neither deduplicated nor truncated: for
    entries that are texts or mappings with an inner text, every entry
    is returned, in input order, repeated entries included. *)
Theorem publication_types_kept c entries texts :
  dict_lookup c "PublicationType" = Some (VList entries) →
  Forall2 type_entry entries texts →
  _extract_publication_types (VDict c) = VList (VStr <$> texts)
  ∧ length texts = length entries.
Proof.
  intros Hc H. split; [|symmetry; eapply Forall2_length, H].
  unfold _extract_publication_types, _extract_publication_types_body.
  cbn [get mbind result_bind]. rewrite Hc.
  cbn [default from_option id listify_truthy].
  rewrite (for_each_pub_type_step _ _ _ H). reflexivity.
Qed.

Lemma publication_types_kept_witness :
  _extract_publication_types
    (VDict [("PublicationType",
             VList (replicate 12 (VDict [("@UI", VStr "D016428");
                                         ("#text", VStr "Journal Article")])))])
  = VList (replicate 12 (VStr "Journal Article")).
Proof.
  refine (proj1 (publication_types_kept
            [("PublicationType",
              VList (replicate 12 (VDict [("@UI", VStr "D016428");
                                          ("#text", VStr "Journal Article")])))]
            (replicate 12 (VDict [("@UI", VStr "D016428");
                                  ("#text", VStr "Journal Article")]))
            (replicate 12 "Journal Article") eq_refl _)).
  apply Forall2_replicate. split; [discriminate|].
  right. eexists. split; reflexivity.
Defined.

(** ** Keywords, again *)

Lemma extract_keywords_list c kws :
  dict_lookup c "Keyword" = Some (VList kws) →
  Forall keyword_node kws →
  _extract_keywords (VDict c)
  = VList (VStr <$> first_occurrences (omap keyword_text kws)).
Proof.
  intros Hc Hnodes. unfold _extract_keywords, _extract_keywords_body.
  cbn [get mbind result_bind]. rewrite Hc.
  cbn [default from_option id listify_truthy].
  destruct (for_each_keyword_step kws [] ∅ Hnodes) as [seen' ->].
  cbn [mbind result_bind try_except fst app]. rewrite unseen_empty. reflexivity.
Qed.

Lemma keyword_text_nonempty k t : keyword_text k = Some t → t ≠ "".
Proof.
  destruct k as [|s|l|d]; cbn [keyword_text truthy].
  - discriminate.
  - destruct (String.eqb_spec s ""); cbn [negb]; [discriminate|].
    intros [= <-]. assumption.
  - destruct l; [discriminate|]. intros [= <-]. discriminate.
  - destruct (dict_lookup d "#text") as [[|s|l|d']|]; try discriminate.
    destruct (decide (s = "")); [discriminate|]. intros [= <-]. assumption.
Qed.

Lemma omap_keyword_text_nonempty kws :
  Forall (λ t, t ≠ "") (omap keyword_text kws).
Proof.
  induction kws as [|k kws IH]; [constructor|].
  change (omap keyword_text (k :: kws))
    with (match keyword_text k with
          | Some t => t :: omap keyword_text kws
          | None => omap keyword_text kws
          end).
  destruct (keyword_text k) as [t|] eqn:E; [|exact IH].
  constructor; [exact (keyword_text_nonempty _ _ E) | exact IH].
Qed.

Lemma omap_keyword_text_plain texts :
  Forall (λ t, t ≠ "") texts → omap keyword_text (VStr <$> texts) = texts.
Proof.
  induction 1 as [|t texts Ht _ IH]; [reflexivity|]. rewrite fmap_cons.
  change (omap keyword_text (VStr t :: (VStr <$> texts)))
    with (match keyword_text (VStr t) with
          | Some u => u :: omap keyword_text (VStr <$> texts)
          | None => omap keyword_text (VStr <$> texts)
          end).
  rewrite IH. cbn [keyword_text]. rewrite (truthy_VStr _ Ht). reflexivity.
Qed.

Lemma first_occurrences_fixed texts :
  NoDup (lower <$> texts) → first_occurrences texts = texts.
Proof.
  induction texts as [|t texts IH]; [reflexivity|].
  rewrite fmap_cons, NoDup_cons. intros [Ht Hnd]. cbn [first_occurrences].
  rewrite (IH Hnd). f_equal. clear IH Hnd.
  induction texts as [|u texts IH]; [reflexivity|].
  rewrite fmap_cons, not_elem_of_cons in Ht. destruct Ht as [Hu Ht].
  rewrite filter_cons, decide_True by congruence. rewrite (IH Ht). reflexivity.
Qed.

(** X7. Keyword extraction is idempotent: extracting the keywords of
    its own result gives that result again (nothing more is removed,
    casing and order stay). *)
Theorem keywords_idempotent c kws :
  dict_lookup c "Keyword" = Some (VList kws) →
  Forall keyword_node kws →
  _extract_keywords (VDict [("Keyword", _extract_keywords (VDict c))])
  = _extract_keywords (VDict c).
Proof.
  intros Hc Hnodes. rewrite (extract_keywords_list _ _ Hc Hnodes).
  set (kept := first_occurrences (omap keyword_text kws)).
  assert (Hne : Forall (λ t, t ≠ "") kept).
  { apply Forall_forall. intros t Ht.
    pose proof (omap_keyword_text_nonempty kws) as Hall.
    rewrite Forall_forall in Hall. apply Hall.
    eapply elem_of_sublist; [exact Ht | apply first_occurrences_sublist]. }
  rewrite (extract_keywords_list [("Keyword", VList (VStr <$> kept))]
             (VStr <$> kept) eq_refl).
  - rewrite (omap_keyword_text_plain _ Hne).
    rewrite (first_occurrences_fixed kept); [reflexivity|].
    apply first_occurrences_NoDup.
  - apply Forall_fmap, Forall_forall. intros t _. exact I.
Qed.

Lemma keywords_idempotent_witness :
  _extract_keywords
    (VDict [("Keyword",
             _extract_keywords
               (VDict [("Keyword", VList [VStr "AI"; VStr "ai"; VStr "ML"])]))])
  = VList [VStr "AI"; VStr "ML"].
Proof.
  exact (keywords_idempotent
           [("Keyword", VList [VStr "AI"; VStr "ai"; VStr "ML"])]
           [VStr "AI"; VStr "ai"; VStr "ML"] eq_refl
           ltac:(repeat constructor)).
Defined.

(** ** The built publication *)

Lemma for_each_invariant {S A} (P : S → Prop) (body : S → A → result S) l :
  (∀ s x s', x ∈ l → P s → body s x = Ok s' → P s') →
  ∀ s s', P s → for_each body l s = Ok s' → P s'.
Proof.
  induction l as [|x l IH]; intros Hbody s s' Hs H.
  - injection H as <-. exact Hs.
  - change (for_each body (x :: l) s) with (body s x ≫= for_each body l) in H.
    destruct (body s x) as [s1|e] eqn:E; [|discriminate H].
    apply (IH (λ s0 y s0' Hy, Hbody s0 y s0' (list_elem_of_further _ _ _ Hy))
              s1 s'); [|exact H].
    exact (Hbody s x s1 (list_elem_of_here _ _) Hs E).
Qed.

Lemma texts_of_strs (l : list value) :
  Forall (λ v, is_str v = true) l → ∃ texts, l = VStr <$> texts.
Proof.
  induction 1 as [|v l Hv _ [texts ->]]; [exists []; reflexivity|].
  destruct v as [|s| |]; try discriminate Hv. exists (s :: texts). reflexivity.
Qed.

Lemma extract_authors_text v : ∃ s, _extract_authors v = VStr s.
Proof.
  unfold _extract_authors, _extract_authors_body.
  destruct (get v "Author" (VList [])) as [authors|e]; [|eauto].
  cbn [mbind result_bind]. rewrite for_each_author_step.
  cbn [mbind result_bind app].
  destruct (15 <? length (listify authors))%nat.
  - destruct (join ", " _) as [joined|e]; cbn; eauto.
  - destruct (truthy _); [|eauto]. destruct (join ", " _) as [joined|e]; cbn; eauto.
Qed.

Lemma keyword_step_strs st keyword st' :
  Forall (λ v, is_str v = true) st.1 →
  keyword_step st keyword = Ok st' →
  Forall (λ v, is_str v = true) st'.1.
Proof.
  destruct st as [acc seen]. unfold keyword_step. cbn [fst]. intros Hacc.
  destruct (is_dict keyword).
  - destruct (get keyword "#text" (VStr "")) as [text|e]; [|discriminate].
    cbn [mbind result_bind]. destruct (truthy text); [|intros [= <-]; exact Hacc].
    destruct text as [|s|l|d]; try discriminate. cbn [lower_of mbind result_bind].
    destruct (bool_decide _); intros [= <-]; [|exact Hacc].
    apply Forall_app. split; [exact Hacc | repeat constructor].
  - destruct (truthy keyword); [|intros [= <-]; exact Hacc].
    cbn [lower_of mbind result_bind].
    destruct (bool_decide _); intros [= <-]; [|exact Hacc].
    apply Forall_app. split; [exact Hacc | repeat constructor].
Qed.

Lemma extract_keywords_texts v : ∃ texts, _extract_keywords v = VList (VStr <$> texts).
Proof.
  unfold _extract_keywords, _extract_keywords_body.
  destruct (get v "Keyword" (VList [])) as [kws|e]; [|exists []; reflexivity].
  cbn [mbind result_bind].
  destruct (for_each keyword_step (listify_truthy kws) ([], ∅)) as [st|e] eqn:E;
    [|exists []; reflexivity].
  cbn [mbind result_bind try_except].
  pose proof (for_each_invariant (λ st, Forall (λ v, is_str v = true) st.1)
                keyword_step _ (λ s x s' _, keyword_step_strs s x s')
                ([], ∅) st (Forall_nil_2 _) E) as Hst.
  destruct (texts_of_strs _ Hst) as [texts ->]. eauto.
Qed.

Lemma extract_publication_types_list v : ∃ l, _extract_publication_types v = VList l.
Proof.
  unfold _extract_publication_types, _extract_publication_types_body.
  destruct (get v "PublicationType" (VList [])) as [x|e]; [|eauto].
  cbn [mbind result_bind]. destruct (for_each _ _ _); cbn; eauto.
Qed.

Lemma str_truthy v : truthy v = true → str v ≠ "".
Proof.
  destruct v as [|s|l|d]; cbn [truthy str repr].
  - discriminate.
  - destruct (String.eqb_spec s ""); [discriminate | auto].
  - discriminate.
  - discriminate.
Qed.

Lemma text_or_text x dflt r :
  dflt ≠ "" → text_or x dflt = Ok r → ∃ s, r = VStr s ∧ s ≠ "".
Proof.
  intros Hd. unfold text_or.
  destruct (if is_dict x then get x "#text" (VStr "") else Ok x) as [y|e];
    [|discriminate].
  cbn [mbind result_bind]. intros [= <-]. eexists. split; [reflexivity|].
  destruct (truthy y) eqn:E; [exact (str_truthy _ E) | exact Hd].
Qed.

(** X8. Every publication the builder returns has the same eleven
    fields in the same order; its identifier, title and author string
    are texts, identifier and title are never empty, its keywords are
    a sequence of texts, and it has at most ten MeSH terms. *)
Theorem built_publication_shape article_data article :
  _parse_single_article_body article_data = Ok article →
  ∃ pmid title authors journal journal_iso pub_date abstract doi
    keywords pub_types mesh_terms,
    article = VDict [ ("pmid", VStr pmid); ("title", VStr title);
                      ("authors", VStr authors); ("journal", journal);
                      ("journal_iso", journal_iso); ("pub_date", pub_date);
                      ("abstract", abstract); ("doi", doi);
                      ("keywords", VList (VStr <$> keywords));
                      ("publication_types", VList pub_types);
                      ("mesh_terms", VList mesh_terms) ]
    ∧ pmid ≠ "" ∧ title ≠ "" ∧ length mesh_terms ≤ 10.
Proof.
  unfold _parse_single_article_body. intros H.
  apply bind_Ok_inv in H as (medline_citation & _ & H).
  apply bind_Ok_inv in H as (pubmed_data & _ & H).
  apply bind_Ok_inv in H as (article_info & _ & H).
  apply bind_Ok_inv in H as (pmid0 & _ & H).
  apply bind_Ok_inv in H as (pmid & Hpmid & H).
  apply bind_Ok_inv in H as (title0 & _ & H).
  apply bind_Ok_inv in H as (title & Htitle & H).
  apply bind_Ok_inv in H as (author_list & _ & H).
  apply bind_Ok_inv in H as (journal_info & _ & H).
  apply bind_Ok_inv in H as (journal_title & _ & H).
  apply bind_Ok_inv in H as (journal_iso & _ & H).
  apply bind_Ok_inv in H as (journal_issue & _ & H).
  apply bind_Ok_inv in H as (abstract_data & _ & H).
  apply bind_Ok_inv in H as (elocation_ids & _ & H).
  apply bind_Ok_inv in H as (keyword_list & _ & H).
  apply bind_Ok_inv in H as (pub_type_list & _ & H).
  apply bind_Ok_inv in H as (mesh_list & _ & H).
  injection H as <-.
  apply text_or_text in Hpmid as (p & -> & Hp); [|discriminate].
  apply text_or_text in Htitle as (t & -> & Ht); [|discriminate].
  destruct (extract_authors_text author_list) as [au ->].
  destruct (extract_keywords_texts keyword_list) as [kws ->].
  destruct (extract_publication_types_list pub_type_list) as [types ->].
  destruct (extract_mesh_terms_bound mesh_list) as (terms & -> & Hterms).
  repeat eexists; assumption.
Qed.

Lemma built_publication_shape_witness :
  ∃ rest, _parse_single_article (VDict []) =
          VDict (("pmid", VStr "Unknown") :: ("title", VStr "No title available")
                 :: rest).
Proof.
  destruct (built_publication_shape (VDict [])
              (try_except (_parse_single_article_body (VDict [])) VNone) eq_refl)
    as (pmid & title & authors & journal & iso & date & abstract & doi & kws
        & types & terms & E & _).
  eexists. reflexivity.
Defined.

Lemma get_container v k :
  is_dict v = true → get v k (VDict []) = Ok (container v k).
Proof. destruct v; try discriminate. reflexivity. Qed.

Lemma get_not_dict v k dflt : is_dict v = false → get v k dflt = Raise AttributeError.
Proof. destruct v; try discriminate; reflexivity. Qed.

Lemma get_dict v k dflt : is_dict v = true → ∃ x, get v k dflt = Ok x.
Proof. destruct v; try discriminate. cbn. eauto. Qed.

Lemma text_or_Ok x dflt : ∃ r, text_or x dflt = Ok r.
Proof.
  unfold text_or. destruct x as [|s|l|d]; cbn; eauto.
Qed.

Ltac get_step v k :=
  first
    [ rewrite (get_container v k) by assumption
    | match goal with
      | |- context [get v k ?d] =>
          let x := fresh "x" in
          let Hx := fresh "Hx" in
          destruct (get_dict v k d ltac:(assumption)) as [x Hx]; rewrite Hx;
          clear Hx
      end ];
  cbn [mbind result_bind].

Ltac text_or_step :=
  match goal with
  | |- context [text_or ?x ?d] =>
      let r := fresh "r" in
      let Hr := fresh "Hr" in
      destruct (text_or_Ok x d) as [r Hr]; rewrite Hr; clear Hr;
      cbn [mbind result_bind]
  end.

Lemma buildable_built article_data :
  buildable article_data = true →
  ∃ article, _parse_single_article_body article_data = Ok article.
Proof.
  unfold buildable, _parse_single_article_body. cbv zeta.
  set (mc := container article_data "MedlineCitation").
  set (art := container mc "Article"). set (jr := container art "Journal").
  intros H. apply andb_true_iff in H as [H Hj].
  apply andb_true_iff in H as [H Ha]. apply andb_true_iff in H as [Hd Hm].
  get_step article_data "MedlineCitation". fold mc.
  get_step article_data "PubmedData".
  get_step mc "Article". fold art.
  get_step mc "PMID". text_or_step.
  get_step art "ArticleTitle". text_or_step.
  get_step art "AuthorList".
  get_step art "Journal". fold jr.
  get_step jr "Title". get_step jr "ISOAbbreviation".
  get_step jr "JournalIssue".
  get_step art "Abstract". get_step art "ELocationID".
  get_step mc "KeywordList". get_step art "PublicationTypeList".
  get_step mc "MeshHeadingList".
  eauto.
Qed.

Lemma not_buildable_fails article_data :
  buildable article_data = false →
  _parse_single_article_body article_data = Raise AttributeError.
Proof.
  unfold buildable, _parse_single_article_body. cbv zeta.
  set (mc := container article_data "MedlineCitation").
  set (art := container mc "Article"). set (jr := container art "Journal").
  intros H.
  destruct (is_dict article_data) eqn:Hd;
    [|rewrite (get_not_dict article_data "MedlineCitation" _ Hd); reflexivity].
  get_step article_data "MedlineCitation". fold mc.
  get_step article_data "PubmedData".
  destruct (is_dict mc) eqn:Hm;
    [|rewrite (get_not_dict mc "Article" _ Hm); reflexivity].
  get_step mc "Article". fold art.
  get_step mc "PMID". text_or_step.
  destruct (is_dict art) eqn:Ha;
    [|rewrite (get_not_dict art "ArticleTitle" _ Ha); reflexivity].
  get_step art "ArticleTitle". text_or_step.
  get_step art "AuthorList".
  get_step art "Journal". fold jr.
  cbn [andb] in H. rewrite (get_not_dict jr "Title" _ H). reflexivity.
Qed.

(** X9. A document is built into a publication exactly when the
    document, its citation, its article and its journal are mappings
    (an absent one counts as an empty mapping); otherwise the build
    fails with [AttributeError] and the document is dropped.  Missing
    or malformed author, abstract, identifier, keyword,
    publication-type and MeSH containers never make a build fail. *)
Theorem build_fails_exactly_on_non_mappings article_data :
  (buildable article_data = true →
     ∃ article, _parse_single_article_body article_data = Ok article
                ∧ _parse_single_article article_data = article)
  ∧ (buildable article_data = false →
     _parse_single_article_body article_data = Raise AttributeError
     ∧ _parse_single_article article_data = VNone).
Proof.
  unfold _parse_single_article. split; intros H.
  - destruct (buildable_built _ H) as [article E]. exists article.
    rewrite E. split; reflexivity.
  - rewrite (not_buildable_fails _ H). split; reflexivity.
Qed.

Lemma build_fails_exactly_on_non_mappings_witness :
  _parse_single_article record_with_empty_journal = VNone
  ∧ _parse_single_article (VDict []) ≠ VNone.
Proof.
  split.
  - exact (proj2 (proj2 (build_fails_exactly_on_non_mappings
                           record_with_empty_journal) eq_refl)).
  - destruct (proj1 (build_fails_exactly_on_non_mappings (VDict [])) eq_refl)
      as (article & _ & E).
    vm_compute. discriminate.
Defined.

(** ** From document trees to rendered text *)

Lemma document_tree_lookup d k v :
  document_tree (VDict d) = true → dict_lookup d k = Some v →
  is_text_key k = false → document_tree v = true.
Proof.
  induction d as [|[k' x] d IH]; [discriminate 2|].
  cbn [document_tree forallb dict_lookup fst snd]. intros H Hv Hk.
  apply andb_true_iff in H as [Hx Hd].
  destruct (String.eqb_spec k' k) as [->|_].
  - injection Hv as <-. rewrite Hk in Hx. exact Hx.
  - exact (IH Hd Hv Hk).
Qed.

Lemma get_tree v k dflt x :
  document_tree v = true → document_tree dflt = true →
  is_text_key k = false → get v k dflt = Ok x → document_tree x = true.
Proof.
  destruct v as [| | |d]; try discriminate. intros Hv Hd Hk [= <-].
  destruct (dict_lookup d k) as [y|] eqn:E; [|exact Hd].
  exact (document_tree_lookup _ _ _ Hv E Hk).
Qed.

Lemma get_inner_text v x :
  document_tree v = true → get v "#text" (VStr "") = Ok x → is_str x = true.
Proof.
  destruct v as [| | |d]; try discriminate. intros Hv [= <-].
  destruct (dict_lookup d "#text") as [y|] eqn:E; [|reflexivity].
  exact (document_tree_inner_text _ _ Hv E).
Qed.

Ltac get_tree_in H :=
  match type of H with
  | get ?v ?k ?d = Ok ?x =>
      let T := fresh "T" in
      assert (T : document_tree x = true)
        by (apply (get_tree v k d x);
            [assumption | reflexivity | reflexivity | exact H]);
      clear H; rename T into H
  end.

Lemma listify_truthy_trees v :
  document_tree v = true →
  Forall (λ x, document_tree x = true) (listify_truthy v).
Proof.
  intros H. destruct v as [|s|l|d]; cbn [listify_truthy].
  - constructor.
  - destruct (truthy _); repeat constructor.
  - cbn [document_tree] in H. apply Forall_forall. intros x Hx.
    rewrite forallb_forall in H. apply list_elem_of_In, H in Hx.
    apply andb_true_iff in Hx as [_ Hx]. exact Hx.
  - destruct (truthy _); repeat constructor. exact H.
Qed.

Lemma listify_trees v :
  document_tree v = true → Forall (λ x, document_tree x = true) (listify v).
Proof.
  intros H. destruct v as [|s|l|d]; cbn [listify]; try (repeat constructor; fail).
  - cbn [document_tree] in H. apply Forall_forall. intros x Hx.
    rewrite forallb_forall in H. apply list_elem_of_In, H in Hx.
    apply andb_true_iff in Hx as [_ Hx]. exact Hx.
  - repeat constructor. exact H.
Qed.

Lemma pub_type_step_strs acc pub_type acc' :
  document_tree pub_type = true →
  Forall (λ v, is_str v = true) acc →
  pub_type_step acc pub_type = Ok acc' →
  Forall (λ v, is_str v = true) acc'.
Proof.
  intros Htree Hacc. unfold pub_type_step. destruct (is_dict pub_type).
  - destruct (get pub_type "#text" (VStr "")) as [text|e] eqn:E; [|discriminate].
    cbn [mbind result_bind]. apply (get_inner_text _ _ Htree) in E.
    destruct (truthy text); intros [= <-]; [|exact Hacc].
    apply Forall_app. split; [exact Hacc | repeat constructor; exact E].
  - intros [= <-]. apply Forall_app. split; [exact Hacc | repeat constructor].
Qed.

Lemma mesh_step_strs acc heading acc' :
  document_tree heading = true →
  Forall (λ v, is_str v = true) acc →
  mesh_step acc heading = Ok acc' →
  Forall (λ v, is_str v = true) acc'.
Proof.
  intros Htree Hacc. unfold mesh_step.
  destruct (is_dict heading); [|intros [= <-]; exact Hacc].
  destruct (get heading "DescriptorName" (VDict [])) as [descriptor|e] eqn:Ed;
    [|discriminate].
  cbn [mbind result_bind].
  get_tree_in Ed.
  destruct (is_dict descriptor); [|intros [= <-]; exact Hacc].
  destruct (get descriptor "#text" (VStr "")) as [term|e] eqn:Et; [|discriminate].
  cbn [mbind result_bind]. apply (get_inner_text _ _ Ed) in Et.
  destruct (truthy term); intros [= <-]; [|exact Hacc].
  apply Forall_app. split; [exact Hacc | repeat constructor; exact Et].
Qed.

Lemma for_each_strs (body : list value → value → result (list value)) l acc' :
  (∀ acc x r, document_tree x = true → Forall (λ v, is_str v = true) acc →
              body acc x = Ok r → Forall (λ v, is_str v = true) r) →
  Forall (λ x, document_tree x = true) l →
  for_each body l [] = Ok acc' → text_sequence (VList acc').
Proof.
  intros Hbody Hl E. rewrite Forall_forall in Hl.
  pose proof (for_each_invariant (Forall (λ v, is_str v = true)) body l
                (λ s x s' Hx, Hbody s x s' (Hl x Hx)) [] acc'
                (Forall_nil_2 _) E) as H.
  destruct (texts_of_strs _ H) as [texts ->]. exists texts. reflexivity.
Qed.

Lemma extract_publication_types_tree v :
  document_tree v = true → text_sequence (_extract_publication_types v).
Proof.
  intros Hv. unfold _extract_publication_types, _extract_publication_types_body.
  destruct (get v "PublicationType" (VList [])) as [x|e] eqn:Ex;
    [|exists []; reflexivity].
  cbn [mbind result_bind]. get_tree_in Ex.
  destruct (for_each pub_type_step (listify_truthy x) []) as [r|e] eqn:E;
    [|exists []; reflexivity].
  exact (for_each_strs _ _ _ pub_type_step_strs (listify_truthy_trees _ Ex) E).
Qed.

Lemma extract_mesh_terms_tree v :
  document_tree v = true → text_sequence (_extract_mesh_terms v).
Proof.
  intros Hv. unfold _extract_mesh_terms, _extract_mesh_terms_body.
  destruct (get v "MeshHeading" (VList [])) as [x|e] eqn:Ex;
    [|exists []; reflexivity].
  cbn [mbind result_bind]. get_tree_in Ex.
  destruct (for_each mesh_step (take 10 (listify_truthy x)) []) as [r|e] eqn:E;
    [|exists []; reflexivity].
  exact (for_each_strs _ _ _ mesh_step_strs
           (Forall_take _ _ _ (listify_truthy_trees _ Ex)) E).
Qed.

Lemma built_tree_renders article_data article :
  document_tree article_data = true →
  _parse_single_article_body article_data = Ok article →
  ∃ text, _format_article_details article = Ok text.
Proof.
  intros Htree H. unfold _parse_single_article_body in H.
  apply bind_Ok_inv in H as (medline_citation & Hmc & H).
  get_tree_in Hmc.
  apply bind_Ok_inv in H as (pubmed_data & _ & H).
  apply bind_Ok_inv in H as (article_info & Hart & H).
  get_tree_in Hart.
  apply bind_Ok_inv in H as (pmid0 & _ & H).
  apply bind_Ok_inv in H as (pmid & _ & H).
  apply bind_Ok_inv in H as (title0 & _ & H).
  apply bind_Ok_inv in H as (title & _ & H).
  apply bind_Ok_inv in H as (author_list & _ & H).
  apply bind_Ok_inv in H as (journal_info & _ & H).
  apply bind_Ok_inv in H as (journal_title & _ & H).
  apply bind_Ok_inv in H as (journal_iso & _ & H).
  apply bind_Ok_inv in H as (journal_issue & _ & H).
  apply bind_Ok_inv in H as (abstract_data & _ & H).
  apply bind_Ok_inv in H as (elocation_ids & _ & H).
  apply bind_Ok_inv in H as (keyword_list & _ & H).
  apply bind_Ok_inv in H as (pub_type_list & Htypes & H).
  get_tree_in Htypes.
  apply bind_Ok_inv in H as (mesh_list & Hmesh & H).
  get_tree_in Hmesh.
  injection H as <-.
  destruct (detail_lines_total
              [ ("pmid", pmid); ("title", title);
                ("authors", _extract_authors author_list);
                ("journal", journal_title); ("journal_iso", journal_iso);
                ("pub_date", _extract_pub_date journal_issue);
                ("abstract", _extract_abstract abstract_data);
                ("doi", _extract_doi elocation_ids);
                ("keywords", _extract_keywords keyword_list);
                ("publication_types", _extract_publication_types pub_type_list);
                ("mesh_terms", _extract_mesh_terms mesh_list) ]) as [lines E].
  - unfold sequence_fields. repeat constructor; intros v [= <-].
    + exact (extract_publication_types_tree _ Htypes).
    + destruct (extract_keywords_texts keyword_list) as [texts ->].
      exists texts. reflexivity.
    + exact (extract_mesh_terms_tree _ Hmesh).
  - unfold _format_article_details. rewrite E. eauto.
Qed.

(** X10. Builder and renderer compose without failure on document
    trees: for every tree the translator can build, each publication
    that [_parse_articles] returns is rendered to a detail text (the
    joins of the renderer never meet a non-text item). *)
Theorem tree_publications_render xml :
  document_tree xml = true →
  Forall (λ article, ∃ text, _format_article_details article = Ok text)
    (_parse_articles xml).
Proof.
  intros Htree. unfold _parse_articles, _parse_articles_body.
  destruct (get xml "PubmedArticleSet" (VDict [])) as [pubmed_data|e] eqn:Es;
    [|constructor].
  cbn [mbind result_bind]. get_tree_in Es.
  destruct (truthy pubmed_data); [|constructor]. cbn [negb].
  destruct (get pubmed_data "PubmedArticle" (VList [])) as [docs|e] eqn:Ed;
    [|constructor].
  cbn [mbind result_bind try_except].
  get_tree_in Ed.
  apply listify_trees in Ed. rewrite foldl_parse_step. cbn [app].
  induction Ed as [|doc docs' Hdoc _ IH]; [constructor|].
  change (omap publication (doc :: docs'))
    with (match publication doc with
          | Some y => y :: omap publication docs'
          | None => omap publication docs'
          end).
  unfold publication at 1.
  destruct (_parse_single_article_body doc) as [article|e] eqn:E; [|exact IH].
  constructor; [exact (built_tree_renders _ _ Hdoc E) | exact IH].
Qed.

Lemma tree_publications_render_witness :
  Forall (λ article, ∃ text, _format_article_details article = Ok text)
    (_parse_articles
       (VDict (article_set (VList [record "1"; malformed_record; record "3"])))).
Proof.
  exact (tree_publications_render
           (VDict (article_set (VList [record "1"; malformed_record; record "3"])))
           eq_refl).
Defined.

(** ** Batches of one *)

(** X11. A set with a single document, handed over as a mapping and
    not as a sequence, is a batch of one: the result is the publication
    of that document, or nothing when its build fails. *)
Theorem single_document_batch xml set doc :
  dict_lookup xml "PubmedArticleSet" = Some (VDict set) →
  dict_lookup set "PubmedArticle" = Some doc →
  is_list doc = false →
  _parse_articles (VDict xml) = option_list (publication doc).
Proof.
  intros Hxml Hset Hdoc. unfold _parse_articles, _parse_articles_body.
  cbn [get mbind result_bind]. rewrite Hxml. cbn [default from_option id].
  destruct set as [|kv set]; [discriminate Hset|].
  cbn [truthy negb get mbind result_bind]. rewrite Hset.
  cbn [default from_option id try_except]. rewrite foldl_parse_step.
  destruct doc; try discriminate Hdoc; cbn [listify app];
    change (omap publication [?d]) with (option_list (publication d));
    unfold publication;
    match goal with |- context [_parse_single_article_body ?d] =>
      destruct (_parse_single_article_body d) end; reflexivity.
Qed.

Lemma single_document_batch_witness :
  (λ article, field article "pmid")
    <$> _parse_articles (VDict (article_set (record "42")))
  = [VStr "42"]
  ∧ _parse_articles (VDict (article_set malformed_record)) = [].
Proof.
  split.
  - rewrite (single_document_batch (article_set (record "42"))
               [("PubmedArticle", record "42")] (record "42")
               eq_refl eq_refl eq_refl).
    reflexivity.
  - exact (single_document_batch (article_set malformed_record)
             [("PubmedArticle", malformed_record)] malformed_record
             eq_refl eq_refl eq_refl).
Defined.

(** ** Related identifiers: absent containers *)

Lemma contains_absent d k :
  dict_lookup d k = None → contains k (VDict d) = Ok false.
Proof.
  intros H. cbn [contains]. rewrite H, bool_decide_eq_false_2; [reflexivity|].
  intros [x Hx]. discriminate Hx.
Qed.

Lemma comprehension_missing_id before ids link after :
  Forall2 link_to before ids →
  dict_lookup link "Id" = None →
  comprehension (λ l, getitem l "Id") (before ++ VDict link :: after)
  = Raise KeyError.
Proof.
  intros Hbefore Hid. induction Hbefore as [|l id before ids (d & -> & Hd) _ IH].
  - cbn [app comprehension getitem]. rewrite Hid. reflexivity.
  - rewrite <- app_comm_cons. cbn [comprehension getitem]. rewrite Hd.
    cbn [mbind result_bind]. rewrite IH. reflexivity.
Qed.

(** X12. A link result without links is no error: when the first
    link-set has no link-set-database, or its first link-set-database
    has no link entry, the resolved sequence is empty.  A link entry
    without identifier is an error: the resolution raises [KeyError]
    (the method then reports a failure instead of a list), even when
    the other entries are well formed. *)
Theorem related_absent_containers doc pmid elink linksets ls :
  dict_lookup doc "eLinkResult" = Some (VDict elink) →
  dict_lookup elink "LinkSet" = Some linksets →
  first_item linksets (VDict ls) →
  (dict_lookup ls "LinkSetDb" = None → similar_pmids (VDict doc) pmid = Ok [])
  ∧ (∀ dbs db,
       dict_lookup ls "LinkSetDb" = Some dbs → first_item dbs (VDict db) →
       (dict_lookup db "Link" = None → similar_pmids (VDict doc) pmid = Ok [])
       ∧ (∀ before ids link after,
            dict_lookup db "Link" = Some (VList (before ++ VDict link :: after)) →
            Forall2 link_to before ids →
            dict_lookup link "Id" = None →
            similar_pmids (VDict doc) pmid = Raise KeyError)).
Proof.
  intros Hdoc Helink Hls. rewrite similar_pmids_spec.
  unfold selected_ids, selected_links, has_linkset.
  rewrite (contains_present _ _ _ Hdoc). cbn [mbind result_bind].
  rewrite (getitem_present _ _ _ Hdoc). cbn [mbind result_bind].
  rewrite (contains_present _ _ _ Helink). cbn [mbind result_bind].
  rewrite (getitem_present _ _ _ Helink). cbn [mbind result_bind].
  rewrite (first_if_list_first_item _ _ Hls). split.
  - intros Hnone. rewrite (contains_absent _ _ Hnone). reflexivity.
  - intros dbs db Hdbs Hdb.
    rewrite (contains_present _ _ _ Hdbs). cbn [mbind result_bind].
    rewrite (getitem_present _ _ _ Hdbs). cbn [mbind result_bind].
    rewrite (first_if_list_first_item _ _ Hdb). split.
    + intros Hnone. rewrite (contains_absent _ _ Hnone). reflexivity.
    + intros before ids link after Hlinks Hbefore Hid.
      rewrite (contains_present _ _ _ Hlinks). cbn [mbind result_bind].
      rewrite (getitem_present _ _ _ Hlinks). cbn [mbind result_bind listify].
      rewrite (comprehension_missing_id _ _ _ _ Hbefore Hid). reflexivity.
Qed.

Lemma related_absent_containers_witness :
  similar_pmids (VDict no_links) "9" = Ok []
  ∧ similar_pmids (VDict link_without_id) "9" = Raise KeyError.
Proof.
  split.
  - refine (proj1 (related_absent_containers no_links "9"
                     [("LinkSet", VDict [("DbFrom", VStr "pubmed");
                                         ("IdList", VDict [("Id", VStr "9")])])]
                     (VDict [("DbFrom", VStr "pubmed");
                             ("IdList", VDict [("Id", VStr "9")])])
                     [("DbFrom", VStr "pubmed"); ("IdList", VDict [("Id", VStr "9")])]
                     eq_refl eq_refl (or_introl (conj eq_refl eq_refl))) eq_refl).
  - refine (proj2 (proj2 (related_absent_containers link_without_id "9"
              [("LinkSet",
                VDict [("LinkSetDb",
                        VDict [("DbTo", VStr "pubmed");
                               ("Link", VList [link "1"; VDict [("Score", VStr "5")];
                                               link "2"])])])]
              (VDict [("LinkSetDb",
                       VDict [("DbTo", VStr "pubmed");
                              ("Link", VList [link "1"; VDict [("Score", VStr "5")];
                                              link "2"])])])
              [("LinkSetDb",
                VDict [("DbTo", VStr "pubmed");
                       ("Link", VList [link "1"; VDict [("Score", VStr "5")];
                                       link "2"])])]
              eq_refl eq_refl (or_introl (conj eq_refl eq_refl)))
              (VDict [("DbTo", VStr "pubmed");
                      ("Link", VList [link "1"; VDict [("Score", VStr "5")];
                                      link "2"])])
              [("DbTo", VStr "pubmed");
               ("Link", VList [link "1"; VDict [("Score", VStr "5")]; link "2"])]
              eq_refl (or_introl (conj eq_refl eq_refl)))
              [link "1"] [VStr "1"] [("Score", VStr "5")] [link "2"]
              eq_refl _ eq_refl).
    repeat constructor. eexists. split; reflexivity.
Defined.

(** ** Detail rendering: the links *)

Lemma joined_section_text_sequence header v details :
  text_sequence v →
  joined_section header v details = Ok details
  ∨ ∃ joined, joined_section header v details = Ok (details ++ [header +:+ joined]).
Proof.
  intros [texts ->]. unfold joined_section. destruct (truthy _); [|auto].
  cbn [join]. rewrite as_strs_texts. cbn [fmap result_fmap mbind result_bind].
  eauto.
Qed.

(** X13. When the publication has a DOI, the detail block has the DOI
    line and the two links to the DOI resolver, and no line of the
    fallback link that searches for a full text; the links to the
    record page, to the citation search and to the related articles
    are there as well. *)
Theorem detail_doi_links article doi :
  dict_lookup article "doi" = Some doi → truthy doi = true →
  Forall (λ k, ∀ v, dict_lookup article k = Some v → text_sequence v)
    sequence_fields →
  let pmid := default (VStr "Unknown") (dict_lookup article "pmid") in
  ∃ lines,
    detail_lines (VDict article) = Ok lines
    ∧ doi_line doi ∈ lines ∧ link_doi doi ∈ lines ∧ link_full_text doi ∈ lines
    ∧ link_pubmed pmid ∈ lines ∧ link_citations pmid ∈ lines
    ∧ link_similar pmid ∈ lines
    ∧ Forall (λ line, String.prefix "• [🔍 **Search Full Text**]" line = false)
        lines.
Proof.
  intros Hdoi Htruthy H pmid. unfold sequence_fields in H.
  apply Forall_cons in H as [Htypes H]. apply Forall_cons in H as [Hkw H].
  apply Forall_cons in H as [Hmesh _].
  assert (Hseq : ∀ k, (∀ v, dict_lookup article k = Some v → text_sequence v) →
                      text_sequence (default (VList []) (dict_lookup article k))).
  { intros k Hk. destruct (dict_lookup article k) as [v|]; [auto|].
    exists []. reflexivity. }
  pose proof (Hseq _ Htypes) as Ttypes. pose proof (Hseq _ Hkw) as Tkw.
  pose proof (Hseq _ Hmesh) as Tmesh.
  unfold detail_lines. cbn [get mbind result_bind]. rewrite Hdoi.
  cbn [default from_option id]. rewrite Htruthy. fold pmid.
  unfold details_head, doi_line, link_doi, link_full_text.
  destruct (truthy (default (VStr "") (dict_lookup article "journal_iso")));
    destruct (truthy (default (VStr "") (dict_lookup article "abstract")));
    cbn [app];
    repeat match goal with
           | |- context [joined_section ?h ?v ?d] =>
               let T := fresh "T" in
               assert (T : text_sequence v) by assumption;
               destruct (joined_section_text_sequence h v d T) as [->|[? ->]];
               clear T; cbn [mbind result_bind app]
           end;
    (eexists; split; [reflexivity|]);
    (repeat split;
     [ repeat first [apply list_elem_of_here | apply list_elem_of_further] ..
     | repeat constructor ]).
Qed.

Lemma detail_doi_links_witness :
  ∃ lines, detail_lines (VDict publication_with_doi) = Ok lines
           ∧ link_doi (VStr "10.1000/a") ∈ lines.
Proof.
  destruct (detail_doi_links publication_with_doi (VStr "10.1000/a")
              eq_refl eq_refl)
    as (lines & E & _ & Hlink & _).
  - repeat constructor; intros v Hv; discriminate Hv.
  - exists lines. split; assumption.
Defined.

(** ** Summary rendering: the abstract preview *)

Lemma prefix_cons a p b s :
  String.prefix (String a p) (String b s) = Ascii.eqb b a && String.prefix p s.
Proof.
  cbn [String.prefix]. destruct (ascii_dec a b) as [->|Hne].
  - rewrite Ascii.eqb_refl. reflexivity.
  - destruct (Ascii.eqb_spec b a); [congruence | reflexivity].
Qed.

Lemma prefix_empty s : String.prefix "" s = true.
Proof. destruct s; reflexivity. Qed.

Lemma prefix_doubled c a s :
  String.prefix (doubled c) (String a s) = Ascii.eqb a c && starts_with c s.
Proof.
  unfold doubled. rewrite prefix_cons. destruct s as [|b s].
  - cbn. rewrite andb_false_r. reflexivity.
  - rewrite prefix_cons, prefix_empty, andb_true_r. reflexivity.
Qed.

Lemma double_free_spec c s :
  substring_in (doubled c) s = negb (double_free c s).
Proof.
  induction s as [|a s IH].
  - reflexivity.
  - change (substring_in (doubled c) (String a s))
      with (String.prefix (doubled c) (String a s) || substring_in (doubled c) s).
    rewrite prefix_doubled, IH. cbn [double_free starts_with].
    rewrite negb_andb, negb_involutive. reflexivity.
Qed.

Lemma has_char_tail c a u :
  has_char c (String a u) = false → Ascii.eqb a c = false ∧ has_char c u = false.
Proof.
  unfold has_char. cbn. destruct (Ascii.eqb a c); cbn; [discriminate|].
  intros H. split; [reflexivity | exact H].
Qed.

Lemma starts_with_app c u r :
  has_char c u = false →
  starts_with c (u +:+ r) = match u with
                            | EmptyString => starts_with c r
                            | String _ _ => false
                            end.
Proof.
  destruct u as [|a u]; [reflexivity|]. intros H.
  apply has_char_tail in H as [Ha _]. cbn [String.append starts_with].
  exact Ha.
Qed.

Lemma double_free_app_l c u r :
  has_char c u = false → double_free c r = true → double_free c (u +:+ r) = true.
Proof.
  induction u as [|a u IH]; intros Hu Hr; [exact Hr|].
  apply has_char_tail in Hu as [Ha Hu]. rewrite append_cons.
  cbn [double_free]. rewrite Ha, (IH Hu Hr). reflexivity.
Qed.

Lemma double_free_app_r c t u :
  has_char c u = false → double_free c t = true → double_free c (t +:+ u) = true.
Proof.
  intros Hu. induction t as [|a t IH]; intros Ht.
  - rewrite append_nil. clear Ht. induction u as [|b u IHu]; [reflexivity|].
    apply has_char_tail in Hu as [Hb Hu]. cbn [double_free].
    rewrite Hb, (IHu Hu). reflexivity.
  - rewrite append_cons. cbn [double_free] in *.
    apply andb_true_iff in Ht as [Ha Ht]. rewrite (IH Ht), andb_true_r.
    destruct t as [|b t]; [|exact Ha].
    rewrite append_nil. destruct u as [|b u]; [exact Ha|].
    apply has_char_tail in Hu as [Hb _]. cbn [starts_with].
    rewrite Hb, andb_false_r. reflexivity.
Qed.

Lemma double_free_prefix c p r :
  double_free c (p +:+ r) = true → double_free c p = true.
Proof.
  induction p as [|a p IH]; [reflexivity|]. rewrite append_cons.
  cbn [double_free]. intros H. apply andb_true_iff in H as [Ha H].
  rewrite (IH H), andb_true_r. destruct (Ascii.eqb a c); [|reflexivity].
  cbn [andb negb] in *. destruct p as [|b p]; [reflexivity|].
  rewrite append_cons in Ha. exact Ha.
Qed.

Lemma str_take_prefix n s : ∃ r, s = str_take n s +:+ r.
Proof.
  exists (unchars (drop n (chars s))). unfold str_take.
  rewrite <- unchars_app, take_drop, unchars_chars. reflexivity.
Qed.

Lemma double_free_take c n s :
  double_free c s = true → double_free c (str_take n s) = true.
Proof.
  intros H. destruct (str_take_prefix n s) as [r E]. rewrite E in H.
  exact (double_free_prefix _ _ _ H).
Qed.

Lemma len_append_dots u : len (u +:+ "...") = len u + 3.
Proof. unfold len. rewrite chars_app by reflexivity. apply length_app. Qed.

(** Replacing the doubled character [c] leaves no doubled [c], when the
    replacement has no [c]. *)
Lemma replace_doubled_free c new :
  has_char c new = false →
  ∀ s skip, skip ≤ 1 →
    double_free c (replace_from (doubled c) new skip s) = true
    ∧ (skip = 0 →
       starts_with c (replace_from (doubled c) new 0 s) = true →
       starts_with c s = true).
Proof.
  intros Hnew s. induction s as [|a s IH]; intros skip Hskip.
  - split; [reflexivity | intros _ H; exact H].
  - destruct skip as [|[|skip]]; [|split; [apply (IH 0); lia | discriminate]|lia].
    cbn [replace_from]. rewrite prefix_doubled.
    cbn [doubled String.length Nat.sub].
    destruct (Ascii.eqb a c) eqn:Ea; cbn [andb].
    + destruct (starts_with c s) eqn:Es.
      * split; [|intros _ _; exact Ea].
        apply double_free_app_l; [exact Hnew | apply (IH 1); lia].
      * split; [|intros _ _; exact Ea]. cbn [double_free]. rewrite Ea. cbn [andb].
        destruct (IH 0 ltac:(lia)) as [Hfree Hstart]. rewrite Hfree, andb_true_r.
        destruct (starts_with c (replace_from (doubled c) new 0 s)) eqn:E;
          [|reflexivity].
        discriminate (Hstart eq_refl eq_refl).
    + split.
      * cbn [double_free]. rewrite Ea. cbn [andb negb]. apply (IH 0); lia.
      * intros _ H. cbn [starts_with] in H. rewrite Ea in H. discriminate H.
Qed.

(** Replacing another doubled character [d] by a non-empty text
    without [c] makes no doubled [c]. *)
Lemma replace_keeps_double_free c d new :
  has_char c new = false → new ≠ "" →
  ∀ s skip, skip ≤ 1 → double_free c s = true →
    double_free c (replace_from (doubled d) new skip s) = true
    ∧ (skip = 0 →
       starts_with c (replace_from (doubled d) new 0 s) = true →
       starts_with c s = true).
Proof.
  intros Hnew Hne s. induction s as [|a s IH]; intros skip Hskip Hs.
  - split; [reflexivity | intros _ H; exact H].
  - cbn [double_free] in Hs. apply andb_true_iff in Hs as [Ha Hs].
    destruct skip as [|[|skip]]; [|split; [apply (IH 0); [lia|exact Hs] | discriminate]|lia].
    cbn [replace_from].
    destruct (String.prefix (doubled d) (String a s)).
    + split.
      * apply double_free_app_l; [exact Hnew | apply (IH _); [simpl; lia|exact Hs]].
      * intros _ H. rewrite (starts_with_app c new _ Hnew) in H.
        destruct new; [contradiction | discriminate H].
    + destruct (IH 0 ltac:(lia) Hs) as [Hfree Hstart]. split.
      * cbn [double_free]. rewrite Hfree, andb_true_r.
        destruct (Ascii.eqb a c); [|reflexivity]. cbn [andb negb] in *.
        destruct (starts_with c (replace_from (doubled d) new 0 s)) eqn:E;
          [|reflexivity].
        rewrite (Hstart eq_refl eq_refl) in Ha. discriminate Ha.
      * intros _ H. cbn [starts_with] in *. destruct (Ascii.eqb a c);
          [reflexivity | discriminate H].
Qed.

Lemma clean_abstract_free s :
  ∃ clean, clean_abstract (VStr s) = Ok clean
           ∧ double_free star clean = true
           ∧ double_free line_feed clean = true.
Proof.
  eexists. split; [reflexivity|]. unfold replace. split.
  - apply (replace_keeps_double_free star line_feed " " eq_refl ltac:(discriminate)
             _ 0 ltac:(lia)).
    apply (replace_doubled_free star "" eq_refl _ 0). lia.
  - apply (replace_doubled_free line_feed " " eq_refl _ 0). lia.
Qed.

(** X14. The abstract preview of a summary is the line
    ["**Abstract:** "] followed by the cleaned abstract when that has
    at most 200 characters, and by its first 200 characters and
    ["..."] when it is longer: the preview text has at most 203
    characters (not bytes), no emphasis mark ["**"] and no blank
    line. *)
Theorem abstract_preview_clean s :
  s ≠ "" →
  ∃ clean body,
    clean_abstract (VStr s) = Ok clean
    ∧ abstract_preview (VStr s) = Ok (nl +:+ "**Abstract:** " +:+ body)
    ∧ (len clean ≤ 200 → body = clean)
    ∧ (200 < len clean → body = unchars (take 200 (chars clean)) +:+ "...")
    ∧ len body ≤ 203
    ∧ substring_in "**" body = false
    ∧ substring_in (nl +:+ nl) body = false.
Proof.
  intros Hs. unfold abstract_preview. rewrite (truthy_VStr _ Hs).
  destruct (clean_abstract_free s) as (clean & -> & Hstar & Hlf).
  cbn [mbind result_bind]. exists clean.
  change "**" with (doubled star). change (nl +:+ nl) with (doubled line_feed).
  destruct (200 <? len clean)%nat eqn:Elen.
  - apply Nat.ltb_lt in Elen.
    exists (str_take 200 clean +:+ "..."). split; [reflexivity|].
    split; [reflexivity|]. split; [lia|]. split; [reflexivity|].
    rewrite !double_free_spec, len_append_dots.
    pose proof (len_str_take 200 clean). split; [lia|].
    rewrite !double_free_app_r by
      (try reflexivity; apply double_free_take; assumption).
    split; reflexivity.
  - apply Nat.ltb_ge in Elen. exists clean. split; [reflexivity|].
    split; [reflexivity|]. split; [reflexivity|]. split; [lia|].
    rewrite !double_free_spec, Hstar, Hlf. split; [lia|]. split; reflexivity.
Qed.

Lemma abstract_preview_clean_witness :
  abstract_preview (VStr marked_abstract)
  = Ok (nl +:+ "**Abstract:** AIM: a *b* " +:+ nl +:+ "END")
  ∧ abstract_preview (VStr accented_abstract)
    = Ok (nl +:+ "**Abstract:** " +:+ unchars (replicate 200 "é") +:+ "...").
Proof.
  split.
  - destruct (abstract_preview_clean marked_abstract ltac:(discriminate))
      as (clean & body & _ & E & _).
    reflexivity.
  - destruct (abstract_preview_clean accented_abstract ltac:(discriminate))
      as (clean & body & _ & E & _).
    vm_compute. reflexivity.
Defined.

(** ** From document trees to summaries *)

Lemma extract_abstract_tree v :
  document_tree v = true → is_str (_extract_abstract v) = true.
Proof.
  intros Hv. unfold _extract_abstract, _extract_abstract_body.
  destruct (get v "AbstractText" (VStr "")) as [x|e] eqn:Ex; [|reflexivity].
  cbn [mbind result_bind]. get_tree_in Ex.
  destruct x as [|s|parts|d]; try reflexivity.
  - destruct (for_each abstract_step parts []) as [text_parts|e]; [|reflexivity].
    cbn [mbind result_bind]. destruct (join _ _); reflexivity.
  - destruct (get (VDict d) "#text" (VStr "")) as [text|e] eqn:Et; [|reflexivity].
    cbn [try_except]. exact (get_inner_text _ _ Ex Et).
Qed.

Lemma abstract_preview_text s : ∃ preview, abstract_preview (VStr s) = Ok preview.
Proof.
  unfold abstract_preview. destruct (truthy (VStr s)); [|eauto].
  cbn [clean_abstract mbind result_bind]. destruct (_ <? _)%nat; eauto.
Qed.

Lemma built_tree_summarised article_data article index :
  document_tree article_data = true →
  _parse_single_article_body article_data = Ok article →
  ∃ text, _format_article_summary article index = Ok text.
Proof.
  intros Htree H. unfold _parse_single_article_body in H.
  apply bind_Ok_inv in H as (medline_citation & Hmc & H). get_tree_in Hmc.
  apply bind_Ok_inv in H as (pubmed_data & _ & H).
  apply bind_Ok_inv in H as (article_info & Hart & H). get_tree_in Hart.
  apply bind_Ok_inv in H as (pmid0 & _ & H).
  apply bind_Ok_inv in H as (pmid & _ & H).
  apply bind_Ok_inv in H as (title0 & _ & H).
  apply bind_Ok_inv in H as (title & _ & H).
  apply bind_Ok_inv in H as (author_list & _ & H).
  apply bind_Ok_inv in H as (journal_info & _ & H).
  apply bind_Ok_inv in H as (journal_title & _ & H).
  apply bind_Ok_inv in H as (journal_iso & _ & H).
  apply bind_Ok_inv in H as (journal_issue & _ & H).
  apply bind_Ok_inv in H as (abstract_data & Habs & H). get_tree_in Habs.
  apply bind_Ok_inv in H as (elocation_ids & _ & H).
  apply bind_Ok_inv in H as (keyword_list & _ & H).
  apply bind_Ok_inv in H as (pub_type_list & _ & H).
  apply bind_Ok_inv in H as (mesh_list & _ & H).
  injection H as <-.
  pose proof (extract_abstract_tree _ Habs) as Hstr.
  unfold _format_article_summary.
  cbn [get dict_lookup String.eqb Ascii.eqb Bool.eqb default from_option id
       mbind result_bind].
  destruct (_extract_abstract abstract_data) as [|s| |]; try discriminate Hstr.
  destruct (abstract_preview_text s) as [preview ->].
  cbn [mbind result_bind]. eauto.
Qed.

(** X15. Builder and summary renderer compose without failure on
    document trees: each publication that [_parse_articles] returns
    for a tree is rendered to a summary, under any ordinal (the
    abstract the builder extracts from a tree is always text). *)
Theorem tree_publications_summarised xml index :
  document_tree xml = true →
  Forall (λ article, ∃ text, _format_article_summary article index = Ok text)
    (_parse_articles xml).
Proof.
  intros Htree. unfold _parse_articles, _parse_articles_body.
  destruct (get xml "PubmedArticleSet" (VDict [])) as [pubmed_data|e] eqn:Es;
    [|constructor].
  cbn [mbind result_bind]. get_tree_in Es.
  destruct (truthy pubmed_data); [|constructor]. cbn [negb].
  destruct (get pubmed_data "PubmedArticle" (VList [])) as [docs|e] eqn:Ed;
    [|constructor].
  cbn [mbind result_bind try_except]. get_tree_in Ed.
  apply listify_trees in Ed. rewrite foldl_parse_step. cbn [app].
  induction Ed as [|doc docs' Hdoc _ IH]; [constructor|].
  change (omap publication (doc :: docs'))
    with (match publication doc with
          | Some y => y :: omap publication docs'
          | None => omap publication docs'
          end).
  unfold publication at 1.
  destruct (_parse_single_article_body doc) as [article|e] eqn:E; [|exact IH].
  constructor; [exact (built_tree_summarised _ _ _ Hdoc E) | exact IH].
Qed.

Lemma tree_publications_summarised_witness :
  Forall (λ article, ∃ text, _format_article_summary article 1 = Ok text)
    (_parse_articles
       (VDict (article_set (VList [record "1"; malformed_record; record "3"])))).
Proof.
  exact (tree_publications_summarised
           (VDict (article_set (VList [record "1"; malformed_record; record "3"])))
           1 eq_refl).
Defined.

(** ** The REST client: related identifiers *)

Lemma normalize_entry v k :
  is_dict v = true → normalize_to_list v k = listify_truthy (entry v k).
Proof.
  destruct v as [| | |d]; try discriminate. intros _. cbn [normalize_to_list entry].
  destruct (dict_lookup d k); reflexivity.
Qed.

Lemma get_field v k : is_dict v = true → get v k VNone = Ok (field v k).
Proof. destruct v; try discriminate. reflexivity. Qed.

Lemma get_entry v k : is_dict v = true → get v k (VList []) = Ok (entry v k).
Proof. destruct v; try discriminate. reflexivity. Qed.

Lemma bind_singleton_fmap {A B} (f : A → B) (l : list A) :
  (x ← l; [f x]) = f <$> l.
Proof.
  induction l as [|x l IH]; [reflexivity|].
  rewrite bind_cons, fmap_cons, IH. reflexivity.
Qed.

Section related_ids.
Variable pmid : string.

Let kept (id : value) : Prop := truthy id = true ∧ ne_str id pmid = true.
Let into_pubmed (db : value) : Prop := ne_str (field db "DbTo") "pubmed" = false.
Let db_ids (db : value) : list value :=
  (λ link, field link "Id") <$> normalize_to_list db "Link".
Let link_set_ids (link_set : value) : list value :=
  filter into_pubmed (normalize_to_list link_set "LinkSetDb") ≫= db_ids.

Lemma link_step_spec acc link :
  is_dict link = true →
  App.link_step pmid acc link = Ok (acc ++ filter kept [field link "Id"]).
Proof.
  intros Hd. unfold App.link_step. rewrite (get_field _ _ Hd).
  cbn [mbind result_bind]. rewrite filter_cons, filter_nil. unfold kept.
  destruct (truthy (field link "Id")); cbn [andb].
  - destruct (ne_str (field link "Id") pmid).
    + rewrite decide_True by auto. reflexivity.
    + rewrite decide_False by (intros [_ ?]; discriminate).
      rewrite app_nil_r. reflexivity.
  - rewrite decide_False by (intros [? _]; discriminate).
    rewrite app_nil_r. reflexivity.
Qed.

Lemma for_each_link_step links acc :
  forallb is_dict links = true →
  for_each (App.link_step pmid) links acc
  = Ok (acc ++ filter kept ((λ link, field link "Id") <$> links)).
Proof.
  revert acc. induction links as [|link links IH]; intros acc H.
  - cbn. rewrite app_nil_r. reflexivity.
  - cbn [forallb] in H. apply andb_true_iff in H as [Hd H].
    change (for_each (App.link_step pmid) (link :: links) acc)
      with (App.link_step pmid acc link ≫= for_each (App.link_step pmid) links).
    rewrite (link_step_spec _ _ Hd). cbn [mbind result_bind].
    rewrite (IH _ H), fmap_cons, <- app_assoc.
    change (field link "Id" :: ((λ l, field l "Id") <$> links))
      with ([field link "Id"] ++ ((λ l, field l "Id") <$> links)).
    rewrite filter_app. reflexivity.
Qed.

Lemma links_of_entry v acc :
  mapping_or_mappings v = true →
  (links ← App.iterate (App.wrap_dict v); for_each (App.link_step pmid) links acc)
  = Ok (acc ++ filter kept ((λ link, field link "Id") <$> listify_truthy v)).
Proof.
  destruct v as [| |l|d]; try discriminate; intros H.
  - cbn [App.wrap_dict App.iterate mbind result_bind listify_truthy].
    apply for_each_link_step, H.
  - cbn [App.wrap_dict App.iterate mbind result_bind].
    rewrite for_each_link_step by reflexivity.
    destruct d as [|kv d]; reflexivity.
Qed.

Lemma db_step_spec acc db :
  is_dict db = true → shaped_db db = true →
  App.db_step pmid acc db
  = Ok (acc ++ filter kept (filter into_pubmed [db] ≫= db_ids)).
Proof.
  intros Hd Hs. unfold App.db_step. rewrite (get_field _ _ Hd).
  cbn [mbind result_bind]. rewrite filter_cons, filter_nil. unfold into_pubmed.
  destruct (ne_str (field db "DbTo") "pubmed") eqn:E; cbn [negb].
  - rewrite decide_False by discriminate.
    cbn. rewrite app_nil_r. reflexivity.
  - rewrite decide_True by reflexivity.
    rewrite (get_entry _ _ Hd). cbn [mbind result_bind].
    rewrite (links_of_entry _ _ Hs), bind_singleton. unfold db_ids.
    rewrite (normalize_entry _ _ Hd). reflexivity.
Qed.

Lemma for_each_db_step dbs acc :
  forallb is_dict dbs = true → forallb shaped_db dbs = true →
  for_each (App.db_step pmid) dbs acc
  = Ok (acc ++ filter kept (filter into_pubmed dbs ≫= db_ids)).
Proof.
  revert acc. induction dbs as [|db dbs IH]; intros acc Hd Hs.
  - cbn. rewrite app_nil_r. reflexivity.
  - cbn [forallb] in Hd, Hs. apply andb_true_iff in Hd as [Hd Hds].
    apply andb_true_iff in Hs as [Hs Hss].
    change (for_each (App.db_step pmid) (db :: dbs) acc)
      with (App.db_step pmid acc db ≫= for_each (App.db_step pmid) dbs).
    rewrite (db_step_spec _ _ Hd Hs). cbn [mbind result_bind].
    rewrite (IH _ Hds Hss), <- app_assoc, <- filter_app, <- bind_app.
    change (db :: dbs) with ([db] ++ dbs). rewrite filter_app. reflexivity.
Qed.

Lemma dbs_of_entry v acc :
  mapping_or_mappings v = true → forallb shaped_db (items v) = true →
  (dbs ← App.iterate (App.wrap_dict v); for_each (App.db_step pmid) dbs acc)
  = Ok (acc ++ filter kept (filter into_pubmed (listify_truthy v) ≫= db_ids)).
Proof.
  destruct v as [| |l|d]; try discriminate; intros H Hs.
  - cbn [App.wrap_dict App.iterate mbind result_bind listify_truthy items] in *.
    apply for_each_db_step; assumption.
  - cbn [App.wrap_dict App.iterate mbind result_bind items] in *.
    rewrite for_each_db_step by (reflexivity || assumption).
    destruct d as [|kv d]; reflexivity.
Qed.

Lemma link_set_step_spec acc link_set :
  is_dict link_set = true → shaped_link_set link_set = true →
  App.link_set_step pmid acc link_set
  = Ok (acc ++ filter kept (link_set_ids link_set)).
Proof.
  intros Hd Hs. unfold shaped_link_set in Hs.
  apply andb_true_iff in Hs as [Hm Hs].
  unfold App.link_set_step. rewrite (get_entry _ _ Hd).
  cbn [mbind result_bind]. rewrite (dbs_of_entry _ _ Hm Hs).
  unfold link_set_ids. rewrite (normalize_entry _ _ Hd). reflexivity.
Qed.

Lemma for_each_link_set_step link_sets acc :
  forallb is_dict link_sets = true →
  forallb shaped_link_set link_sets = true →
  for_each (App.link_set_step pmid) link_sets acc
  = Ok (acc ++ filter kept (link_sets ≫= link_set_ids)).
Proof.
  revert acc. induction link_sets as [|ls link_sets IH]; intros acc Hd Hs.
  - cbn. rewrite app_nil_r. reflexivity.
  - cbn [forallb] in Hd, Hs. apply andb_true_iff in Hd as [Hd Hds].
    apply andb_true_iff in Hs as [Hs Hss].
    change (for_each (App.link_set_step pmid) (ls :: link_sets) acc)
      with (App.link_set_step pmid acc ls
            ≫= for_each (App.link_set_step pmid) link_sets).
    rewrite (link_set_step_spec _ _ Hd Hs). cbn [mbind result_bind].
    rewrite (IH _ Hds Hss), <- app_assoc, <- filter_app, bind_cons.
    reflexivity.
Qed.

Lemma link_sets_of_entry v :
  mapping_or_mappings v = true → forallb shaped_link_set (items v) = true →
  (link_sets ← App.iterate (App.wrap_dict v);
   for_each (App.link_set_step pmid) link_sets [])
  = Ok (filter kept (listify_truthy v ≫= link_set_ids)).
Proof.
  destruct v as [| |l|d]; try discriminate; intros H Hs.
  - cbn [App.wrap_dict App.iterate mbind result_bind listify_truthy items] in *.
    rewrite for_each_link_set_step by assumption. reflexivity.
  - cbn [App.wrap_dict App.iterate mbind result_bind items] in *.
    rewrite for_each_link_set_step by (reflexivity || assumption).
    destruct d as [|kv d]; reflexivity.
Qed.

(** X16. The REST client resolves related identifiers as the
    specification words it: from every link-set and every
    link-set-database whose target database is ["pubmed"], every
    link entry, in input order, leaving out the origin identifier
    (and, in addition, entries without identifier). *)
Theorem app_collects_every_link_set link_result :
  shaped_link_result link_result = true →
  App.similar_ids link_result pmid
  = Ok (filter (λ id, truthy id = true)
          (claimed_related_ids "pubmed" link_result pmid)).
Proof.
  unfold shaped_link_result. intros H.
  apply andb_true_iff in H as [H Hs]. apply andb_true_iff in H as [H Hm].
  apply andb_true_iff in H as [Hd He].
  unfold App.similar_ids. rewrite (get_container _ _ Hd).
  cbn [mbind result_bind]. rewrite (get_entry _ _ He). cbn [mbind result_bind].
  rewrite (link_sets_of_entry _ Hm Hs).
  unfold claimed_related_ids. rewrite list_filter_filter.
  rewrite <- (normalize_entry _ _ He). f_equal. f_equal.
  assert (Hset : normalize_to_list (container link_result "eLinkResult") "LinkSet"
                 = normalize_to_list (field link_result "eLinkResult") "LinkSet").
  { destruct link_result as [| | |d]; try discriminate Hd.
    cbn [container field]. destruct (dict_lookup d "eLinkResult"); reflexivity. }
  rewrite Hset. apply list_bind_ext; [|reflexivity].
  intros link_set. unfold link_set_ids. apply list_bind_ext; [|reflexivity].
  intros db. unfold db_ids. symmetry. apply bind_singleton_fmap.
Qed.
End related_ids.

Lemma app_collects_every_link_set_witness :
  App.similar_ids two_databases "9" = Ok [VStr "1"; VStr "2"; VStr "3"]
  ∧ App.similar_ids two_link_sets "9" = Ok [VStr "1"; VStr "4"]
  ∧ App.similar_ids foreign_database "9" = Ok [].
Proof.
  split; [|split].
  - exact (app_collects_every_link_set "9" two_databases eq_refl).
  - exact (app_collects_every_link_set "9" two_link_sets eq_refl).
  - exact (app_collects_every_link_set "9" foreign_database eq_refl).
Defined.

(** ** The identifiers that are fetched *)

Lemma length_slice_to {A} (n : Z) (l : list A) :
  (0 ≤ n)%Z → length (slice_to n l) ≤ Z.to_nat n.
Proof.
  intros Hn. unfold slice_to. rewrite (proj2 (Z.leb_le 0 n) Hn), length_take. lia.
Qed.

(** X17. The link service is asked for one identifier more than the
    caller wants because the origin may be among the links: when it
    is, and the service returned at most [max_results + 1] links,
    cutting the resolved sequence to [max_results] drops nothing.  In
    any case at most [max_results] identifiers are fetched, and never
    the origin. *)
Theorem origin_compensation link_result pmid max_results raw :
  selected_ids link_result = Ok raw →
  (0 ≤ max_results)%Z →
  (∃ ids, fetched_pmids link_result pmid max_results = Ok ids
          ∧ length ids ≤ Z.to_nat max_results
          ∧ VStr pmid ∉ ids)
  ∧ (length raw ≤ Z.to_nat max_results + 1 →
     (∃ id, id ∈ raw ∧ ne_str id pmid = false) →
     fetched_pmids link_result pmid max_results
     = Ok (filter (λ id, ne_str id pmid = true) raw)).
Proof.
  intros Hraw Hmax. unfold fetched_pmids. rewrite similar_pmids_spec, Hraw.
  cbn [fmap result_fmap mbind result_bind]. split.
  - eexists. split; [reflexivity|]. split; [apply length_slice_to, Hmax|].
    intros Hin. unfold slice_to in Hin. rewrite (proj2 (Z.leb_le 0 _) Hmax) in Hin.
    eapply elem_of_sublist in Hin; [|apply sublist_take].
    apply list_elem_of_filter in Hin as [Hne _].
    simpl in Hne. rewrite String.eqb_refl in Hne. discriminate Hne.
  - intros Hlen (id & Hin & Hid). f_equal. unfold slice_to.
    rewrite (proj2 (Z.leb_le 0 _) Hmax). apply take_ge.
    assert (Hlt : length (filter (λ id, ne_str id pmid = true) raw) < length raw).
    { apply (length_filter_lt _ _ id Hin). cbv beta. rewrite Hid. discriminate. }
    lia.
Qed.

Lemma origin_compensation_witness :
  fetched_pmids two_databases "9" 2 = Ok [VStr "1"; VStr "2"].
Proof.
  exact (proj2 (origin_compensation two_databases "9" 2
                  [VStr "9"; VStr "1"; VStr "2"] eq_refl ltac:(lia))
           ltac:(vm_compute; lia)
           (ex_intro _ (VStr "9") (conj (list_elem_of_here _ _) eq_refl))).
Defined.

(** ** The REST client: the list of titles *)

Lemma similar_lines_acc i articles results :
  App.similar_lines i articles results
  = results ++ App.similar_lines i articles [].
Proof.
  revert i results. induction articles as [|a rest IH]; intros i results.
  - cbn. rewrite app_nil_r. reflexivity.
  - cbn [App.similar_lines]. rewrite IH.
    rewrite (IH (S i) (match App.similar_line i a with
                       | Ok line => [] ++ [line]
                       | Raise _ => []
                       end)).
    destruct (App.similar_line i a); rewrite <- ?app_assoc, ?app_nil_r; reflexivity.
Qed.

Lemma similar_lines_app i before after :
  App.similar_lines i (before ++ after) []
  = App.similar_lines i before []
      ++ App.similar_lines (i + length before) after [].
Proof.
  revert i. induction before as [|a before IH]; intros i.
  - cbn [app length App.similar_lines]. rewrite Nat.add_0_r. reflexivity.
  - rewrite <- app_comm_cons. cbn [App.similar_lines length].
    rewrite similar_lines_acc, IH,
      (similar_lines_acc (S i) before
         (match App.similar_line i a with
          | Ok line => [] ++ [line]
          | Raise _ => []
          end)).
    rewrite app_assoc. do 2 f_equal. lia.
Qed.

Lemma similar_line_fails_anywhere i j article e :
  App.similar_line i article = Raise e → App.similar_line j article = Raise e.
Proof.
  unfold App.similar_line.
  destruct (getitem article "MedlineCitation") as [medline|]; [|exact id].
  cbn [mbind result_bind].
  destruct (getitem medline "PMID") as [pmid_node|]; [|exact id].
  cbn [mbind result_bind].
  destruct (getitem pmid_node "#text") as [pmid|]; [|exact id].
  cbn [mbind result_bind].
  destruct (getitem medline "Article") as [article_data|]; [|exact id].
  cbn [mbind result_bind].
  destruct (get article_data _ _) as [title|]; [|exact id].
  cbn [mbind result_bind].
  destruct (if is_dict title then _ else _) as [title'|]; [discriminate | exact id].
Qed.

(** X18. In the list of similar titles every article keeps the number
    of its position in the fetched set: an article that cannot be read
    is left out, and the articles after it are numbered as if it were
    there (the list shows a gap). *)
Theorem similar_titles_numbering before article after e :
  App.similar_line 0 article = Raise e →
  App.similar_lines 0 (before ++ article :: after) []
  = App.similar_lines 0 before []
      ++ App.similar_lines (S (length before)) after [].
Proof.
  intros Hfail. rewrite similar_lines_app. cbn [App.similar_lines Nat.add].
  rewrite (similar_line_fails_anywhere 0 (length before) _ _ Hfail). reflexivity.
Qed.

Lemma similar_titles_numbering_witness :
  App.similar_lines 0 [record "1"; plain_pmid_record; record "3"] []
  = ["**1. On trees** (PMID: 1)"; "**3. On trees** (PMID: 3)"].
Proof.
  exact (similar_titles_numbering [record "1"] plain_pmid_record [record "3"]
           TypeError eq_refl).
Defined.

Lemma readable_cons {A} (body : nat → value → result A) a l :
  readable body (a :: l)
  = match body 0 a with
    | Ok x => x :: readable (λ i, body (S i)) l
    | Raise _ => readable (λ i, body (S i)) l
    end.
Proof. unfold readable. rewrite imap_cons. destruct (body 0 a); reflexivity. Qed.

Lemma readable_ext {A} (f g : nat → value → result A) l :
  (∀ i a, f i a = g i a) → readable f l = readable g l.
Proof.
  intros H. unfold readable. f_equal. apply imap_ext. intros i a _.
  rewrite H. reflexivity.
Qed.

Lemma length_readable {A} (body : nat → value → result A) l :
  length (readable body l) ≤ length l.
Proof.
  revert body. induction l as [|a l IH]; intros body; [reflexivity|].
  rewrite readable_cons. specialize (IH (λ i, body (S i))).
  destruct (body 0 a); cbn [length]; lia.
Qed.

Lemma readable_nil {A} (body : nat → value → result A) l :
  readable body l = []
  ↔ ∀ i a, l !! i = Some a → ∃ e, body i a = Raise e.
Proof.
  revert body. induction l as [|a l IH]; intros body.
  - split; [intros _ i a H; discriminate H | reflexivity].
  - rewrite readable_cons. split.
    + intros H i b Hi. destruct (body 0 a) as [x|e] eqn:E; [discriminate H|].
      destruct i as [|i]; [injection Hi as <-; eauto|].
      apply (proj1 (IH (λ i, body (S i))) H i b Hi).
    + intros H. destruct (H 0 a eq_refl) as [e ->].
      apply IH. intros i b Hi. apply (H (S i) b Hi).
Qed.

Lemma elem_of_readable {A} (body : nat → value → result A) l x :
  x ∈ readable body l ↔ ∃ i a, l !! i = Some a ∧ body i a = Ok x.
Proof.
  revert body. induction l as [|a l IH]; intros body.
  - split; [intros H; apply elem_of_nil in H; contradiction|].
    intros (i & b & H & _). discriminate H.
  - rewrite readable_cons. split.
    + intros H. destruct (body 0 a) as [y|e] eqn:E.
      * apply elem_of_cons in H as [->|H]; [exists 0, a; auto|].
        apply IH in H as (i & b & Hi & Hb). exists (S i), b. auto.
      * apply IH in H as (i & b & Hi & Hb). exists (S i), b. auto.
    + intros (i & b & Hi & Hb). destruct i as [|i].
      * injection Hi as <-. rewrite Hb. apply list_elem_of_here.
      * assert (x ∈ readable (λ i, body (S i)) l) by (apply IH; eauto).
        destruct (body 0 a); [apply list_elem_of_further|]; assumption.
Qed.

Lemma similar_lines_readable i l :
  App.similar_lines i l [] = readable (λ j, App.similar_line (i + j)) l.
Proof.
  revert i. induction l as [|a l IH]; intros i; [reflexivity|].
  cbn [App.similar_lines]. rewrite similar_lines_acc, readable_cons, IH.
  rewrite Nat.add_0_r.
  rewrite (readable_ext (λ j, App.similar_line (S i + j))
             (λ j, App.similar_line (i + S j)))
    by (intros j b; f_equal; lia).
  destruct (App.similar_line i a); reflexivity.
Qed.

Lemma sliced_articles articles max_results :
  (0 ≤ max_results)%Z →
  App.slice_value (App.wrap_dict (VList articles)) max_results
    ≫= App.iterate
  = Ok (take (Z.to_nat max_results) articles).
Proof.
  intros H. cbn [App.wrap_dict App.slice_value mbind result_bind App.iterate].
  unfold slice_to. apply Z.leb_le in H. rewrite H. reflexivity.
Qed.

(** X19. The text of similar titles is the header line
    ["Similar articles:"] followed by the title lines of the articles
    that can be read among the first [max_results] articles, in input
    order, each with the number of its position: at most [max_results]
    lines, one for each readable article and no other; when none of
    these articles can be read the text is the header line alone. *)
Theorem similar_titles_bound result set articles max_results :
  dict_lookup result "PubmedArticleSet" = Some (VDict set) →
  dict_lookup set "PubmedArticle" = Some (VList articles) →
  (0 ≤ max_results)%Z →
  let lines :=
    readable App.similar_line (take (Z.to_nat max_results) articles) in
  App.search_by_pmids_text (VDict result) max_results
  = Ok ("Similar articles:" +:+ nl +:+ String.concat nl lines)
  ∧ length lines ≤ Z.to_nat max_results
  ∧ (∀ line, line ∈ lines ↔
       ∃ i article, i < Z.to_nat max_results ∧ articles !! i = Some article
                    ∧ App.similar_line i article = Ok line)
  ∧ ((∀ i article, i < Z.to_nat max_results → articles !! i = Some article →
                   ∃ e, App.similar_line i article = Raise e) →
     App.search_by_pmids_text (VDict result) max_results
     = Ok ("Similar articles:" +:+ nl)).
Proof.
  intros Hset Harticles Hmax lines.
  assert (Htext : App.search_by_pmids_text (VDict result) max_results
                  = Ok ("Similar articles:" +:+ nl +:+ String.concat nl lines)).
  { unfold App.search_by_pmids_text. cbn [get mbind result_bind].
    rewrite Hset. cbn [default from_option id get mbind result_bind].
    rewrite Harticles. cbn [default from_option id].
    pose proof (sliced_articles articles max_results Hmax) as Hs.
    destruct (App.slice_value (App.wrap_dict (VList articles)) max_results)
      as [sliced|e]; [|discriminate Hs].
    cbn [mbind result_bind] in *. rewrite Hs. cbn [mbind result_bind].
    rewrite similar_lines_readable. reflexivity. }
  split; [exact Htext|]. split; [|split].
  - etrans; [apply length_readable|]. rewrite length_take. lia.
  - intros line. unfold lines. rewrite elem_of_readable.
    split; intros (i & article & H1 & H2).
    + apply lookup_take_Some in H1 as [H1 Hi]. eauto.
    + destruct H2 as [H2 Hline]. exists i, article.
      split; [|exact Hline]. apply lookup_take_Some. auto.
  - intros Hnone. rewrite Htext.
    assert (lines = []) as ->; [|reflexivity].
    apply readable_nil. intros i article Hi.
    apply lookup_take_Some in Hi as [Hi Hlt]. eauto.
Qed.

Lemma similar_titles_bound_witness :
  App.search_by_pmids_text
    (VDict (article_set (VList (three_records ++ [record "4"])))) 3
  = Ok ("Similar articles:" +:+ nl +:+ "**1. On trees** (PMID: 1)" +:+ nl
        +:+ "**3. On trees** (PMID: 3)").
Proof.
  exact (proj1 (similar_titles_bound
                  (article_set (VList (three_records ++ [record "4"])))
                  [("PubmedArticle", VList (three_records ++ [record "4"]))]
                  (three_records ++ [record "4"]) 3
                  eq_refl eq_refl ltac:(lia))).
Defined.

(** ** The REST client: the search report *)

Lemma article_blocks_acc i articles results :
  App.article_blocks i articles results
  = results ++ App.article_blocks i articles [].
Proof.
  revert i results. induction articles as [|a rest IH]; intros i results.
  - cbn. rewrite app_nil_r. reflexivity.
  - cbn [App.article_blocks]. rewrite IH.
    rewrite (IH (S i) (match App.article_block i a with
                       | Ok block => [] ++ [block]
                       | Raise _ => []
                       end)).
    destruct (App.article_block i a); rewrite <- ?app_assoc, ?app_nil_r;
      reflexivity.
Qed.

Lemma article_blocks_readable i l :
  App.article_blocks i l [] = readable (λ j, App.article_block (i + j)) l.
Proof.
  revert i. induction l as [|a l IH]; intros i; [reflexivity|].
  cbn [App.article_blocks]. rewrite article_blocks_acc, readable_cons, IH.
  rewrite Nat.add_0_r.
  rewrite (readable_ext (λ j, App.article_block (S i + j))
             (λ j, App.article_block (i + S j)))
    by (intros j b; f_equal; lia).
  destruct (App.article_block i a); reflexivity.
Qed.

(** X20. The search report of the REST client counts what it lists:
    its blocks are those of the articles that can be read among the
    first [max_results] articles, in input order, each with the number
    of its position, and its header gives their number, which is at
    most [max_results]; when none of these articles can be read, and
    only then, the report is ["No valid publications found."]. *)
Theorem search_report_count summary_result set articles max_results :
  dict_lookup summary_result "PubmedArticleSet" = Some (VDict set) →
  dict_lookup set "PubmedArticle" = Some (VList articles) →
  (0 ≤ max_results)%Z →
  let blocks :=
    readable App.article_block (take (Z.to_nat max_results) articles) in
  length blocks ≤ Z.to_nat max_results
  ∧ (∀ block, block ∈ blocks ↔
       ∃ i article, i < Z.to_nat max_results ∧ articles !! i = Some article
                    ∧ App.article_block i article = Ok block)
  ∧ (blocks ≠ [] →
     App.search_report (VDict summary_result) max_results
     = Ok ("Found " +:+ pretty (length blocks) +:+ " publications:" +:+ nl
           +:+ String.concat nl blocks))
  ∧ (blocks = [] →
     App.search_report (VDict summary_result) max_results
     = Ok "No valid publications found.")
  ∧ (blocks = [] ↔
     ∀ i article, i < Z.to_nat max_results → articles !! i = Some article →
                  ∃ e, App.article_block i article = Raise e).
Proof.
  intros Hset Harticles Hmax blocks.
  assert (Hreport :
            App.search_report (VDict summary_result) max_results
            = if negb (App.truthy_list blocks)
              then Ok "No valid publications found."
              else Ok ("Found " +:+ pretty (length blocks) +:+ " publications:"
                       +:+ nl +:+ String.concat nl blocks)).
  { unfold App.search_report. cbn [get mbind result_bind].
    rewrite Hset. cbn [default from_option id get mbind result_bind].
    rewrite Harticles. cbn [default from_option id].
    pose proof (sliced_articles articles max_results Hmax) as Hs.
    destruct (App.slice_value (App.wrap_dict (VList articles)) max_results)
      as [sliced|e]; [|discriminate Hs].
    cbn [mbind result_bind] in *. rewrite Hs. cbn [mbind result_bind].
    cbv zeta. rewrite article_blocks_readable. reflexivity. }
  split; [|split; [|split; [|split]]].
  - etrans; [apply length_readable|]. rewrite length_take. lia.
  - intros block. unfold blocks. rewrite elem_of_readable.
    split; intros (i & article & H1 & H2).
    + apply lookup_take_Some in H1 as [H1 Hi]. eauto.
    + destruct H2 as [H2 Hblock]. exists i, article.
      split; [|exact Hblock]. apply lookup_take_Some. auto.
  - intros Hsome. rewrite Hreport. destruct blocks; [contradiction|reflexivity].
  - intros Hnone. rewrite Hreport, Hnone. reflexivity.
  - unfold blocks. rewrite readable_nil. split; intros H i article.
    + intros Hlt Hi. apply (H i article). apply lookup_take_Some. auto.
    + intros Hi. apply lookup_take_Some in Hi as [Hi Hlt]. eauto.
Qed.

Lemma search_report_count_witness :
  ∃ first third,
    App.article_block 0 (record "1") = Ok first
    ∧ App.article_block 2 (record "3") = Ok third
    ∧ App.search_report (VDict (article_set (VList three_records))) 10
      = Ok ("Found 2 publications:" +:+ nl +:+ first +:+ nl +:+ third).
Proof.
  eexists _, _. split; [reflexivity|]. split; [reflexivity|].
  refine (proj1 (proj2 (proj2 (search_report_count
                   (article_set (VList three_records))
                   [("PubmedArticle", VList three_records)]
                   three_records 10 eq_refl eq_refl ltac:(lia)))) _).
  discriminate.
Defined.

Lemma abstract_of_empty_element article_data abstract_data :
  dict_lookup article_data "Abstract" = Some (VDict abstract_data) →
  dict_lookup abstract_data "AbstractText" = Some VNone →
  App.abstract_of (VDict article_data) = Ok VNone.
Proof.
  intros Ha Ht. unfold App.abstract_of. cbn [get mbind result_bind].
  rewrite Ha. cbn [default from_option id get mbind result_bind].
  rewrite Ht. reflexivity.
Qed.

Lemma extract_abstract_empty_element abstract_data :
  dict_lookup abstract_data "AbstractText" = Some VNone →
  _extract_abstract (VDict abstract_data) = VStr "".
Proof.
  intros Ht. unfold _extract_abstract, _extract_abstract_body.
  cbn [get mbind result_bind]. rewrite Ht. reflexivity.
Qed.

(** X21. An article whose abstract element is empty is left out of the
    search report of the REST client (cutting the absent abstract
    raises, and the per-article handler skips the article), whereas
    the extractor of the MCP server reads the same abstract as the
    empty text. *)
Theorem empty_abstract_drops_article i article medline article_data abstract_data :
  dict_lookup article "MedlineCitation" = Some (VDict medline) →
  dict_lookup medline "Article" = Some (VDict article_data) →
  dict_lookup article_data "Abstract" = Some (VDict abstract_data) →
  dict_lookup abstract_data "AbstractText" = Some VNone →
  (∃ e, App.article_block i (VDict article) = Raise e)
  ∧ _extract_abstract (VDict abstract_data) = VStr "".
Proof.
  intros Hm Ha Hab Ht. split; [|exact (extract_abstract_empty_element _ Ht)].
  unfold App.article_block.
  rewrite (getitem_present _ _ _ Hm). cbn [mbind result_bind].
  destruct (getitem (VDict medline) "PMID") as [pmid_node|]; [|eauto].
  cbn [mbind result_bind].
  destruct (getitem pmid_node "#text") as [pmid|]; [|eauto].
  cbn [mbind result_bind].
  rewrite (getitem_present _ _ _ Ha). cbn [mbind result_bind].
  rewrite (abstract_of_empty_element _ _ Hab Ht).
  repeat lazymatch goal with
         | |- ∃ e, (Ok _ ≫= _) = Raise e => cbn [mbind result_bind]
         | |- ∃ e, (Raise _ ≫= _) = Raise e => eexists; reflexivity
         | |- ∃ e, (App.slice_value VNone _ ≫= _) = Raise e =>
             cbn [App.slice_value]
         | |- ∃ e, (?m ≫= _) = Raise e =>
             let x := fresh "x" in destruct m as [x|]
         end.
Qed.

Lemma empty_abstract_drops_article_witness :
  App.article_block 0 (VDict record_with_empty_abstract) = Raise TypeError
  ∧ field (_parse_single_article (VDict record_with_empty_abstract)) "abstract"
    = VStr "".
Proof.
  split; [|reflexivity].
  destruct (proj1 (empty_abstract_drops_article 0 record_with_empty_abstract
                     [("PMID", VDict [("@Version", VStr "1"); ("#text", VStr "8")]);
                      ("Article", VDict [("ArticleTitle", VStr "On roots");
                                         ("Abstract",
                                          VDict [("AbstractText", VNone)])])]
                     [("ArticleTitle", VStr "On roots");
                      ("Abstract", VDict [("AbstractText", VNone)])]
                     [("AbstractText", VNone)] eq_refl eq_refl eq_refl eq_refl))
    as [e E].
  reflexivity.
Defined.

(** ** The details tool *)

Lemma tree_publications_built xml :
  document_tree xml = true →
  Forall (λ article, ∃ doc, document_tree doc = true
                            ∧ _parse_single_article_body doc = Ok article)
    (_parse_articles xml).
Proof.
  intros Htree. unfold _parse_articles, _parse_articles_body.
  destruct (get xml "PubmedArticleSet" (VDict [])) as [pubmed_data|e] eqn:Es;
    [|constructor].
  cbn [mbind result_bind]. get_tree_in Es.
  destruct (truthy pubmed_data); [|constructor]. cbn [negb].
  destruct (get pubmed_data "PubmedArticle" (VList [])) as [docs|e] eqn:Ed;
    [|constructor].
  cbn [mbind result_bind try_except]. get_tree_in Ed.
  apply listify_trees in Ed. rewrite foldl_parse_step. cbn [app].
  induction Ed as [|doc docs' Hdoc _ IH]; [constructor|].
  change (omap publication (doc :: docs'))
    with (match publication doc with
          | Some y => y :: omap publication docs'
          | None => omap publication docs'
          end).
  unfold publication at 1.
  destruct (_parse_single_article_body doc) as [article|e] eqn:E; [|exact IH].
  constructor; [eauto | exact IH].
Qed.

(** X22. For a PMID of digits (blanks around it are ignored) and a
    response that is a document tree with at least one record that can
    be built, the details tool answers with the detail block of the
    first publication: the rendering cannot fail, so the failure text
    is never the answer. *)
Theorem details_of_tree api exception_text pmid_argument xml :
  isdigit (strip pmid_argument) = true →
  api "efetch.fcgi" (details_request (strip pmid_argument)) = inr xml →
  document_tree xml = true →
  _parse_articles xml ≠ [] →
  ∃ article rest text,
    _parse_articles xml = article :: rest
    ∧ _format_article_details article = Ok text
    ∧ _get_publication_details api exception_text pmid_argument = text.
Proof.
  intros Hdigits Hapi Htree Hsome. unfold _get_publication_details.
  cbv zeta. rewrite Hdigits. cbn [negb].
  change [("db", "pubmed"); ("id", strip pmid_argument);
          ("rettype", "abstract"); ("retmode", "xml")]
    with (details_request (strip pmid_argument)).
  rewrite Hapi. pose proof (tree_publications_built _ Htree) as Hall.
  destruct (_parse_articles xml) as [|article rest]; [contradiction|].
  apply Forall_cons in Hall as [(doc & Hdoc & Hbuilt) _].
  destruct (built_tree_renders _ _ Hdoc Hbuilt) as [text E].
  exists article, rest, text. rewrite E. auto.
Qed.

Lemma details_of_tree_witness :
  ∃ text,
    _get_publication_details
      (λ _ _, inr (VDict (article_set (record "5")))) (λ _, "") " 5 " = text
    ∧ _format_article_details (_parse_single_article (record "5")) = Ok text.
Proof.
  destruct (details_of_tree (λ _ _, inr (VDict (article_set (record "5"))))
              (λ _, "") " 5 " (VDict (article_set (record "5")))
              eq_refl eq_refl eq_refl ltac:(discriminate))
    as (article & rest & text & Hparse & Hformat & Htool).
  exists text. split; [exact Htool|].
  injection Hparse as <- _. exact Hformat.
Defined.


